(** * Forecast-accuracy and interconnector dashboards: data pipeline

    A shallow embedding of the data pipeline of the two dashboards

      - [presentation/pn_accuracy_dashboard.py]  (BMU forecast accuracy)
      - [presentation/reference.py]              (interconnector trading)

    The pandas objects the scripts manipulate are modelled by value:
    a table is a list of column names together with a list of rows, a
    row is a finite map from column name to cell, a column ([Series])
    is a list of cells and a boolean mask is a list of booleans.
    Operations that raise in Python return in the [result] monad.
    Where the identity of a table object matters (copy against in-place
    assignment) the tables live in an object store threaded by the
    [Obj] monad.

    Numbers are exact rationals: IEEE rounding and infinities are not
    part of the model, [CNull] stands for NaN, None and NaT alike.
    Timestamps are whole seconds since the Unix epoch, in UTC. *)

From Stdlib Require Import ZArith QArith Qround Lqa Lia List Permutation Sorted Ascii String.
From stdpp Require Import base option list strings pretty gmap.

Import ListNotations.
Local Open Scope string_scope.
Local Open Scope list_scope.
Local Open Scope Z_scope.

(** ** Cells, rows, tables *)

Inductive cell : Type :=
  | CNull
  | CBool (b : bool)
  | CInt (z : Z)
  | CNum (q : Q)
  | CStr (s : string)
  | CTime (t : Z)
  | CDate (d : Z).

Definition series := list cell.
Definition mask := list bool.

Record frame : Type := DataFrame {
  columns : list string;
  rows : list (gmap string cell)
}.

(** A cell that a row does not store reads as null: this is how the
    null fill of [pd.concat] and of a left [merge] is represented. *)
Definition cell_at (c : string) (r : gmap string cell) : cell :=
  default CNull (r !! c).

(** [pd.DataFrame()] and [pd.DataFrame(columns=cs)]. *)
Definition DataFrame_empty : frame := DataFrame [] [].
Definition DataFrame_columns (cs : list string) : frame := DataFrame cs [].

(** [df.empty]: some axis has length zero. *)
Definition df_empty (df : frame) : bool :=
  match columns df, rows df with
  | [], _ | _, [] => true
  | _, _ => false
  end.

(** ** Exceptions *)

Inductive exn : Type :=
  | KeyError (c : string)
  | ValueError (msg : string)
  | TypeError (msg : string)
  | ParserError (msg : string).

Inductive result (A : Type) : Type :=
  | Ok (a : A)
  | Raise (e : exn).
Arguments Ok {A} a.
Arguments Raise {A} e.

Definition rbind {A B} (m : result A) (k : A -> result B) : result B :=
  match m with
  | Ok a => k a
  | Raise e => Raise e
  end.

Declare Scope result_scope.
Delimit Scope result_scope with result.
Notation "x <~ m ; k" := (rbind m (fun x => k))
  (at level 100, m at next level, right associativity) : result_scope.
Local Open Scope result_scope.

Fixpoint rmap {A B} (f : A -> result B) (l : list A) : result (list B) :=
  match l with
  | [] => Ok []
  | a :: l' => b <~ f a ; bs <~ rmap f l' ; Ok (b :: bs)
  end.

(** ** Values in cells *)

(** The number a cell holds, as numpy sees it: booleans count as 0 and 1. *)
Definition num_of (c : cell) : option Q :=
  match c with
  | CBool b => Some (if b then 1%Q else 0%Q)
  | CInt z => Some (inject_Z z)
  | CNum q => Some q
  | _ => None
  end.

(** [pd.isna] on a scalar, [Series.isna] element-wise. *)
Definition isna (c : cell) : bool :=
  match c with CNull => true | _ => false end.

(** Ordering of two cells of the same kind; [None] when one of them is
    null or the kinds differ.  On kinds that differ [==] is false in
    pandas too, but an ordering comparison raises [TypeError] there,
    which is not modelled: the comparisons below are those of pandas
    on a column of one kind, nulls apart, against a value of that
    kind.  A statement that rests on an ordering comparison says
    which kind its column has. *)
Definition cell_cmp (a b : cell) : option comparison :=
  match a, b with
  | CStr s, CStr t => Some (String.compare s t)
  | CTime s, CTime t => Some (Z.compare s t)
  | CDate s, CDate t => Some (Z.compare s t)
  | _, _ =>
      match num_of a, num_of b with
      | Some p, Some q => Some (Qcompare p q)
      | _, _ => None
      end
  end.

(** [a == b], [a >= b], [a <= b], [a > b], [a < b] on scalars: a
    comparison with a null is false. *)
Definition cell_eq (a b : cell) : bool :=
  match cell_cmp a b with Some Eq => true | _ => false end.
Definition cell_ge (a b : cell) : bool :=
  match cell_cmp a b with Some Eq | Some Gt => true | _ => false end.
Definition cell_le (a b : cell) : bool :=
  match cell_cmp a b with Some Eq | Some Lt => true | _ => false end.
Definition cell_gt (a b : cell) : bool :=
  match cell_cmp a b with Some Gt => true | _ => false end.
Definition cell_lt (a b : cell) : bool :=
  match cell_cmp a b with Some Lt => true | _ => false end.

(** Equality as [isin], [unique], [nunique] and [groupby] use it:
    like [==], but two nulls match. *)
Definition cell_same (a b : cell) : bool :=
  match a, b with
  | CNull, CNull => true
  | _, _ => cell_eq a b
  end.

(** ** Series and masks *)

Definition series_eq (s : series) (v : cell) : mask := map (fun c => cell_eq c v) s.
Definition series_ge (s : series) (v : cell) : mask := map (fun c => cell_ge c v) s.
Definition series_le (s : series) (v : cell) : mask := map (fun c => cell_le c v) s.
Definition series_gt (s : series) (v : cell) : mask := map (fun c => cell_gt c v) s.

(** [s.isin(values)]. *)
Definition cell_isin (values : list cell) (c : cell) : bool :=
  existsb (cell_same c) values.
Definition isin (s : series) (values : list cell) : mask :=
  map (cell_isin values) s.

(** [m1 & m2] and [m1 | m2]. *)
Definition mask_and (m1 m2 : mask) : mask := zip_with andb m1 m2.
Definition mask_or (m1 m2 : mask) : mask := zip_with orb m1 m2.

(** [s.dropna()], [s.size], [s.apply(f)]. *)
Definition series_dropna (s : series) : series := List.filter (fun c => negb (isna c)) s.
Definition series_size (s : series) : nat := length s.
Definition series_apply (f : cell -> cell) (s : series) : series := map f s.

(** [s.unique()]: first occurrences, in order of appearance. *)
Fixpoint unique (s : series) : series :=
  match s with
  | [] => []
  | c :: s' => c :: List.filter (fun d => negb (cell_same d c)) (unique s')
  end.

(** [s.nunique()]: distinct values, nulls not counted. *)
Definition nunique (s : series) : nat := length (unique (series_dropna s)).

(** ** Table operations *)

Definition has_column (df : frame) (c : string) : bool :=
  bool_decide (c ∈ columns df).

(** [df[c]]. *)
Definition getitem (df : frame) (c : string) : result series :=
  if has_column df c then Ok (map (cell_at c) (rows df)) else Raise (KeyError c).

(** [df[c] = s]: replaces column [c] or appends it. *)
Definition setitem (df : frame) (c : string) (s : series) : result frame :=
  if Nat.eqb (length s) (length (rows df)) then
    Ok (DataFrame (if has_column df c then columns df else columns df ++ [c])
                  (zip_with (fun r v => <[c := v]> r) (rows df) s))
  else Raise (ValueError "Length of values does not match length of index").

(** [df[c] = v] for a scalar [v]. *)
Definition setitem_scalar (df : frame) (c : string) (v : cell) : frame :=
  DataFrame (if has_column df c then columns df else columns df ++ [c])
            (map (fun r => <[c := v]> r) (rows df)).

(** [df[m]] for a boolean mask [m]. *)
Definition getitem_mask (df : frame) (m : mask) : result frame :=
  if Nat.eqb (length m) (length (rows df)) then
    Ok (DataFrame (columns df) (map fst (List.filter snd (zip (rows df) m))))
  else Raise (ValueError "Item wrong length").

(** [df.dropna(subset=cs)]. *)
Definition dropna (df : frame) (cs : list string) : result frame :=
  match List.find (fun c => negb (has_column df c)) cs with
  | Some c => Raise (KeyError c)
  | None =>
      Ok (DataFrame (columns df)
            (List.filter (fun r => forallb (fun c => negb (isna (cell_at c r))) cs) (rows df)))
  end.

(** [pd.concat(dfs, ignore_index=True)]: rows stacked, columns united
    in order of first appearance. *)
Definition union_columns (cs ds : list string) : list string :=
  cs ++ List.filter (fun d => negb (bool_decide (d ∈ cs))) ds.

Definition pd_concat (dfs : list frame) : result frame :=
  match dfs with
  | [] => Raise (ValueError "No objects to concatenate")
  | _ => Ok (DataFrame (foldl union_columns [] (map columns dfs))
                       (List.concat (map rows dfs)))
  end.

(** [df.columns = [f(c) for c in df.columns]].  Two columns that get
    the same name become one here; pandas keeps both, and selecting
    that name gives a table where a column is expected.  The
    statements about the accuracy loader are about files whose
    headers stay distinct. *)
Definition rename_row (f : string -> string) (cs : list string) (r : gmap string cell)
    : gmap string cell :=
  foldr (fun c acc => match r !! c with Some v => <[f c := v]> acc | None => acc end) ∅ cs.

Definition set_columns (f : string -> string) (df : frame) : frame :=
  DataFrame (map f (columns df)) (map (rename_row f (columns df)) (rows df)).

(** [df.rename(columns={old: new})]. *)
Definition rename (old new : string) (df : frame) : frame :=
  set_columns (fun c => if String.eqb c old then new else c) df.

(** ** Strings *)

Definition is_space (a : ascii) : bool :=
  let n := nat_of_ascii a in
  (Nat.eqb n 32 || (Nat.leb 9 n && Nat.leb n 13))%bool.

Definition is_digit (a : ascii) : bool :=
  let n := nat_of_ascii a in (Nat.leb 48 n && Nat.leb n 57)%bool.

Fixpoint lstrip (s : string) : string :=
  match s with
  | String a s' => if is_space a then lstrip s' else s
  | EmptyString => EmptyString
  end.

Definition rev_string (s : string) : string :=
  string_of_list_ascii (rev (list_ascii_of_string s)).

(** [str.strip()], on ASCII white space: the space and the characters
    9 to 13.  Python strips the characters 28 to 31 and the other
    Unicode white space as well; the two agree on text made of
    printable ASCII characters. *)
Definition strip (s : string) : string :=
  rev_string (lstrip (rev_string (lstrip s))).

Definition upper_ascii (a : ascii) : ascii :=
  let n := nat_of_ascii a in
  if (Nat.leb 97 n && Nat.leb n 122)%bool then ascii_of_nat (n - 32) else a.

(** [str.upper()], on ASCII letters; it agrees with Python's on ASCII
    text. *)
Fixpoint upper (s : string) : string :=
  match s with
  | String a s' => String (upper_ascii a) (upper s')
  | EmptyString => EmptyString
  end.

(** [sub in s]. *)
Fixpoint contains (sub s : string) : bool :=
  (String.prefix sub s ||
   match s with
   | String _ s' => contains sub s'
   | EmptyString => false
   end)%bool.

(** [re.sub(r"-(\d)$", r"-0\1", s)]: a final hyphen-digit pair gets a
    zero between the two. *)
Fixpoint pad_month (s : string) : string :=
  match s with
  | String "-" (String d EmptyString) =>
      if is_digit d then String "-" (String "0" (String d EmptyString)) else s
  | String a s' => String a (pad_month s')
  | EmptyString => EmptyString
  end.

Definition digit_val (a : ascii) : Z := Z.of_nat (nat_of_ascii a) - 48.

(** A non-empty run of decimal digits, as a number. *)
Definition digits (s : string) : option Z :=
  match s with
  | EmptyString => None
  | _ =>
      if forallb is_digit (list_ascii_of_string s)
      then Some (fold_left (fun n a => 10 * n + digit_val a) (list_ascii_of_string s) 0)
      else None
  end.

(** [n] in decimal, zero-padded on the left to [w] characters. *)
Definition zpad (w : nat) (n : Z) : string :=
  let s := pretty n in
  string_of_list_ascii (repeat "0"%char (w - String.length s)) +:+ s.

(** ** Calendar *)

(** Days since 1970-01-01 of a proleptic Gregorian date, and back. *)
Definition days_from_civil (y m d : Z) : Z :=
  let y' := if m <=? 2 then y - 1 else y in
  let era := y' / 400 in
  let yoe := y' - era * 400 in
  let doy := (153 * (if 2 <? m then m - 3 else m + 9) + 2) / 5 + d - 1 in
  let doe := yoe * 365 + yoe / 4 - yoe / 100 + doy in
  era * 146097 + doe - 719468.

Definition civil_from_days (z : Z) : Z * Z * Z :=
  let z' := z + 719468 in
  let era := z' / 146097 in
  let doe := z' - era * 146097 in
  let yoe := (doe - doe / 1460 + doe / 36524 - doe / 146096) / 365 in
  let doy := doe - (365 * yoe + yoe / 4 - yoe / 100) in
  let mp := (5 * doy + 2) / 153 in
  let d := doy - (153 * mp + 2) / 5 + 1 in
  let m := if mp <? 10 then mp + 3 else mp - 9 in
  (if m <=? 2 then yoe + era * 400 + 1 else yoe + era * 400, m, d).

Definition month_names : list string :=
  ["January"; "February"; "March"; "April"; "May"; "June"; "July";
   "August"; "September"; "October"; "November"; "December"].

(** The [.dt] accessors; a null timestamp gives a null. *)
Definition dt_date (c : cell) : cell :=
  match c with CTime t => CDate (t / 86400) | _ => CNull end.
Definition dt_hour (c : cell) : cell :=
  match c with CTime t => CInt ((t mod 86400) / 3600) | _ => CNull end.
Definition dt_year (c : cell) : cell :=
  match c with CTime t => CInt (civil_from_days (t / 86400)).1.1 | _ => CNull end.
Definition dt_month (c : cell) : cell :=
  match c with CTime t => CInt (civil_from_days (t / 86400)).1.2 | _ => CNull end.
Definition dt_month_name (c : cell) : cell :=
  match c with
  | CTime t =>
      CStr (nth (Z.to_nat ((civil_from_days (t / 86400)).1.2 - 1)) month_names "")
  | _ => CNull
  end.
(** [.dt.strftime("%Y-%m")]. *)
Definition dt_strftime_Ym (c : cell) : cell :=
  match c with
  | CTime t =>
      let '(y, m, _) := civil_from_days (t / 86400) in
      CStr (zpad 4 y +:+ "-" +:+ zpad 2 m)
  | _ => CNull
  end.

(** A reader of periods for the examples: four digits, a hyphen, a
    month from 1 to 12 in one or two digits, read as the first day of
    that month.  (It knows nothing of the bounds of a pandas
    timestamp; the loader takes its reader as a parameter.) *)
Definition strptime_Ym (s : string) : option Z :=
  match digits (String.substring 0 4 s), String.get 4 s,
        digits (String.substring 5 (String.length s - 5) s) with
  | Some y, Some "-"%char, Some m =>
      if (Nat.eqb (String.length (String.substring 0 4 s)) 4
          && Nat.leb (String.length s) 7 && (1 <=? m) && (m <=? 12))%bool
      then Some (days_from_civil y m 1 * 86400)
      else None
  | _, _, _ => None
  end.

(** ** numpy percentiles *)

Fixpoint insert_by {A} (leb : A -> A -> bool) (x : A) (l : list A) : list A :=
  match l with
  | [] => [x]
  | y :: l' => if leb x y then x :: l else y :: insert_by leb x l'
  end.

Definition sort_by {A} (leb : A -> A -> bool) (l : list A) : list A :=
  foldr (insert_by leb) [] l.

(** [np.percentile(xs, q)], default (linear) method: the value at the
    virtual index [q/100 * (n-1)] of the sorted data, interpolated
    between its two neighbours.  [None] on no data. *)
Definition percentile (xs : list Q) (q : Q) : option Q :=
  match sort_by Qle_bool xs with
  | [] => None
  | (x0 :: _) as sorted =>
      let n := Z.of_nat (length sorted) in
      let idx := (q / 100 * (inject_Z n - 1))%Q in
      let lo := Qfloor idx in
      let hi := Z.min (lo + 1) (n - 1) in
      let a := nth (Z.to_nat lo) sorted x0 in
      let b := nth (Z.to_nat hi) sorted x0 in
      Some (Qred (a + (b - a) * (idx - inject_Z lo)))
  end.

(** [np.nanpercentile(s, q)]: nulls are left out; NaN when nothing is
    left. *)
Definition nanpercentile (s : series) (q : Q) : cell :=
  match percentile (omap num_of s) q with
  | Some v => CNum v
  | None => CNull
  end.

(** ** Grouping and joining *)

Definition cell_leb (a b : cell) : bool :=
  match cell_cmp a b with Some Gt => false | _ => true end.

(** The keys of [df.groupby(key)]: distinct non-null values, sorted. *)
Definition group_keys (ks : series) : series :=
  sort_by cell_leb (unique (series_dropna ks)).

(** The column [val] of the rows whose [key] is [k], in row order. *)
Definition group_values (df : frame) (key val : string) (k : cell) : series :=
  map (cell_at val) (List.filter (fun r => cell_same (cell_at key r) k) (rows df)).

(** [df.groupby(key)[val].agg(f).reset_index(name=name)]: one row per
    key, holding the key and the aggregate of its group. *)
Definition groupby_agg (df : frame) (key val : string) (f : series -> cell)
    (name : string) : result frame :=
  ks <~ getitem df key ;
  _ <~ getitem df val ;
  Ok (DataFrame [key; name]
        (map (fun k => <[name := f (group_values df key val k)]> {[key := k]})
             (group_keys ks))).

(** [left.merge(right, on=on, how="left")].  Every left row is kept: it
    is paired with each right row of the same key, or padded with nulls
    when there is none.  Columns the two sides share besides the key get
    the suffixes [_x] and [_y]. *)
Definition merge_left (left right : frame) (on : string) : result frame :=
  _ <~ getitem left on ;
  _ <~ getitem right on ;
  let shared c := (negb (String.eqb c on) && has_column left c && has_column right c)%bool in
  let suffix x c := if shared c then c +:+ x else c in
  let l := if existsb shared (columns left) then set_columns (suffix "_x") left else left in
  let r := if existsb shared (columns left) then set_columns (suffix "_y") right else right in
  Ok (DataFrame
        (columns l ++ List.filter (fun c => negb (String.eqb c on)) (columns r))
        (List.concat
           (map (fun lr =>
                   match List.filter (fun rr => cell_same (cell_at on rr) (cell_at on lr))
                                     (rows r) with
                   | [] => [lr]
                   | ms => map (fun rr => lr ∪ delete on rr) ms
                   end)
                (rows l)))).

(** ** Sources *)

(** An input file: its name and what [pd.read_csv] makes of it. *)
Inductive read_outcome : Type :=
  | Unreadable (msg : string)
  | Parsed (df : frame).

Record source : Type := Source { name : string; content : read_outcome }.

Definition read_csv (f : source) : result frame :=
  match content f with
  | Parsed df => Ok df
  | Unreadable msg => Raise (ParserError msg)
  end.

(** ** Ingestion *)

Section Ingestion.

(** The text-level parsers and printer of pandas are parameters:
    which strings [pd.to_numeric] accepts, which ones
    [pd.to_datetime] accepts without a format ([parse_datetime]) and
    with the format [%Y-%m] ([parse_period]), and how a float
    prints. *)
Variable parse_float : string -> option Q.
Variable parse_datetime : string -> option Z.
Variable parse_period : string -> option Z.
Variable repr_float : Q -> string.

(** [pd.to_numeric(s, errors="coerce")].  ([read_csv] produces no
    timestamp or date cells.) *)
Definition to_numeric_cell (c : cell) : cell :=
  match c with
  | CStr s => match parse_float s with Some q => CNum q | None => CNull end
  | CBool _ | CInt _ | CNum _ => c
  | CNull | CTime _ | CDate _ => CNull
  end.
Definition to_numeric (s : series) : series := map to_numeric_cell s.

(** [pd.to_datetime(s, errors="coerce", utc=True)]; numbers are
    nanoseconds since the epoch, booleans count as unparseable.  One
    call reads every text in one way, [parse_datetime]; pandas
    chooses that way from the column it is given (the format of its
    first value), so two calls need not read a text alike. *)
Definition to_datetime_cell (c : cell) : cell :=
  match c with
  | CStr s => match parse_datetime s with Some t => CTime t | None => CNull end
  | CTime t => CTime t
  | CInt n => CTime (n / 1000000000)
  | CNum q => CTime (Qfloor q / 1000000000)
  | CNull | CBool _ | CDate _ => CNull
  end.
Definition to_datetime (s : series) : series := map to_datetime_cell s.

(** [pd.to_datetime(s, format="%Y-%m", errors="coerce")]. *)
Definition to_datetime_Ym_cell (c : cell) : cell :=
  match c with
  | CStr s => match parse_period s with Some t => CTime t | None => CNull end
  | _ => CNull
  end.
Definition to_datetime_Ym (s : series) : series := map to_datetime_Ym_cell s.

(** [str(v)].  The text of a missing value is [nan], that of a float
    [NaN]; the statements below use it on text cells. *)
Definition py_str (c : cell) : string :=
  match c with
  | CNull => "nan"
  | CBool b => if b then "True" else "False"
  | CInt z => pretty z
  | CNum q => repr_float q
  | CStr s => s
  | CTime t =>
      let '(y, m, d) := civil_from_days (t / 86400) in
      zpad 4 y +:+ "-" +:+ zpad 2 m +:+ "-" +:+ zpad 2 d +:+ " "
      +:+ zpad 2 (t mod 86400 / 3600) +:+ ":" +:+ zpad 2 (t mod 3600 / 60) +:+ ":"
      +:+ zpad 2 (t mod 60) +:+ "+00:00"
  | CDate n =>
      let '(y, m, d) := civil_from_days n in
      zpad 4 y +:+ "-" +:+ zpad 2 m +:+ "-" +:+ zpad 2 d
  end.

(** [s.astype(str)].  A missing value becomes the text [nan], as it
    does before pandas 3; from pandas 3 on it stays missing. *)
Definition astype_str (s : series) : series := map (fun c => CStr (py_str c)) s.

(** [s.str.replace(r"-(\d)$", r"-0\1", regex=True)]. *)
Definition str_pad_month (s : series) : series :=
  map (fun c => match c with CStr x => CStr (pad_month x) | _ => CNull end) s.

Definition num_cols : list string :=
  ["PNLevel"; "MELLevel"; "MILLevel"; "BidVolume"; "OfferVolume"; "Metered";
   "ExpectOT"; "CapacityCalibrated"; "NetError"; "ABSError";
   "max_M_ABS_NetError%"; "installedCapacity_mwh"; "A_NetError%";
   "A_ABS_NetError%"; "Rank_A_ABS_NetError%"; "PctRank_A_ABS_NetError%"].

Definition num_cols_m : list string :=
  ["PNLevel"; "MELLevel"; "MILLevel"; "BidVolume"; "OfferVolume"; "Metered";
   "ExpectOT"; "CapacityCalibrated"; "NetError"; "ABSError";
   "installedCapacity_mwh"; "M_NetError%"; "M_ABS_NetError%";
   "Rank_M_ABS_NetError%"; "PctRank_M_ABS_NetError%"].

(** [for c in cols: if c in df.columns: df[c] = pd.to_numeric(df[c], errors="coerce")]. *)
Fixpoint coerce_numeric (cols : list string) (df : frame) : result frame :=
  match cols with
  | [] => Ok df
  | c :: cols' =>
      df <~ (if has_column df c
             then s <~ getitem df c ; setitem df c (to_numeric s)
             else Ok df) ;
      coerce_numeric cols' df
  end.

(** The body of the loop over [annual_files]. *)
Definition load_annual (f : source) : result frame :=
  df <~ read_csv f ;
  let df := set_columns strip df in
  df <~ coerce_numeric num_cols df ;
  s <~ getitem df "nationalGridBmUnit" ;
  df <~ setitem df "BMU" (astype_str s) ;
  s <~ getitem df "FUEL_I" ;
  df <~ setitem df "Fuel" (astype_str s) ;
  let df := setitem_scalar df "Year" (CInt 2025) in
  let df := setitem_scalar df "Grain" (CStr "annual") in
  Ok df.

(** The body of the loop over [monthly_files]. *)
Definition load_monthly (f : source) : result frame :=
  df <~ read_csv f ;
  let df := set_columns strip df in
  s <~ getitem df "year_month" ;
  df <~ setitem df "year_month" (astype_str s) ;
  s <~ getitem df "year_month" ;
  df <~ setitem df "year_month_fixed" (str_pad_month s) ;
  s <~ getitem df "year_month_fixed" ;
  df <~ setitem df "YearMonth" (to_datetime_Ym s) ;
  s <~ getitem df "YearMonth" ;
  df <~ setitem df "Year" (map dt_year s) ;
  s <~ getitem df "YearMonth" ;
  df <~ setitem df "Month" (map dt_month s) ;
  s <~ getitem df "YearMonth" ;
  df <~ setitem df "MonthName" (map dt_month_name s) ;
  df <~ coerce_numeric num_cols_m df ;
  s <~ getitem df "nationalGridBmUnit" ;
  df <~ setitem df "BMU" (astype_str s) ;
  s <~ getitem df "FUEL_I" ;
  df <~ setitem df "Fuel" (astype_str s) ;
  let df := setitem_scalar df "Grain" (CStr "monthly") in
  Ok df.

(** [pd.concat(dfs, ignore_index=True) if dfs else pd.DataFrame()]. *)
Definition concat_or_empty (dfs : list frame) : result frame :=
  match dfs with
  | [] => Ok DataFrame_empty
  | _ => pd_concat dfs
  end.

Definition load_accuracy_data (annual_files monthly_files : list source)
    : result (frame * frame) :=
  annual_dfs <~ rmap load_annual annual_files ;
  df_annual <~ concat_or_empty annual_dfs ;
  monthly_dfs <~ rmap load_monthly monthly_files ;
  df_monthly <~ concat_or_empty monthly_dfs ;
  Ok (df_annual, df_monthly).

Definition required_cols : list string :=
  ["HourStartLocal"; "Interconnector"; "Trade_Abs_MW"; "Trade_Direction";
   "IsPartialHour"; "Trade_Bucket_All"].

(** The loop over the sources.  A source that cannot be read leaves a
    diagnostic ([st.error]); one that lacks a required column is
    passed over without one.  Returns the diagnostics and [all_dfs]. *)
Fixpoint read_sources (files_or_paths : list source) : list string * list frame :=
  match files_or_paths with
  | [] => ([], [])
  | src :: rest =>
      let '(errors, all_dfs) := read_sources rest in
      match read_csv src with
      | Ok df =>
          if forallb (has_column df) required_cols
          then (errors, df :: all_dfs)
          else (errors, all_dfs)
      | Raise e =>
          let msg := match e with
                     | KeyError m | ValueError m | TypeError m | ParserError m => m
                     end in
          (("Error loading " +:+ name src +:+ ": " +:+ msg) :: errors, all_dfs)
      end
  end.

Definition map_group (nm : cell) : cell :=
  let name_str := upper (py_str nm) in
  if contains "IFA" name_str then CStr "IFA" else nm.

(** The diagnostics shown, and the table returned. *)
Definition load_and_transform_data (files_or_paths : list source)
    : list string * result frame :=
  let '(errors, all_dfs) := read_sources files_or_paths in
  (errors,
   match all_dfs with
   | [] => Ok DataFrame_empty
   | _ =>
       fact_trades <~ pd_concat all_dfs ;
       s <~ getitem fact_trades "HourStartLocal" ;
       fact_trades <~ setitem fact_trades "HourStartLocal" (to_datetime s) ;
       fact_trades <~ dropna fact_trades ["HourStartLocal"; "Trade_Abs_MW"; "Interconnector"] ;
       s <~ getitem fact_trades "HourStartLocal" ;
       fact_trades <~ setitem fact_trades "Date" (map dt_date s) ;
       s <~ getitem fact_trades "HourStartLocal" ;
       fact_trades <~ setitem fact_trades "Hour" (map dt_hour s) ;
       s <~ getitem fact_trades "HourStartLocal" ;
       fact_trades <~ setitem fact_trades "Year" (map dt_year s) ;
       s <~ getitem fact_trades "HourStartLocal" ;
       fact_trades <~ setitem fact_trades "Month" (map dt_month s) ;
       s <~ getitem fact_trades "HourStartLocal" ;
       fact_trades <~ setitem fact_trades "MonthName" (map dt_month_name s) ;
       s <~ getitem fact_trades "HourStartLocal" ;
       fact_trades <~ setitem fact_trades "YearMonth" (map dt_strftime_Ym s) ;
       s <~ getitem fact_trades "Interconnector" ;
       setitem fact_trades "Interconnector Group" (series_apply map_group s)
   end).

(** *** [load_and_transform_data]  (reference.py) *)

End Ingestion.

(** ** Enrichment  (pn_accuracy_dashboard.py, module 2) *)

Definition series_of_mask (m : mask) : series := map CBool m.

(** [lambda s: np.nanpercentile(s.dropna(), 90) if s.dropna().size > 0 else np.nan]. *)
Definition p90 (s : series) : cell :=
  if Nat.ltb 0 (series_size (series_dropna s))
  then nanpercentile (series_dropna s) 90
  else CNull.

(** "Precompute monthly P90 per BMU". *)
Definition df_monthly_p90 (df_monthly : frame) : result frame :=
  if negb (df_empty df_monthly) then
    g <~ groupby_agg df_monthly "BMU" "M_ABS_NetError%" p90 "M_ABS_NetError%" ;
    Ok (rename "M_ABS_NetError%" "P90_monthly_error" g)
  else Ok (DataFrame_columns ["BMU"; "P90_monthly_error"]).

(** "Universal Error % for filtering" and "Attention rule >= 25%". *)
Definition NeedsAttention (df_annual : frame) : result frame :=
  s <~ getitem df_annual "A_ABS_NetError%" ;
  df_annual <~ setitem df_annual "ErrorFlagValue" s ;
  a <~ getitem df_annual "A_ABS_NetError%" ;
  p <~ getitem df_annual "P90_monthly_error" ;
  setitem df_annual "NeedsAttention"
    (series_of_mask (mask_or (series_ge a (CInt 25)) (series_ge p (CInt 25)))).

(** Lines 265 to 288: the enriched annual table. *)
Definition enrich (df_annual df_monthly : frame) : result frame :=
  p <~ df_monthly_p90 df_monthly ;
  df_annual <~ merge_left df_annual p "BMU" ;
  NeedsAttention df_annual.

(** ** Aggregation *)

(** [v < bound] on a scalar that is not null. *)
Definition py_lt (v bound : cell) : result bool :=
  match cell_cmp v bound with
  | Some Lt => Ok true
  | Some _ => Ok false
  | None => Raise (TypeError "'<' not supported")
  end.

Definition classify_band (v : cell) : result string :=
  if isna v then Ok "Unknown" else
  b <~ py_lt v (CInt 1) ; if b : bool then Ok "0–1%" else
  b <~ py_lt v (CInt 2) ; if b : bool then Ok "1–2%" else
  b <~ py_lt v (CInt 4) ; if b : bool then Ok "2–4%" else
  b <~ py_lt v (CInt 10) ; if b : bool then Ok "4–10%" else
  Ok ">10%".

(** [s.sum()] and [s.mean()], nulls skipped, in exact arithmetic: the
    rounding of float64 and the range of int64 are not modelled. *)
Definition series_sum (s : series) : Q :=
  Qred (fold_right Qplus 0%Q (omap num_of s)).
Definition series_mean (s : series) : cell :=
  match omap num_of s with
  | [] => CNull
  | xs => CNum (Qred (fold_right Qplus 0%Q xs / inject_Z (Z.of_nat (length xs))))
  end.

(** [get_measures]  (reference.py). *)
Definition get_measures (df : frame) (threshold : cell)
    : result (nat * nat * nat * Q * cell) :=
  t <~ getitem df "Trade_Abs_MW" ;
  subset <~ getitem_mask df (series_gt t threshold) ;
  let ic_hours_above := length (rows subset) in
  h <~ getitem subset "HourStartLocal" ;
  let network_hours_above := nunique h in
  d <~ getitem subset "Date" ;
  let days_above := nunique d in
  t <~ getitem subset "Trade_Abs_MW" ;
  let total_energy_mwh := series_sum t in
  t <~ getitem subset "Trade_Abs_MW" ;
  let avg_power_mw := if Nat.ltb 0 ic_hours_above then series_mean t else CInt 0 in
  Ok (ic_hours_above, network_hours_above, days_above, total_energy_mwh, avg_power_mw).

Definition ic_hours_above (df : frame) (threshold : cell) : result nat :=
  m <~ get_measures df threshold ; Ok m.1.1.1.1.

(** [daily_data]  (reference.py, "Daily Activity" tab). *)
Definition daily_data (filtered_fact : frame) (mw_threshold : cell) : result frame :=
  t <~ getitem filtered_fact "Trade_Abs_MW" ;
  above <~ getitem_mask filtered_fact (series_gt t mw_threshold) ;
  groupby_agg above "Date" "Hour" (fun s => CInt (Z.of_nat (nunique s)))
              "Hours Over Threshold".

(** ** Table objects *)

(** The scripts hold tables by reference.  An object store maps object
    identities (positions) to the table each currently holds; [copy]
    and selection by mask allocate a new object, item assignment writes
    into an existing one. *)
Abbreviation store := (list frame).
Definition Obj (A : Type) : Type := store -> result (A * store).

Definition oret {A} (a : A) : Obj A := fun σ => Ok (a, σ).
Definition obind {A B} (m : Obj A) (k : A -> Obj B) : Obj B :=
  fun σ => match m σ with
           | Ok (a, σ') => k a σ'
           | Raise e => Raise e
           end.

Declare Scope obj_scope.
Delimit Scope obj_scope with obj.
Notation "x <- m ;; k" := (obind m (fun x => k))
  (at level 100, m at next level, right associativity) : obj_scope.
Notation "m ;;; k" := (obind m (fun _ => k))
  (at level 100, right associativity) : obj_scope.

Definition lift {A} (r : result A) : Obj A :=
  fun σ => match r with Ok a => Ok (a, σ) | Raise e => Raise e end.

Definition new (df : frame) : Obj nat := fun σ => Ok (length σ, σ ++ [df]).

Definition deref (l : nat) : Obj frame :=
  fun σ => match σ !! l with
           | Some df => Ok (df, σ)
           | None => Raise (ValueError "no such object")
           end.

Definition assign (l : nat) (df : frame) : Obj unit :=
  fun σ => Ok (tt, <[l := df]> σ).

(** [df.copy()], [df[c]], [df[m]], [df[c] = s]. *)
Definition df_copy (l : nat) : Obj nat :=
  (df <- deref l ;; new df)%obj.
Definition df_getitem (l : nat) (c : string) : Obj series :=
  (df <- deref l ;; lift (getitem df c))%obj.
Definition df_getitem_mask (l : nat) (m : mask) : Obj nat :=
  (df <- deref l ;; df' <- lift (getitem_mask df m) ;; new df')%obj.
Definition df_setitem (l : nat) (c : string) (s : series) : Obj unit :=
  (df <- deref l ;; df' <- lift (setitem df c s) ;; assign l df')%obj.

(** Running a computation that takes one table and returns one, with
    the argument as the only object. *)
Definition run_on (f : nat -> Obj nat) (df : frame) : result frame :=
  match f 0%nat [df] with
  | Ok (l, σ) =>
      match σ !! l with
      | Some out => Ok out
      | None => Raise (ValueError "no such object")
      end
  | Raise e => Raise e
  end.

(** ** Filters *)

(** [apply_filters]  (reference.py). [dr] is the date range: it is
    applied when it is a pair. *)
Definition apply_filters (df : nat) (dr groups_sel ics_sel : list cell)
    (dir_mode : string) (inc_partial : bool) : Obj nat :=
  (temp_df <- df_copy df ;;
   temp_df <- match dr with
              | [dr0; dr1] =>
                  d0 <- df_getitem temp_df "Date" ;;
                  d1 <- df_getitem temp_df "Date" ;;
                  df_getitem_mask temp_df (mask_and (series_ge d0 dr0) (series_le d1 dr1))
              | _ => oret temp_df
              end ;;
   g <- df_getitem temp_df "Interconnector Group" ;;
   temp_df <- df_getitem_mask temp_df (isin g groups_sel) ;;
   i <- df_getitem temp_df "Interconnector" ;;
   temp_df <- df_getitem_mask temp_df (isin i ics_sel) ;;
   temp_df <- (if negb inc_partial then
                 p <- df_getitem temp_df "IsPartialHour" ;;
                 df_getitem_mask temp_df (series_eq p (CBool false))
               else oret temp_df) ;;
   temp_df <- (if String.eqb dir_mode "Import" then
                 t <- df_getitem temp_df "Trade_Direction" ;;
                 df_getitem_mask temp_df (series_eq t (CStr "Import"))
               else if String.eqb dir_mode "Export" then
                 t <- df_getitem temp_df "Trade_Direction" ;;
                 df_getitem_mask temp_df (series_eq t (CStr "Export"))
               else oret temp_df) ;;
   oret temp_df)%obj.

(** "Apply global filters"  (pn_accuracy_dashboard.py, lines 305 to 313). *)
Definition filtered_annual (df_annual : nat) (fuel_filter bmu_filter : list cell)
    (attention_only : bool) : Obj nat :=
  (filtered_annual <- df_copy df_annual ;;
   f <- df_getitem filtered_annual "Fuel" ;;
   filtered_annual <- df_getitem_mask filtered_annual (isin f fuel_filter) ;;
   filtered_annual <- match bmu_filter with
                      | [] => oret filtered_annual
                      | _ =>
                          b <- df_getitem filtered_annual "BMU" ;;
                          df_getitem_mask filtered_annual (isin b bmu_filter)
                      end ;;
   filtered_annual <- (if attention_only then
                         n <- df_getitem filtered_annual "NeedsAttention" ;;
                         df_getitem_mask filtered_annual (series_eq n (CBool true))
                       else oret filtered_annual) ;;
   oret filtered_annual)%obj.

(** [filtered_annual["ErrorBand"] = filtered_annual["A_ABS_NetError%"].apply(classify_band)]
    (line 452): an assignment into the filtered table. *)
Definition ErrorBand (filtered_annual : nat) : Obj unit :=
  (s <- df_getitem filtered_annual "A_ABS_NetError%" ;;
   bands <- lift (rmap classify_band s) ;;
   df_setitem filtered_annual "ErrorBand" (map CStr bands))%obj.

(** * Specifications *)

(** Column membership in a table that is given explicitly. *)
Ltac col_in := apply list_elem_of_In; simpl; tauto.
Ltac col_notin :=
  let H := fresh in
  intros H; apply list_elem_of_In in H; simpl in H; intuition discriminate.

(** ** Table objects: a weakest-precondition calculus *)

Definition wp {A} (m : Obj A) (σ : store) (Q : A -> store -> Prop) : Prop :=
  match m σ with
  | Ok (a, σ') => Q a σ'
  | Raise _ => False
  end.

(** [selected σ0 df p l σ]: in [σ], object [l] holds the rows of [df]
    that satisfy [p], under the columns of [df], and [σ] extends [σ0]
    without changing any of its objects. *)
Definition selected (σ0 : store) (df : frame) (p : gmap string cell -> bool)
    (l : nat) (σ : store) : Prop :=
  σ !! l = Some (DataFrame (columns df) (List.filter p (rows df)))
  /\ σ0 `prefix_of` σ /\ (length σ0 <= l)%nat.

(** ** The trading filter *)

(** The rows [apply_filters] keeps. *)
Definition in_date_range (dr : list cell) (r : gmap string cell) : bool :=
  match dr with
  | [dr0; dr1] => cell_ge (cell_at "Date" r) dr0 && cell_le (cell_at "Date" r) dr1
  | _ => true
  end.

Definition in_direction (dir_mode : string) (r : gmap string cell) : bool :=
  if String.eqb dir_mode "Import" then cell_eq (cell_at "Trade_Direction" r) (CStr "Import")
  else if String.eqb dir_mode "Export" then cell_eq (cell_at "Trade_Direction" r) (CStr "Export")
  else true.

Definition passes_filters (dr groups_sel ics_sel : list cell) (dir_mode : string)
    (inc_partial : bool) (r : gmap string cell) : bool :=
  in_date_range dr r
  && cell_isin groups_sel (cell_at "Interconnector Group" r)
  && cell_isin ics_sel (cell_at "Interconnector" r)
  && (inc_partial || cell_eq (cell_at "IsPartialHour" r) (CBool false))
  && in_direction dir_mode r.

(** The columns [apply_filters] reads. *)
Definition filter_columns : list string :=
  ["Date"; "Interconnector Group"; "Interconnector"; "IsPartialHour"; "Trade_Direction"].

(** ** The annual filter *)

Definition passes_annual (fuel_filter bmu_filter : list cell) (attention_only : bool)
    (r : gmap string cell) : bool :=
  cell_isin fuel_filter (cell_at "Fuel" r)
  && match bmu_filter with
     | [] => true
     | _ => cell_isin bmu_filter (cell_at "BMU" r)
     end
  && (negb attention_only || cell_eq (cell_at "NeedsAttention" r) (CBool true)).

Definition annual_filter_columns : list string := ["Fuel"; "BMU"; "NeedsAttention"].

(** ** The attention flag *)

(** "[c >= 25]" for a cell: it holds a number, and the number is at
    least 25. *)
Definition at_least_25 (c : cell) : Prop :=
  exists q, num_of c = Some q /\ (25 <= q)%Q.

(** The row [NeedsAttention] makes of a row. *)
Definition flagged (r : gmap string cell) : gmap string cell :=
  <["NeedsAttention" :=
      CBool (cell_ge (cell_at "A_ABS_NetError%" r) (CInt 25)
             || cell_ge (cell_at "P90_monthly_error" r) (CInt 25))]>
    (<["ErrorFlagValue" := cell_at "A_ABS_NetError%" r]> r).

Definition annual_scenario : frame :=
  DataFrame ["BMU"; "A_ABS_NetError%"]
    [ {[ "BMU" := CStr "E1"; "A_ABS_NetError%" := CInt 24 ]};
      {[ "BMU" := CStr "E2"; "A_ABS_NetError%" := CInt 24 ]};
      {[ "BMU" := CStr "E3"; "A_ABS_NetError%" := CInt 24 ]} ].

Definition monthly_scenario : frame :=
  DataFrame ["BMU"; "M_ABS_NetError%"]
    [ {[ "BMU" := CStr "E1"; "M_ABS_NetError%" := CInt 26 ]};
      {[ "BMU" := CStr "E3"; "M_ABS_NetError%" := CNull ]} ].

(** ** Hours over threshold *)

Definition hour_of (c : cell) : nat :=
  match c with CInt h => Z.to_nat h | _ => 0 end.

(** What [dt_hour] returns: a null, or an hour from 0 to 23. *)
Definition is_hour (c : cell) : Prop :=
  c = CNull \/ exists h, c = CInt h /\ 0 <= h < 24.

(** The mask [df["Trade_Abs_MW"] > threshold] on a row, as the tables
    compute it. *)
Definition above (threshold : cell) (r : gmap string cell) : bool :=
  cell_gt (cell_at "Trade_Abs_MW" r) threshold.

(** The [Hour] cells of the rows of [df] above the threshold on day [d]. *)
Definition hours_above (df : frame) (threshold d : cell) : series :=
  map (cell_at "Hour")
      (List.filter (fun r => cell_same (cell_at "Date" r) d)
                   (List.filter (above threshold) (rows df))).


Definition over (t : Z) (r : gmap string cell) : bool :=
  match num_of (cell_at "Trade_Abs_MW" r) with
  | Some q => negb (Qle_bool q (inject_Z t))
  | None => false
  end.


(** A volume column as pandas compares it with a number: every volume
    is a number or missing.  (On a column that holds text the
    comparison raises [TypeError].) *)
Definition numeric_volumes (df : frame) : Prop :=
  forall r, In r (rows df) ->
    cell_at "Trade_Abs_MW" r = CNull
    \/ exists q, num_of (cell_at "Trade_Abs_MW" r) = Some q.


(** A small trading table, as the loader builds them. *)
Definition trade_row (ic : string) (t mw : Z) (dir : string) (partial : bool)
    : gmap string cell :=
  {[ "HourStartLocal" := CTime t; "Interconnector" := CStr ic;
     "Trade_Abs_MW" := CInt mw; "Trade_Direction" := CStr dir;
     "IsPartialHour" := CBool partial; "Trade_Bucket_All" := CStr "all";
     "Date" := dt_date (CTime t); "Hour" := dt_hour (CTime t);
     "Interconnector Group" := CStr (if contains "IFA" ic then "IFA" else ic) ]}.

Definition fact_trades_sample : frame :=
  DataFrame ["HourStartLocal"; "Interconnector"; "Trade_Abs_MW"; "Trade_Direction";
             "IsPartialHour"; "Trade_Bucket_All"; "Date"; "Hour"; "Interconnector Group"]
    [ trade_row "IFA1" (20148 * 86400) 700 "Import" false;
      trade_row "IFA2" (20148 * 86400) 650 "Export" false;
      trade_row "NEMO" (20148 * 86400 + 3600) 300 "Import" true;
      trade_row "NEMO" (20149 * 86400 + 7200) 900 "Import" false ].

(** ** Assigning derived columns *)

(** The table after [df[dst] = [g(r) for each row r]]. *)
Definition with_column (df : frame) (dst : string) (g : gmap string cell -> cell) : frame :=
  DataFrame (if has_column df dst then columns df else columns df ++ [dst])
            (map (fun r => <[dst := g r]> r) (rows df)).

(** ** The trading loader *)

Definition derive (dst src : string) (f : cell -> cell) (r : gmap string cell)
    : gmap string cell :=
  <[dst := f (cell_at src r)]> r.

(** ** Rows of the loaded tables *)

(** Text made of printable ASCII characters. *)
Definition printable (s : string) : bool :=
  forallb (fun a => Nat.leb 32 (nat_of_ascii a) && Nat.leb (nat_of_ascii a) 126)
          (list_ascii_of_string s).

(** The headers of a file as the accuracy loader expects them:
    printable, and still distinct once stripped. *)
Definition clean_headers (df : frame) : Prop :=
  (forall c, In c (columns df) -> printable c = true)
  /\ List.NoDup (map strip (columns df)).

Section LoadedRows.

Variable parse_float : string -> option Q.
Variable parse_datetime : string -> option Z.
Variable parse_period : string -> option Z.
Variable repr_float : Q -> string.

(** A row the loader keeps: its timestamp parses, and it has a trade
    volume and an interconnector. *)
Definition usable (r : gmap string cell) : bool :=
  negb (isna (to_datetime_cell parse_datetime (cell_at "HourStartLocal" r)))
  && negb (isna (cell_at "Trade_Abs_MW" r))
  && negb (isna (cell_at "Interconnector" r)).

(** The row the loader makes of a row it keeps. *)
Definition canonical (r : gmap string cell) : gmap string cell :=
  derive "Interconnector Group" "Interconnector" (map_group repr_float)
    (derive "YearMonth" "HourStartLocal" dt_strftime_Ym
       (derive "MonthName" "HourStartLocal" dt_month_name
          (derive "Month" "HourStartLocal" dt_month
             (derive "Year" "HourStartLocal" dt_year
                (derive "Hour" "HourStartLocal" dt_hour
                   (derive "Date" "HourStartLocal" dt_date
                      (derive "HourStartLocal" "HourStartLocal"
                         (to_datetime_cell parse_datetime) r))))))).

(** The numeric coercion loop, row by row. *)
Definition coerce_row (cols present : list string) (r : gmap string cell)
    : gmap string cell :=
  fold_left (fun r c => if bool_decide (c ∈ present)
                        then <[c := to_numeric_cell parse_float (cell_at c r)]> r else r)
            cols r.

(** What [load_annual] makes of a row of the file. *)
Definition annual_row (present : list string) (r : gmap string cell) : gmap string cell :=
  <["Grain" := CStr "annual"]>
    (<["Year" := CInt 2025]>
       (derive "Fuel" "FUEL_I" (fun c => CStr (py_str repr_float c))
          (derive "BMU" "nationalGridBmUnit" (fun c => CStr (py_str repr_float c))
             (coerce_row num_cols present r)))).

(** What [load_monthly] makes of a row of the file. *)
Definition monthly_row (present : list string) (r : gmap string cell)
    : gmap string cell :=
  <["Grain" := CStr "monthly"]>
    (derive "Fuel" "FUEL_I" (fun c => CStr (py_str repr_float c))
       (derive "BMU" "nationalGridBmUnit" (fun c => CStr (py_str repr_float c))
          (coerce_row num_cols_m present
             (derive "MonthName" "YearMonth" dt_month_name
                (derive "Month" "YearMonth" dt_month
                   (derive "Year" "YearMonth" dt_year
                      (derive "YearMonth" "year_month_fixed"
                         (to_datetime_Ym_cell parse_period)
                         (derive "year_month_fixed" "year_month"
                            (fun c => match c with
                                      | CStr x => CStr (pad_month x)
                                      | _ => CNull
                                      end)
                            (derive "year_month" "year_month"
                               (fun c => CStr (py_str repr_float c)) r))))))))).

(** [r'] holds, in each column of [cols] that the file has, the
    numeric coercion of the cell of the file's row. *)
Definition coerced (cols : list string) (x : list string * gmap string cell)
    (r' : gmap string cell) : Prop :=
  forall c, In c cols -> c ∈ x.1 ->
    cell_at c r' = to_numeric_cell parse_float (cell_at c x.2).

(** When the period of the file's row is a printable text, [r'] holds
    what the reader makes of that text with its month padded, and
    nulls in all four calendar columns when the reader rejects it. *)
Definition dated (x : list string * gmap string cell) (r' : gmap string cell) : Prop :=
  forall s, cell_at "year_month" x.2 = CStr s -> printable s = true ->
    cell_at "YearMonth" r' = to_datetime_Ym_cell parse_period (CStr (pad_month s))
    /\ (parse_period (pad_month s) = None ->
        cell_at "YearMonth" r' = CNull /\ cell_at "Year" r' = CNull
        /\ cell_at "Month" r' = CNull /\ cell_at "MonthName" r' = CNull).

End LoadedRows.

(** * Instances *)

(** ** Parsers for the examples *)

(** Instances of the text parsers, for the examples: plain decimal
    numbers, and timestamps written [YYYY-MM-DD HH:MM:SS]. *)
Fixpoint split_dot (s : string) : string * option string :=
  match s with
  | EmptyString => (EmptyString, None)
  | String "." s' => (EmptyString, Some s')
  | String a s' => let '(i, f) := split_dot s' in (String a i, f)
  end.

Definition decimal (s : string) : option Q :=
  let '(neg, body) := match s with
                      | String "-" s' => (true, s')
                      | _ => (false, s)
                      end in
  let sign q := if neg : bool then Qopp q else q in
  match split_dot body with
  | (i, None) => n ← digits i; Some (sign (inject_Z n))
  | (i, Some f) =>
      n ← digits i; m ← digits f;
      Some (sign (Qred (inject_Z n + inject_Z m / inject_Z (10 ^ Z.of_nat (String.length f)))))
  end.

Definition iso_datetime (s : string) : option Z :=
  let field i n := digits (String.substring i n s) in
  match field 0%nat 4%nat, field 5%nat 2%nat, field 8%nat 2%nat,
        field 11%nat 2%nat, field 14%nat 2%nat, field 17%nat 2%nat with
  | Some y, Some m, Some d, Some hh, Some mm, Some ss =>
      if (Nat.eqb (String.length s) 19
          && String.eqb (String.substring 4 1 s) "-" && String.eqb (String.substring 7 1 s) "-"
          && String.eqb (String.substring 10 1 s) " "
          && String.eqb (String.substring 13 1 s) ":" && String.eqb (String.substring 16 1 s) ":"
          && (1 <=? m) && (m <=? 12) && (1 <=? d) && (d <=? 31)
          && (hh <? 24) && (mm <? 60) && (ss <? 60))%bool
      then Some (days_from_civil y m d * 86400 + hh * 3600 + mm * 60 + ss)
      else None
  | _, _, _, _, _, _ => None
  end.

(** A float printed with one decimal. *)
Definition repr_1dp (q : Q) : string :=
  let n := Qfloor (q * 10) in
  (if n <? 0 then "-" else "") +:+ pretty (Z.abs n / 10) +:+ "." +:+ pretty (Z.abs n mod 10).


(** ** Sample sources *)

Definition raw_trade (t ic : string) (mw : cell) (dir : string) : gmap string cell :=
  {[ "HourStartLocal" := CStr t; "Interconnector" := CStr ic; "Trade_Abs_MW" := mw;
     "Trade_Direction" := CStr dir; "IsPartialHour" := CBool false;
     "Trade_Bucket_All" := CStr "all" ]}.

(** A file with one good row and one row whose timestamp is not a date. *)
Definition ifa1_csv : source :=
  Source "ifa1_hourly_2025.csv"
    (Parsed (DataFrame required_cols
               [ raw_trade "2025-03-01 00:00:00" "IFA1" (CInt 700) "Import";
                 raw_trade "not-a-date" "IFA1" (CInt 650) "Export" ])).

(** A file without the [Trade_Abs_MW] column, and one that cannot be read. *)
Definition notes_csv : source :=
  Source "notes.csv"
    (Parsed (DataFrame ["HourStartLocal"; "Interconnector"; "Comment"]
               [ {[ "HourStartLocal" := CStr "2025-03-01 00:00:00";
                    "Interconnector" := CStr "NEMO"; "Comment" := CStr "outage" ]} ])).

Definition broken_csv : source :=
  Source "broken.csv" (Unreadable "Error tokenizing data").


(** ** Coercion failures *)

(** The rows of a file as the loaders take them up (column names
    stripped), each with the column names of its file. *)
Definition file_rows (f : source) : list (list string * gmap string cell) :=
  match content f with
  | Parsed df => map (fun r => (map strip (columns df), r)) (rows (set_columns strip df))
  | Unreadable _ => []
  end.

Definition force (r : result frame) : frame :=
  match r with Ok df => df | Raise _ => DataFrame_empty end.

Definition annual_csv : source :=
  Source "annual_summary_2025.csv"
    (Parsed (DataFrame [" nationalGridBmUnit"; "FUEL_I "; "A_ABS_NetError%"; "NetError"]
       [ {[ " nationalGridBmUnit" := CStr "E1"; "FUEL_I " := CStr "WIND";
            "A_ABS_NetError%" := CStr "12.5"; "NetError" := CInt 3 ]};
         {[ " nationalGridBmUnit" := CStr "E2"; "FUEL_I " := CStr "CCGT";
            "A_ABS_NetError%" := CStr "n/a"; "NetError" := CNull ]} ])).

Definition monthly_csv : source :=
  Source "monthly_summary_2025.csv"
    (Parsed (DataFrame ["nationalGridBmUnit"; "FUEL_I"; "year_month"; "M_ABS_NetError%"]
       [ {[ "nationalGridBmUnit" := CStr "E1"; "FUEL_I" := CStr "WIND";
            "year_month" := CStr "2025-3"; "M_ABS_NetError%" := CStr "26" ]};
         {[ "nationalGridBmUnit" := CStr "E1"; "FUEL_I" := CStr "WIND";
            "year_month" := CStr "2025-Q1"; "M_ABS_NetError%" := CStr "-" ]} ])).


(** ** Sample tables *)

Definition annual_sample : frame :=
  DataFrame ["BMU"; "Fuel"; "A_ABS_NetError%"; "P90_monthly_error"; "NeedsAttention"]
    [ {[ "BMU" := CStr "E1"; "Fuel" := CStr "WIND"; "A_ABS_NetError%" := CInt 24;
         "P90_monthly_error" := CNum 26; "NeedsAttention" := CBool true ]};
      {[ "BMU" := CStr "E2"; "Fuel" := CStr "CCGT"; "A_ABS_NetError%" := CInt 24;
         "P90_monthly_error" := CNull; "NeedsAttention" := CBool false ]};
      {[ "BMU" := CStr "E3"; "Fuel" := CStr "WIND"; "A_ABS_NetError%" := CInt 3;
         "P90_monthly_error" := CNum 5; "NeedsAttention" := CBool false ]} ].

(** * The rest of the two scripts *)


(** ** Selections and the working table  (reference.py, lines 261 to 310) *)

(** [s.min()] and [s.max()], nulls skipped; null when nothing is left. *)
Definition series_min (s : series) : cell :=
  match series_dropna s with
  | [] => CNull
  | c :: t => fold_left (fun m x => if cell_lt x m then x else m) t c
  end.

Definition series_max (s : series) : cell :=
  match series_dropna s with
  | [] => CNull
  | c :: t => fold_left (fun m x => if cell_gt x m then x else m) t c
  end.

(** [sorted(fact_trades_raw["Interconnector Group"].unique())]. *)
Definition groups (fact_trades_raw : frame) : result (list cell) :=
  s <~ getitem fact_trades_raw "Interconnector Group" ;
  Ok (sort_by cell_leb (unique s)).

(** The first entry of the focus selector. *)
Definition global_network : string := "Global Network (All)".

(** [[focus_mode] if is_single_ic else fact_trades_raw["Interconnector"].unique().tolist()]. *)
Definition primary_ics (fact_trades_raw : frame) (focus_mode : string) : result (list cell) :=
  let is_single_ic := negb (String.eqb focus_mode global_network) in
  if is_single_ic then Ok [CStr focus_mode]
  else s <~ getitem fact_trades_raw "Interconnector" ; Ok (unique s).

(** [[fact_trades_raw["Date"].min(), fact_trades_raw["Date"].max()]]. *)
Definition date_range (fact_trades_raw : frame) : result (list cell) :=
  lo <~ getitem fact_trades_raw "Date" ;
  hi <~ getitem fact_trades_raw "Date" ;
  Ok [series_min lo; series_max hi].

(** [filtered_fact]: the table every tab works on.  The group
    selection passed is [groups], all of them; the sidebar's
    [selected_groups] is not used. *)
Definition filtered_fact (fact_trades_raw : frame) (focus_mode direction_mode : string)
    (include_partial : bool) : result frame :=
  g <~ groups fact_trades_raw ;
  ics <~ primary_ics fact_trades_raw focus_mode ;
  dr <~ date_range fact_trades_raw ;
  run_on (fun l => apply_filters l dr g ics direction_mode include_partial) fact_trades_raw.

(** A row as the trading loader builds it from a file whose
    interconnector names are text. *)
Definition loaded_row (r : gmap string cell) : Prop :=
  exists t ic g,
    cell_at "HourStartLocal" r = CTime t
    /\ cell_at "Date" r = CDate (t / 86400)
    /\ cell_at "Hour" r = CInt (t mod 86400 / 3600)
    /\ cell_at "Interconnector" r = CStr ic
    /\ cell_at "Interconnector Group" r = CStr g
    /\ g = (if contains "IFA" (upper ic) then "IFA" else ic)
    /\ isna (cell_at "Trade_Abs_MW" r) = false.


(** ** The busiest day  (reference.py, lines 354 to 356 and 428 to 430) *)

(** [df.groupby(key).size()]: the number of rows of each group, by
    sorted key. *)
Definition groupby_size (df : frame) (key : string) : result (list (cell * nat)) :=
  ks <~ getitem df key ;
  Ok (map (fun k => (k, length (List.filter (fun r => cell_same (cell_at key r) k) (rows df))))
          (group_keys ks)).

(** [s.idxmax()]: the label of the first largest value. *)
Definition idxmax (s : list (cell * nat)) : result cell :=
  match s with
  | [] => Raise (ValueError "attempt to get argmax of an empty sequence")
  | x :: t => Ok (fold_left (fun best y => if Nat.ltb best.2 y.2 then y else best) t x).1
  end.

(** [heavy_trades = filtered_fact[filtered_fact["Trade_Abs_MW"] > mw_threshold]]. *)
Definition heavy_trades (filtered_fact : frame) (mw_threshold : cell) : result frame :=
  t <~ getitem filtered_fact "Trade_Abs_MW" ;
  getitem_mask filtered_fact (series_gt t mw_threshold).

(** [peak_day], computed when [heavy_trades] is not empty. *)
Definition peak_day (filtered_fact : frame) (mw_threshold : cell) : result (option cell) :=
  heavy <~ heavy_trades filtered_fact mw_threshold ;
  if negb (df_empty heavy) then
    sizes <~ groupby_size heavy "Date" ;
    d <~ idxmax sizes ;
    Ok (Some d)
  else Ok None.


(** ** Sidebar options and fuel figures  (pn_accuracy_dashboard.py) *)

(** [sorted(df_annual[c].dropna().unique().tolist())]  (lines 251, 252, 563). *)
Definition sorted_options (df_annual : frame) (c : string) : result (list cell) :=
  s <~ getitem df_annual c ;
  Ok (sort_by cell_leb (unique (series_dropna s))).

Definition ALL_FUELS (df_annual : frame) : result (list cell) :=
  sorted_options df_annual "Fuel".
Definition ALL_BMUS (df_annual : frame) : result (list cell) :=
  sorted_options df_annual "BMU".

(** [df_annual[df_annual["Fuel"] == selected_fuel]]  (line 568). *)
Definition fuel_df_annual (df_annual : frame) (selected_fuel : cell) : result frame :=
  f <~ getitem df_annual "Fuel" ;
  getitem_mask df_annual (series_eq f selected_fuel).

(** [fuel_attention_count]  (lines 617 to 620).  [df.get(c, 0)] is the
    column when the table has it and the number 0 otherwise; compared
    with 25 the number gives one boolean, which [|] applies to every
    row. *)
Definition fuel_attention_count (fuel_df_annual : frame) : result nat :=
  a <~ getitem fuel_df_annual "A_ABS_NetError%" ;
  let attention :=
    if has_column fuel_df_annual "P90_monthly_error" then
      mask_or (series_ge a (CInt 25))
              (series_ge (map (cell_at "P90_monthly_error") (rows fuel_df_annual)) (CInt 25))
    else map (fun x => orb x (cell_ge (CInt 0) (CInt 25))) (series_ge a (CInt 25)) in
  flagged_rows <~ getitem_mask fuel_df_annual attention ;
  b <~ getitem flagged_rows "BMU" ;
  Ok (nunique b).

(** The position of a band label in the order of the bands. *)
Definition band_rank (label : string) : nat :=
  match list_find (String.eqb label) ["Unknown"; "0–1%"; "1–2%"; "2–4%"; "4–10%"; ">10%"] with
  | Some (i, _) => i
  | None => 6
  end.

Definition band_of (v : cell) : string :=
  match classify_band v with Ok label => label | Raise _ => "" end.

(** ** The joined column *)



(** ** The banded view  (pn_accuracy_dashboard.py, lines 305 to 318 and 452) *)

(** The filtered table with its band column: the filter, the guard
    that stops the page on an empty selection ([None] here), then the
    assignment of line 452 into the table the filter returned. *)
Definition banded_view (df_annual : nat) (fuel_filter bmu_filter : list cell)
    (attention_only : bool) : Obj (option nat) :=
  (filtered <- filtered_annual df_annual fuel_filter bmu_filter attention_only ;;
   view <- deref filtered ;;
   if df_empty view then oret None
   else (ErrorBand filtered ;;; oret (Some filtered)))%obj.

(** ** Files the accuracy loader cannot use *)

(** A file whose headers, when it can be read, are printable and
    distinct once stripped. *)
Definition clean_source (f : source) : Prop :=
  match content f with
  | Parsed df => clean_headers df
  | Unreadable _ => True
  end.

(** The exception [load_annual] ends with on such a file: the file
    cannot be read, or it lacks an identity column. *)
Definition annual_error (f : source) : option exn :=
  match content f with
  | Unreadable msg => Some (ParserError msg)
  | Parsed df =>
      if negb (bool_decide ("nationalGridBmUnit" ∈ map strip (columns df)))
      then Some (KeyError "nationalGridBmUnit")
      else if negb (bool_decide ("FUEL_I" ∈ map strip (columns df)))
      then Some (KeyError "FUEL_I")
      else None
  end.

(** The same for [load_monthly], which reads the period first. *)
Definition monthly_error (f : source) : option exn :=
  match content f with
  | Unreadable msg => Some (ParserError msg)
  | Parsed df =>
      if negb (bool_decide ("year_month" ∈ map strip (columns df)))
      then Some (KeyError "year_month")
      else if negb (bool_decide ("nationalGridBmUnit" ∈ map strip (columns df)))
      then Some (KeyError "nationalGridBmUnit")
      else if negb (bool_decide ("FUEL_I" ∈ map strip (columns df)))
      then Some (KeyError "FUEL_I")
      else None
  end.

(** ** Periods *)

(** The period of year [y] and month [m] as the files write it, with
    the month in one or two digits or padded to two. *)
Definition period (y m : Z) : string := pretty y +:+ "-" +:+ pretty m.
Definition period_padded (y m : Z) : string := pretty y +:+ "-" +:+ zpad 2 m.

(** A reader of periods that reads the padded form of a month, in
    the years a timestamp can hold, as the first day of that month. *)
Definition reads_periods (parse_period : string -> option Z) : Prop :=
  forall y m, 1678 <= y <= 2261 -> 1 <= m <= 12 ->
    parse_period (period_padded y m) = Some (days_from_civil y m 1 * 86400).

(** Padding brings both forms to the padded one, the first day of the
    month has that year, that month and its name, and the reader of
    the examples reads the padded form as that day. *)
Definition period_reads_back (y m : Z) : bool :=
  let c := CTime (days_from_civil y m 1 * 86400) in
  String.eqb (pad_month (period y m)) (period_padded y m)
  && String.eqb (pad_month (period_padded y m)) (period_padded y m)
  && match strptime_Ym (period_padded y m), dt_year c, dt_month c, dt_month_name c with
     | Some t, CInt y', CInt m', CStr nm =>
         (t =? days_from_civil y m 1 * 86400) && (y' =? y) && (m' =? m)
         && String.eqb nm (nth (Z.to_nat (m - 1)) month_names "")
     | _, _, _, _ => false
     end.

(** ** Band composition  (pn_accuracy_dashboard.py, lines 459 to 464) *)

(** [s.count()]: the values that are not null. *)
Definition series_count (s : series) : cell :=
  CInt (Z.of_nat (series_size (series_dropna s))).

(** [df.sort_values(c)]: ascending, nulls last; rows with equal keys
    keep their order here. *)
Definition sort_values (df : frame) (c : string) : result frame :=
  _ <~ getitem df c ;
  Ok (DataFrame (columns df)
        (sort_by (fun r1 r2 =>
                    if isna (cell_at c r2) then true
                    else if isna (cell_at c r1) then false
                    else cell_leb (cell_at c r1) (cell_at c r2))
                 (rows df))).

Definition band_counts (filtered_annual : frame) : result frame :=
  g <~ groupby_agg filtered_annual "ErrorBand" "BMU" series_count "Count" ;
  sort_values g "ErrorBand".

(** The band and count of each row of a band composition. *)
Definition band_count_rows (r : result frame) : list (cell * cell) :=
  match r with
  | Ok out => map (fun o => (cell_at "ErrorBand" o, cell_at "Count" o)) (rows out)
  | Raise _ => []
  end.

(** ** Utilization breakdown  (reference.py, lines 386 to 396) *)

(** [list(range(0, 2050, 50))] and the labels of the intervals. *)
Definition bins : list Z := map (fun i => 50 * Z.of_nat i) (seq 0 41).
Definition labels : list string :=
  map (fun i => pretty i +:+ " to " +:+ pretty (i + 50) +:+ " MW") (removelast bins).

(** [pd.cut(x, bins=bins, labels=labels, include_lowest=True)] on one
    value, as the code of its category: the position of the value
    among the edges, found from the left; a value equal to the lowest
    edge goes into the first interval; a value beyond the edges, or a
    null, has no category. *)
Definition pd_cut (bins : list Z) (x : cell) : result cell :=
  if isna x then Ok CNull else
  match num_of x with
  | None => Raise (TypeError "'<' not supported")
  | Some _ =>
      let ids := if cell_eq x (CInt (hd 0 bins)) then 1%nat
                 else length (List.filter (fun b => cell_lt (CInt b) x) bins) in
      if (Nat.eqb ids 0 || Nat.eqb ids (length bins))%bool then Ok CNull
      else Ok (CInt (Z.of_nat ids - 1))
  end.

(** [stats]: the number of rows of each category that occurs, in the
    order of the categories, under the label of the category. *)
Definition stats (filtered_fact : frame) : result frame :=
  t <~ getitem filtered_fact "Trade_Abs_MW" ;
  codes <~ rmap (pd_cut bins) t ;
  dist_df <~ setitem filtered_fact "MW Range" codes ;
  sizes <~ groupby_size dist_df "MW Range" ;
  Ok (DataFrame ["MW Range"; "Hour Count"]
        (map (fun kn : cell * nat =>
                <["Hour Count" := CInt (Z.of_nat kn.2)]>
                  ({["MW Range" := match kn.1 with
                                   | CInt k => CStr (nth (Z.to_nat k) labels "")
                                   | _ => CNull
                                   end]} : gmap string cell))
             sizes)).

(** The values of the interval of code [k], and the values on the
    scale of the breakdown. *)
Definition in_bin (k : Z) (x : cell) : bool :=
  match num_of x with
  | Some q =>
      match Qcompare (inject_Z (50 * k)) q, Qcompare q (inject_Z (50 * (k + 1))) with
      | Lt, (Lt | Eq) => true
      | Eq, _ => k =? 0
      | _, _ => false
      end
  | None => false
  end.

Definition on_scale (x : cell) : bool :=
  cell_ge x (CInt 0) && cell_le x (CInt 2000).

(** The code [pd_cut] gives a value, a null where it gives none. *)
Definition cut_code (x : cell) : cell :=
  match pd_cut bins x with Ok c => c | Raise _ => CNull end.

(** ** Fleet figures  (pn_accuracy_dashboard.py, lines 330 to 333) *)

(** The median of the data: the middle value of the sorted data, the
    mean of the two middle values when their number is even.  [None]
    on no data. *)
Definition median (xs : list Q) : option Q :=
  match sort_by Qle_bool xs with
  | [] => None
  | (x0 :: _) as sorted =>
      let n := length sorted in
      if Nat.even n
      then Some (Qred ((nth (n / 2 - 1) sorted x0 + nth (n / 2) sorted x0) / 2))
      else Some (Qred (nth (n / 2) sorted x0))
  end.

(** [s.median()], nulls skipped. *)
Definition series_median (s : series) : cell :=
  match median (omap num_of s) with
  | Some v => CNum v
  | None => CNull
  end.

Definition fleet_median (filtered_annual : frame) : result cell :=
  s <~ getitem filtered_annual "A_ABS_NetError%" ; Ok (series_median s).
Definition fleet_p90 (filtered_annual : frame) : result cell :=
  s <~ getitem filtered_annual "A_ABS_NetError%" ; Ok (nanpercentile s 90).
Definition fleet_max (filtered_annual : frame) : result cell :=
  s <~ getitem filtered_annual "A_ABS_NetError%" ; Ok (series_max s).
Definition fleet_count (filtered_annual : frame) : result nat :=
  s <~ getitem filtered_annual "BMU" ; Ok (nunique s).

(** ** Monthly breakdown  (reference.py, lines 468 to 471) *)

(** Grouping by two columns: two keys are the same when both parts
    are; the keys are the distinct pairs without a null, in
    lexicographic order. *)
Definition same2 (a b : cell * cell) : bool :=
  cell_same a.1 b.1 && cell_same a.2 b.2.

Fixpoint unique2 (s : list (cell * cell)) : list (cell * cell) :=
  match s with
  | [] => []
  | c :: s' => c :: List.filter (fun d => negb (same2 d c)) (unique2 s')
  end.

Definition pair_leb (a b : cell * cell) : bool :=
  match cell_cmp a.1 b.1 with
  | Some Lt => true
  | Some Gt => false
  | _ => cell_leb a.2 b.2
  end.

Definition group_keys2 (ks : list (cell * cell)) : list (cell * cell) :=
  sort_by pair_leb
    (unique2 (List.filter (fun k => negb (isna k.1) && negb (isna k.2)) ks)).

(** [monthly_data]: for each month with a row above the threshold,
    the number of such rows and the sum of their volumes. *)
Definition monthly_data (filtered_fact : frame) (mw_threshold : cell) : result frame :=
  heavy <~ heavy_trades filtered_fact mw_threshold ;
  m <~ getitem heavy "Month" ;
  n <~ getitem heavy "MonthName" ;
  _ <~ getitem heavy "Trade_Abs_MW" ;
  Ok (DataFrame ["Month"; "MonthName"; "Hours_Above_Limit"; "Total_Capacity_MW"]
        (map (fun k : cell * cell =>
                let t := map (cell_at "Trade_Abs_MW")
                             (List.filter
                                (fun r => same2 (cell_at "Month" r, cell_at "MonthName" r) k)
                                (rows heavy)) in
                <["Total_Capacity_MW" := CNum (series_sum t)]>
                  (<["Hours_Above_Limit" := series_count t]>
                     (<["MonthName" := k.2]> ({["Month" := k.1]} : gmap string cell))))
             (group_keys2 (zip m n)))).

(** The sum of a list of numbers. *)
Definition sumQ (l : list Q) : Q := fold_right Qplus 0%Q l.

(** Volumes that are whole numbers from 0 to 2^30, in a table of at
    most 2^20 rows: every sum of such volumes is a whole number below
    2^53, which floating-point addition gives exactly, in any
    order. *)
Definition whole_volumes (df : frame) : Prop :=
  Z.of_nat (length (rows df)) <= 2 ^ 20
  /\ forall r, In r (rows df) ->
       exists q z, num_of (cell_at "Trade_Abs_MW" r) = Some q
                   /\ (q == inject_Z z)%Q /\ 0 <= z <= 2 ^ 30.

(** Rows that hold a month as the loader derives it: a number and a
    name. *)
Definition month_cells (r : gmap string cell) : Prop :=
  exists m nm, cell_at "Month" r = CInt m /\ cell_at "MonthName" r = CStr nm.

(** A table over two months: three hours above 500 MW, two of them in
    March and one in April 2025. *)
Definition month_row (t mw : Z) : gmap string cell :=
  {[ "HourStartLocal" := CTime t; "Date" := dt_date (CTime t);
     "Month" := dt_month (CTime t); "MonthName" := dt_month_name (CTime t);
     "Trade_Abs_MW" := CInt mw ]}.

Definition fact_months_sample : frame :=
  DataFrame ["HourStartLocal"; "Date"; "Month"; "MonthName"; "Trade_Abs_MW"]
    [ month_row (20148 * 86400) 700; month_row (20148 * 86400 + 3600) 650;
      month_row (20180 * 86400) 900; month_row (20181 * 86400) 300 ].

(** * Properties *)

(** ** The model on small inputs *)

Example percentile_check :
  percentile [50#1; 10#1; 30#1; 20#1; 40#1]%Q 90 = Some (46#1)%Q
  /\ percentile [26#1]%Q 90 = Some (26#1)%Q
  /\ percentile [1#1; 2#1]%Q 90 = Some (19#10)%Q
  /\ percentile [] 90 = None.
Proof. vm_compute. repeat split; reflexivity. Qed.

Example calendar_check :
  days_from_civil 2025 3 1 = 20148 /\ civil_from_days 20148 = (2025, 3, 1)
  /\ civil_from_days 19782 = (2024, 2, 29)
  /\ strptime_Ym (pad_month "2025-3") = Some (20148 * 86400)
  /\ strptime_Ym "2025-13" = None /\ strptime_Ym "2025-" = None
  /\ strptime_Ym "2025-012" = None /\ strptime_Ym "25-01" = None
  /\ pad_month "2025-11" = "2025-11" /\ pad_month "2025-7" = "2025-07"
  /\ dt_strftime_Ym (CTime (20148 * 86400 + 3600)) = CStr "2025-03"
  /\ dt_month_name (CTime (20148 * 86400)) = CStr "March"
  /\ strip "  ab c	 " = "ab c" /\ upper "ifa2-x" = "IFA2-X"
  /\ contains "IFA" "XIFA2" = true /\ contains "IFA" "NEMO" = false.
Proof. vm_compute. repeat split; reflexivity. Qed.

Example setitem_computes :
  setitem (DataFrame ["a"] [{["a" := CInt 1]}; ∅]) "b" [CNull; CStr "x"]
  = Ok (DataFrame ["a"; "b"] [<["b" := CNull]> {["a" := CInt 1]}; {["b" := CStr "x"]}]).
Proof. vm_compute. reflexivity. Qed.

(** ** Band classification *)

Lemma num_of_not_null v q : num_of v = Some q -> isna v = false.
Proof. destruct v; simpl; congruence. Qed.

Lemma cell_cmp_num v q k :
  num_of v = Some q -> cell_cmp v (CInt k) = Some (Qcompare q (inject_Z k)).
Proof. destruct v; simpl; intros Hq; inversion Hq; reflexivity. Qed.

Lemma py_lt_num v q k :
  num_of v = Some q ->
  py_lt v (CInt k) = Ok (match Qcompare q (inject_Z k) with Lt => true | _ => false end).
Proof.
  intros Hq. unfold py_lt. rewrite (cell_cmp_num _ _ _ Hq).
  destruct (Qcompare q (inject_Z k)); reflexivity.
Qed.

Lemma py_lt_true v q k :
  num_of v = Some q -> (q < inject_Z k)%Q -> py_lt v (CInt k) = Ok true.
Proof.
  intros Hq Hlt. rewrite (py_lt_num _ _ _ Hq).
  destruct (Qcompare_spec q (inject_Z k)) as [H|H|H]; try reflexivity; exfalso; lra.
Qed.

Lemma py_lt_false v q k :
  num_of v = Some q -> (inject_Z k <= q)%Q -> py_lt v (CInt k) = Ok false.
Proof.
  intros Hq Hle. rewrite (py_lt_num _ _ _ Hq).
  destruct (Qcompare_spec q (inject_Z k)) as [H|H|H]; try reflexivity; exfalso; lra.
Qed.

(** The band of a number, read off the intervals. *)
Lemma classify_band_interval v q :
  num_of v = Some q ->
  ((q < 1)%Q /\ classify_band v = Ok "0–1%")
  \/ ((1 <= q)%Q /\ (q < 2)%Q /\ classify_band v = Ok "1–2%")
  \/ ((2 <= q)%Q /\ (q < 4)%Q /\ classify_band v = Ok "2–4%")
  \/ ((4 <= q)%Q /\ (q < 10)%Q /\ classify_band v = Ok "4–10%")
  \/ ((10 <= q)%Q /\ classify_band v = Ok ">10%").
Proof.
  intros Hq. unfold classify_band. rewrite (num_of_not_null _ _ Hq).
  destruct (Qlt_le_dec q 1) as [H1|H1].
  { left. split; [assumption|]. rewrite (py_lt_true _ _ 1 Hq H1). reflexivity. }
  right. rewrite (py_lt_false _ _ 1 Hq H1). simpl.
  destruct (Qlt_le_dec q 2) as [H2|H2].
  { left. repeat split; try assumption. rewrite (py_lt_true _ _ 2 Hq H2). reflexivity. }
  right. rewrite (py_lt_false _ _ 2 Hq H2). simpl.
  destruct (Qlt_le_dec q 4) as [H4|H4].
  { left. repeat split; try assumption. rewrite (py_lt_true _ _ 4 Hq H4). reflexivity. }
  right. rewrite (py_lt_false _ _ 4 Hq H4). simpl.
  destruct (Qlt_le_dec q 10) as [H10|H10].
  { left. repeat split; try assumption. rewrite (py_lt_true _ _ 10 Hq H10). reflexivity. }
  right. rewrite (py_lt_false _ _ 10 Hq H10). simpl. split; [assumption | reflexivity].
Qed.

(** C5.  [classify_band] sends a null to "Unknown" and every number to
    exactly one of the five band labels, the bands being the half-open
    intervals below 1, [1,2), [2,4), [4,10) and from 10 on, tried in
    that order; so 3.9999 and 2.0 both fall in "2–4%" and 4.0 in
    "4–10%". *)
Theorem classify_band_bands :
  classify_band CNull = Ok "Unknown"
  /\ (forall v q, num_of v = Some q ->
        exists l, classify_band v = Ok l
          /\ In l ["0–1%"; "1–2%"; "2–4%"; "4–10%"; ">10%"]
          /\ (l = "0–1%" <-> (q < 1)%Q)
          /\ (l = "1–2%" <-> (1 <= q)%Q /\ (q < 2)%Q)
          /\ (l = "2–4%" <-> (2 <= q)%Q /\ (q < 4)%Q)
          /\ (l = "4–10%" <-> (4 <= q)%Q /\ (q < 10)%Q)
          /\ (l = ">10%" <-> (10 <= q)%Q))
  /\ classify_band (CNum 3.9999) = Ok "2–4%"
  /\ classify_band (CNum 2.0) = Ok "2–4%"
  /\ classify_band (CNum 4.0) = Ok "4–10%".
Proof.
  split; [reflexivity|]. split; [|repeat split; reflexivity].
  intros v q Hq.
  destruct (classify_band_interval v q Hq)
    as [[H1 E]|[(H1 & H2 & E)|[(H1 & H2 & E)|[(H1 & H2 & E)|[H1 E]]]]];
    rewrite E; eexists; (split; [reflexivity|]);
    (split; [simpl; tauto|]);
    repeat split; intros;
    repeat match goal with H : _ /\ _ |- _ => destruct H end;
    first [ assumption | reflexivity | discriminate | exfalso; lra ].
Qed.

Lemma classify_band_bands_witness :
  exists l, classify_band (CInt 7) = Ok l
    /\ In l ["0–1%"; "1–2%"; "2–4%"; "4–10%"; ">10%"]
    /\ (l = "0–1%" <-> (7 < 1)%Q)
    /\ (l = "1–2%" <-> (1 <= 7)%Q /\ (7 < 2)%Q)
    /\ (l = "2–4%" <-> (2 <= 7)%Q /\ (7 < 4)%Q)
    /\ (l = "4–10%" <-> (4 <= 7)%Q /\ (7 < 10)%Q)
    /\ (l = ">10%" <-> (10 <= 7)%Q).
Proof.
  apply (proj1 (proj2 classify_band_bands) (CInt 7) (inject_Z 7)). reflexivity.
Defined.

(** C10.  Every number below 1 is classified "0–1%"; there is no lower
    bound, so every negative number is too. *)
Theorem classify_band_below_one (v : cell) (q : Q) :
  num_of v = Some q ->
  ((q < 1)%Q -> classify_band v = Ok "0–1%")
  /\ ((q < 0)%Q -> classify_band v = Ok "0–1%").
Proof.
  intros Hq.
  assert (H : (q < 1)%Q -> classify_band v = Ok "0–1%").
  { intros Hlt. unfold classify_band. rewrite (num_of_not_null _ _ Hq).
    rewrite (py_lt_true _ _ 1 Hq Hlt). reflexivity. }
  split; [exact H|]. intros Hneg. apply H. lra.
Qed.

Lemma classify_band_below_one_witness :
  (-5 # 2 < 0)%Q /\ classify_band (CNum (-5 # 2)) = Ok "0–1%".
Proof.
  split; [reflexivity|].
  apply (proj2 (classify_band_below_one (CNum (-5 # 2)) (-5 # 2) eq_refl)). reflexivity.
Defined.

(** ** Tables: basic facts *)

Lemma has_column_true df c : has_column df c = true <-> c ∈ columns df.
Proof. unfold has_column. apply bool_decide_eq_true. Qed.

Lemma getitem_ok df c :
  c ∈ columns df -> getitem df c = Ok (map (cell_at c) (rows df)).
Proof.
  intros Hc. unfold getitem. apply has_column_true in Hc. rewrite Hc. reflexivity.
Qed.

Lemma zip_with_map_same {A B C D} (f : B -> C -> D) (g : A -> B) (h : A -> C) l :
  zip_with f (map g l) (map h l) = map (fun x => f (g x) (h x)) l.
Proof. induction l as [|x l IH]; simpl; [reflexivity | rewrite IH; reflexivity]. Qed.

Lemma zip_with_map_r {A B C} (f : A -> B -> C) (g : A -> B) l :
  zip_with f l (map g l) = map (fun x => f x (g x)) l.
Proof. induction l as [|x l IH]; simpl; [reflexivity | rewrite IH; reflexivity]. Qed.

Lemma masked_map {A} (p : A -> bool) (l : list A) :
  map fst (List.filter snd (zip l (map p l))) = List.filter p l.
Proof.
  induction l as [|x l IH]; simpl; [reflexivity|].
  destruct (p x); simpl; rewrite IH; reflexivity.
Qed.

Lemma getitem_mask_map df (p : gmap string cell -> bool) :
  getitem_mask df (map p (rows df))
  = Ok (DataFrame (columns df) (List.filter p (rows df))).
Proof.
  unfold getitem_mask. rewrite length_map, Nat.eqb_refl, masked_map. reflexivity.
Qed.

Lemma setitem_map df c (f : gmap string cell -> cell) :
  setitem df c (map f (rows df))
  = Ok (DataFrame (if has_column df c then columns df else columns df ++ [c])
                  (map (fun r => <[c := f r]> r) (rows df))).
Proof.
  unfold setitem. rewrite length_map, Nat.eqb_refl, zip_with_map_r. reflexivity.
Qed.

Lemma filter_filter {A} (p q : A -> bool) (l : list A) :
  List.filter q (List.filter p l) = List.filter (fun x => p x && q x) l.
Proof.
  induction l as [|x l IH]; simpl; [reflexivity|].
  destruct (p x); simpl; [destruct (q x)|]; rewrite IH; reflexivity.
Qed.

Lemma filter_idem {A} (p : A -> bool) (l : list A) :
  List.filter p (List.filter p l) = List.filter p l.
Proof.
  rewrite filter_filter. apply List.filter_ext. intros x. destruct (p x); reflexivity.
Qed.

Lemma filter_all {A} (p : A -> bool) (l : list A) :
  (forall x, In x l -> p x = true) -> List.filter p l = l.
Proof.
  induction l as [|x l IH]; simpl; intros H; [reflexivity|].
  rewrite (H x (or_introl eq_refl)), IH; [reflexivity|]. intros y Hy. apply H. right. exact Hy.
Qed.

Lemma filter_none {A} (p : A -> bool) (l : list A) :
  (forall x, p x = false) -> List.filter p l = [].
Proof.
  intros H. induction l as [|x l IH]; simpl; [reflexivity|]. rewrite H. exact IH.
Qed.

Lemma frame_eta df cs rs : columns df = cs -> rows df = rs -> df = DataFrame cs rs.
Proof. destruct df; simpl; intros; subst; reflexivity. Qed.

(** ** Table objects: a weakest-precondition calculus *)

Lemma wp_ret {A} (a : A) σ Q : Q a σ -> wp (oret a) σ Q.
Proof. intros H. exact H. Qed.

Lemma wp_bind {A B} (m : Obj A) (k : A -> Obj B) σ Q :
  wp m σ (fun a σ' => wp (k a) σ' Q) -> wp (obind m k) σ Q.
Proof.
  unfold wp, obind. destruct (m σ) as [[a σ']|e]; [intros H; exact H | intros []].
Qed.

Lemma wp_mono {A} (m : Obj A) σ (Q Q' : A -> store -> Prop) :
  wp m σ Q -> (forall a σ', Q a σ' -> Q' a σ') -> wp m σ Q'.
Proof.
  unfold wp. destruct (m σ) as [[a σ']|e]; [intros H HQ; apply HQ, H | intros []].
Qed.

Lemma wp_elim {A} (m : Obj A) σ Q :
  wp m σ Q -> exists a σ', m σ = Ok (a, σ') /\ Q a σ'.
Proof.
  unfold wp. destruct (m σ) as [[a σ']|e]; [intros H; eauto | intros []].
Qed.

Lemma wp_copy l σ df (Q : nat -> store -> Prop) :
  σ !! l = Some df -> Q (length σ) (σ ++ [df]) -> wp (df_copy l) σ Q.
Proof.
  intros Hl HQ. unfold wp, df_copy, obind, deref, new. rewrite Hl. exact HQ.
Qed.

Lemma wp_getitem l c σ df (Q : series -> store -> Prop) :
  σ !! l = Some df -> c ∈ columns df ->
  Q (map (cell_at c) (rows df)) σ -> wp (df_getitem l c) σ Q.
Proof.
  intros Hl Hc HQ. unfold wp, df_getitem, obind, deref, lift.
  rewrite Hl, (getitem_ok _ _ Hc). exact HQ.
Qed.

Lemma wp_getitem_mask l σ df (p : gmap string cell -> bool) (Q : nat -> store -> Prop) :
  σ !! l = Some df ->
  Q (length σ) (σ ++ [DataFrame (columns df) (List.filter p (rows df))]) ->
  wp (df_getitem_mask l (map p (rows df))) σ Q.
Proof.
  intros Hl HQ. unfold wp, df_getitem_mask, obind, deref, lift, new.
  rewrite Hl, getitem_mask_map. exact HQ.
Qed.

Lemma wp_setitem l c σ df (f : gmap string cell -> cell) (Q : unit -> store -> Prop) :
  σ !! l = Some df ->
  Q tt (<[l := DataFrame (if has_column df c then columns df else columns df ++ [c])
                         (map (fun r => <[c := f r]> r) (rows df))]> σ) ->
  wp (df_setitem l c (map f (rows df))) σ Q.
Proof.
  intros Hl HQ. unfold wp, df_setitem, obind, deref, lift, assign.
  rewrite Hl, setitem_map. exact HQ.
Qed.

Lemma selected_new σ0 df p σ out :
  σ0 `prefix_of` σ -> (length σ0 <= length σ)%nat ->
  out = DataFrame (columns df) (List.filter p (rows df)) ->
  selected σ0 df p (length σ) (σ ++ [out]).
Proof.
  intros Hpre Hlen ->. split; [|split].
  - rewrite lookup_app_r by lia. rewrite Nat.sub_diag. reflexivity.
  - apply prefix_app_r. exact Hpre.
  - exact Hlen.
Qed.

(** One filtering step: read column [c], keep the rows whose cell
    satisfies [g]. *)
Lemma wp_select_step σ0 df p l σ c (g : cell -> bool) (k : nat -> Obj nat) Q :
  selected σ0 df p l σ -> c ∈ columns df ->
  (forall l' σ', selected σ0 df (fun r => p r && g (cell_at c r)) l' σ' -> wp (k l') σ' Q) ->
  wp (obind (df_getitem l c) (fun s => obind (df_getitem_mask l (map g s)) k)) σ Q.
Proof.
  intros (Hl & Hpre & Hlen) Hc Hk.
  apply wp_bind. eapply wp_getitem; [exact Hl | exact Hc |]. simpl.
  apply wp_bind. rewrite map_map.
  apply (wp_getitem_mask l σ (DataFrame (columns df) (List.filter p (rows df)))
                         (fun r => g (cell_at c r))); [exact Hl|]. simpl.
  apply Hk. rewrite filter_filter.
  apply selected_new; [exact Hpre | | reflexivity].
  apply prefix_length in Hpre. exact Hpre.
Qed.

Lemma wp_select_end σ0 df p l σ c (g : cell -> bool) (Q : nat -> store -> Prop) :
  selected σ0 df p l σ -> c ∈ columns df ->
  (forall l' σ', selected σ0 df (fun r => p r && g (cell_at c r)) l' σ' -> Q l' σ') ->
  wp (obind (df_getitem l c) (fun s => df_getitem_mask l (map g s))) σ Q.
Proof.
  intros (Hl & Hpre & Hlen) Hc Hk.
  apply wp_bind. eapply wp_getitem; [exact Hl | exact Hc |]. simpl.
  rewrite map_map.
  apply (wp_getitem_mask l σ (DataFrame (columns df) (List.filter p (rows df)))
                         (fun r => g (cell_at c r))); [exact Hl|]. simpl.
  apply Hk. rewrite filter_filter.
  apply selected_new; [exact Hpre | | reflexivity].
  apply prefix_length in Hpre. exact Hpre.
Qed.

Lemma selected_ext σ0 df p q l σ :
  (forall r, p r = q r) -> selected σ0 df p l σ -> selected σ0 df q l σ.
Proof.
  intros Hpq (Hl & Hpre & Hlen). split; [|split; assumption].
  rewrite Hl. f_equal. f_equal. apply List.filter_ext. exact Hpq.
Qed.

(** ** The trading filter *)

Lemma selected_copy σ l df :
  σ !! l = Some df -> selected σ df (fun _ => true) (length σ) (σ ++ [df]).
Proof.
  intros Hl. apply selected_new; [reflexivity | lia |].
  apply frame_eta; [reflexivity|]. symmetry. apply filter_all. reflexivity.
Qed.

Lemma wp_date_step σ0 df p l σ dr (k : nat -> Obj nat) Q :
  selected σ0 df p l σ -> "Date" ∈ columns df ->
  (forall l' σ', selected σ0 df (fun r => p r && in_date_range dr r) l' σ' -> wp (k l') σ' Q) ->
  wp (obind match dr with
            | [dr0; dr1] =>
                (d0 <- df_getitem l "Date" ;;
                 d1 <- df_getitem l "Date" ;;
                 df_getitem_mask l (mask_and (series_ge d0 dr0) (series_le d1 dr1)))%obj
            | _ => oret l
            end k) σ Q.
Proof.
  intros Hsel Hc Hk.
  assert (Hskip : (forall r, in_date_range dr r = true) -> wp (obind (oret l) k) σ Q).
  { intros Hall. apply wp_bind, wp_ret, Hk. eapply selected_ext; [|exact Hsel].
    intros r. rewrite Hall, andb_true_r. reflexivity. }
  destruct dr as [|dr0 [|dr1 [|dr2 dr]]]; try (apply Hskip; reflexivity).
  clear Hskip. destruct Hsel as (Hl & Hpre & Hlen).
  apply wp_bind. apply wp_bind. eapply wp_getitem; [exact Hl | exact Hc |]. simpl.
  apply wp_bind. eapply wp_getitem; [exact Hl | exact Hc |]. simpl.
  unfold mask_and, series_ge, series_le. rewrite !map_map, zip_with_map_same.
  apply (wp_getitem_mask l σ (DataFrame (columns df) (List.filter p (rows df)))
           (fun r => cell_ge (cell_at "Date" r) dr0 && cell_le (cell_at "Date" r) dr1));
    [exact Hl|]. simpl.
  apply Hk. rewrite filter_filter.
  apply selected_new; [exact Hpre | | reflexivity].
  apply prefix_length in Hpre. exact Hpre.
Qed.

Lemma apply_filters_wp σ l df dr groups_sel ics_sel dir_mode inc_partial :
  σ !! l = Some df ->
  (forall c, In c filter_columns -> c ∈ columns df) ->
  wp (apply_filters l dr groups_sel ics_sel dir_mode inc_partial) σ
     (selected σ df (passes_filters dr groups_sel ics_sel dir_mode inc_partial)).
Proof.
  intros Hl Hcols. unfold apply_filters.
  apply wp_bind. eapply wp_copy; [exact Hl|].
  apply wp_date_step with (σ0 := σ) (df := df) (p := fun _ => true);
    [exact (selected_copy _ _ _ Hl) | apply Hcols; simpl; tauto |].
  intros l1 σ1 H1.
  eapply (wp_select_step _ _ _ _ _ "Interconnector Group" (cell_isin groups_sel));
    [exact H1 | apply Hcols; simpl; tauto |].
  intros l2 σ2 H2.
  eapply (wp_select_step _ _ _ _ _ "Interconnector" (cell_isin ics_sel));
    [exact H2 | apply Hcols; simpl; tauto |].
  intros l3 σ3 H3. cbv beta in H3.
  assert (Hpart : forall (k : nat -> Obj nat) (Q : nat -> store -> Prop),
    (forall l' σ', selected σ df
        (fun r => true && in_date_range dr r
                  && cell_isin groups_sel (cell_at "Interconnector Group" r)
                  && cell_isin ics_sel (cell_at "Interconnector" r)
                  && (inc_partial || cell_eq (cell_at "IsPartialHour" r) (CBool false)))
        l' σ' -> wp (k l') σ' Q) ->
    wp (obind (if negb inc_partial
               then (p <- df_getitem l3 "IsPartialHour" ;;
                     df_getitem_mask l3 (series_eq p (CBool false)))%obj
               else oret l3) k) σ3 Q).
  { intros k Q Hk. destruct inc_partial; simpl.
    - apply wp_bind, wp_ret, Hk. eapply selected_ext; [|exact H3].
      intros r. simpl. rewrite andb_true_r. reflexivity.
    - apply wp_bind.
      eapply (wp_select_end _ _ _ _ _ "IsPartialHour" (fun c => cell_eq c (CBool false)));
        [exact H3 | apply Hcols; simpl; tauto |].
      intros l' σ' H'. apply Hk. exact H'. }
  apply Hpart. intros l4 σ4 H4. clear Hpart. cbv beta in H4.
  assert (Hfin : forall l' σ',
    selected σ df
      (fun r => true && in_date_range dr r
                && cell_isin groups_sel (cell_at "Interconnector Group" r)
                && cell_isin ics_sel (cell_at "Interconnector" r)
                && (inc_partial || cell_eq (cell_at "IsPartialHour" r) (CBool false))
                && in_direction dir_mode r) l' σ' ->
    wp (oret l') σ' (selected σ df (passes_filters dr groups_sel ics_sel dir_mode inc_partial))).
  { intros l' σ' H'. apply wp_ret. eapply selected_ext; [|exact H']. reflexivity. }
  apply wp_bind. unfold in_direction in Hfin.
  destruct (String.eqb dir_mode "Import").
  - eapply (wp_select_end _ _ _ _ _ "Trade_Direction" (fun c => cell_eq c (CStr "Import")));
      [exact H4 | apply Hcols; simpl; tauto |].
    intros l' σ' H'. apply Hfin, H'.
  - destruct (String.eqb dir_mode "Export").
    + eapply (wp_select_end _ _ _ _ _ "Trade_Direction" (fun c => cell_eq c (CStr "Export")));
        [exact H4 | apply Hcols; simpl; tauto |].
      intros l' σ' H'. apply Hfin, H'.
    + apply wp_ret, Hfin. eapply selected_ext; [|exact H4].
      intros r. simpl. rewrite andb_true_r. reflexivity.
Qed.

Lemma run_on_selected (f : nat -> Obj nat) df p :
  wp (f 0%nat) [df] (selected [df] df p) ->
  run_on f df = Ok (DataFrame (columns df) (List.filter p (rows df))).
Proof.
  intros H. apply wp_elim in H. destruct H as (l' & σ' & Hrun & Hl' & _).
  unfold run_on. rewrite Hrun, Hl'. reflexivity.
Qed.

Lemma apply_filters_run df dr groups_sel ics_sel dir_mode inc_partial :
  (forall c, In c filter_columns -> c ∈ columns df) ->
  run_on (fun l => apply_filters l dr groups_sel ics_sel dir_mode inc_partial) df
  = Ok (DataFrame (columns df)
          (List.filter (passes_filters dr groups_sel ics_sel dir_mode inc_partial) (rows df))).
Proof.
  intros Hcols. apply run_on_selected. apply apply_filters_wp; [reflexivity | exact Hcols].
Qed.

(** C8.  [apply_filters] is idempotent: on a table that has the columns
    it reads it returns a table, and filtering that table again with
    the same selections returns it unchanged. *)
Theorem apply_filters_idempotent df dr groups_sel ics_sel dir_mode inc_partial :
  (forall c, In c filter_columns -> c ∈ columns df) ->
  exists out,
    run_on (fun l => apply_filters l dr groups_sel ics_sel dir_mode inc_partial) df = Ok out
    /\ run_on (fun l => apply_filters l dr groups_sel ics_sel dir_mode inc_partial) out = Ok out.
Proof.
  intros Hcols. eexists. split; [apply apply_filters_run, Hcols|].
  rewrite apply_filters_run by exact Hcols. simpl. rewrite filter_idem. reflexivity.
Qed.

(** ** The annual filter *)

Lemma filtered_annual_wp σ l df fuel_filter bmu_filter attention_only :
  σ !! l = Some df ->
  (forall c, In c annual_filter_columns -> c ∈ columns df) ->
  wp (filtered_annual l fuel_filter bmu_filter attention_only) σ
     (selected σ df (passes_annual fuel_filter bmu_filter attention_only)).
Proof.
  intros Hl Hcols. unfold filtered_annual.
  apply wp_bind. eapply wp_copy; [exact Hl|].
  eapply (wp_select_step _ _ _ _ _ "Fuel" (cell_isin fuel_filter));
    [exact (selected_copy _ _ _ Hl) | apply Hcols; simpl; tauto |].
  intros l1 σ1 H1. cbv beta in H1.
  assert (Hfin : forall l' σ',
    selected σ df
      (fun r => true && cell_isin fuel_filter (cell_at "Fuel" r)
                && match bmu_filter with
                   | [] => true
                   | _ => cell_isin bmu_filter (cell_at "BMU" r)
                   end
                && (negb attention_only || cell_eq (cell_at "NeedsAttention" r) (CBool true)))
      l' σ' ->
    wp (oret l') σ' (selected σ df (passes_annual fuel_filter bmu_filter attention_only))).
  { intros l' σ' H'. apply wp_ret. eapply selected_ext; [|exact H']. reflexivity. }
  assert (Hatt : forall l2 σ2,
    selected σ df
      (fun r => true && cell_isin fuel_filter (cell_at "Fuel" r)
                && match bmu_filter with
                   | [] => true
                   | _ => cell_isin bmu_filter (cell_at "BMU" r)
                   end) l2 σ2 ->
    wp (obind (if attention_only
               then (n <- df_getitem l2 "NeedsAttention" ;;
                     df_getitem_mask l2 (series_eq n (CBool true)))%obj
               else oret l2) (fun x => oret x)) σ2
       (selected σ df (passes_annual fuel_filter bmu_filter attention_only))).
  { intros l2 σ2 H2. apply wp_bind. destruct attention_only; simpl in *.
    - eapply (wp_select_end _ _ _ _ _ "NeedsAttention" (fun c => cell_eq c (CBool true)));
        [exact H2 | apply Hcols; simpl; tauto |].
      intros l' σ' H'. apply Hfin, H'.
    - apply wp_ret, Hfin. eapply selected_ext; [|exact H2].
      intros r. rewrite andb_true_r. reflexivity. }
  apply wp_bind. destruct bmu_filter as [|b bmu_filter].
  - apply wp_ret, Hatt. eapply selected_ext; [|exact H1].
    intros r. rewrite andb_true_r. reflexivity.
  - eapply (wp_select_end _ _ _ _ _ "BMU" (cell_isin (b :: bmu_filter)));
      [exact H1 | apply Hcols; simpl; tauto |].
    intros l' σ' H'. apply Hatt, H'.
Qed.

Lemma filtered_annual_run df fuel_filter bmu_filter attention_only :
  (forall c, In c annual_filter_columns -> c ∈ columns df) ->
  run_on (fun l => filtered_annual l fuel_filter bmu_filter attention_only) df
  = Ok (DataFrame (columns df)
          (List.filter (passes_annual fuel_filter bmu_filter attention_only) (rows df))).
Proof.
  intros Hcols. apply run_on_selected. apply filtered_annual_wp; [reflexivity | exact Hcols].
Qed.

(** C4.  With no fuel selected the annual filter returns no row at all;
    with no BMU selected it applies no BMU condition: the rows returned
    are those that pass the fuel (and attention) conditions, whatever
    their BMU, and they are all the rows of the table when every fuel
    is selected. *)
Theorem empty_selection_asymmetry df fuel_filter bmu_filter attention_only :
  (forall c, In c annual_filter_columns -> c ∈ columns df) ->
  run_on (fun l => filtered_annual l [] bmu_filter attention_only) df
    = Ok (DataFrame (columns df) [])
  /\ run_on (fun l => filtered_annual l fuel_filter [] attention_only) df
    = Ok (DataFrame (columns df)
            (List.filter
               (fun r => cell_isin fuel_filter (cell_at "Fuel" r)
                         && (negb attention_only
                             || cell_eq (cell_at "NeedsAttention" r) (CBool true)))
               (rows df)))
  /\ ((forall r, In r (rows df) -> cell_isin fuel_filter (cell_at "Fuel" r) = true) ->
      run_on (fun l => filtered_annual l fuel_filter [] false) df = Ok df).
Proof.
  intros Hcols. repeat split.
  - rewrite filtered_annual_run by exact Hcols. rewrite filter_none; reflexivity.
  - rewrite filtered_annual_run by exact Hcols. do 2 f_equal.
    apply List.filter_ext. intros r. unfold passes_annual. rewrite andb_true_r. reflexivity.
  - intros Hall. rewrite filtered_annual_run by exact Hcols.
    rewrite filter_all.
    + destruct df; reflexivity.
    + intros r Hr. unfold passes_annual. rewrite (Hall r Hr). reflexivity.
Qed.

(** C9.  Neither filter writes into its argument.  Run in any store
    where [l] holds a table with the columns read, [apply_filters] and
    the annual filter return a new object [l'] holding the selected
    rows, and every object the store held before, the argument
    included, still holds the same table. *)
Theorem filters_do_not_mutate σ l df :
  σ !! l = Some df ->
  (forall dr groups_sel ics_sel dir_mode inc_partial,
     (forall c, In c filter_columns -> c ∈ columns df) ->
     exists l' σ',
       apply_filters l dr groups_sel ics_sel dir_mode inc_partial σ = Ok (l', σ')
       /\ l' <> l
       /\ σ' !! l' = Some (DataFrame (columns df)
            (List.filter (passes_filters dr groups_sel ics_sel dir_mode inc_partial) (rows df)))
       /\ σ' !! l = Some df
       /\ forall k old, σ !! k = Some old -> σ' !! k = Some old)
  /\ (forall fuel_filter bmu_filter attention_only,
     (forall c, In c annual_filter_columns -> c ∈ columns df) ->
     exists l' σ',
       filtered_annual l fuel_filter bmu_filter attention_only σ = Ok (l', σ')
       /\ l' <> l
       /\ σ' !! l' = Some (DataFrame (columns df)
            (List.filter (passes_annual fuel_filter bmu_filter attention_only) (rows df)))
       /\ σ' !! l = Some df
       /\ forall k old, σ !! k = Some old -> σ' !! k = Some old).
Proof.
  intros Hl.
  assert (Hframe : forall (m : Obj nat) p,
    wp m σ (selected σ df p) ->
    exists l' σ', m σ = Ok (l', σ') /\ l' <> l
      /\ σ' !! l' = Some (DataFrame (columns df) (List.filter p (rows df)))
      /\ σ' !! l = Some df
      /\ forall k old, σ !! k = Some old -> σ' !! k = Some old).
  { intros m p H. apply wp_elim in H. destruct H as (l' & σ' & Hrun & Hl' & Hpre & Hlen).
    exists l', σ'. split; [exact Hrun|]. split; [|split; [exact Hl'|split]].
    - apply lookup_lt_Some in Hl. lia.
    - eapply prefix_lookup_Some; eassumption.
    - intros k old Hk. eapply prefix_lookup_Some; eassumption. }
  split; intros.
  - apply Hframe, apply_filters_wp; assumption.
  - apply Hframe, filtered_annual_wp; assumption.
Qed.

(** ** Sorting, distinct values, groups *)

Lemma insert_by_perm {A} (leb : A -> A -> bool) x l :
  Permutation (insert_by leb x l) (x :: l).
Proof.
  induction l as [|y l IH]; simpl; [reflexivity|].
  destruct (leb x y); [reflexivity|].
  rewrite IH. apply perm_swap.
Qed.

Lemma sort_by_perm {A} (leb : A -> A -> bool) l : Permutation (sort_by leb l) l.
Proof.
  induction l as [|x l IH]; simpl; [reflexivity|].
  unfold sort_by in *. simpl. rewrite insert_by_perm. apply perm_skip, IH.
Qed.

Lemma In_sort_by {A} (leb : A -> A -> bool) l x : In x (sort_by leb l) <-> In x l.
Proof.
  split; apply Permutation_in; [|symmetry]; apply sort_by_perm.
Qed.

Lemma string_compare_refl b : String.compare b b = Eq.
Proof.
  pose proof (String.compare_antisym b b) as H.
  destruct (String.compare b b); simpl in H; congruence.
Qed.

Lemma cell_same_str b c : cell_same (CStr b) c = true <-> c = CStr b.
Proof.
  split.
  - destruct c; simpl; try discriminate. unfold cell_eq, cell_cmp.
    destruct (String.compare b s) eqn:E; try discriminate.
    apply String.compare_eq_iff in E. subst. reflexivity.
  - intros ->. simpl. unfold cell_eq, cell_cmp.
    rewrite string_compare_refl. reflexivity.
Qed.


(** A string that occurs in a series is one of its distinct values. *)
Lemma In_unique_str b s : In (CStr b) s -> In (CStr b) (unique s).
Proof.
  induction s as [|a s IH]; simpl; [tauto|].
  intros [->|Hin]; [left; reflexivity|].
  destruct (cell_same (CStr b) a) eqn:E.
  - left. apply cell_same_str in E. exact E.
  - right. apply List.filter_In. split; [apply IH, Hin|]. rewrite E. reflexivity.
Qed.

Lemma In_unique s c : In c (unique s) -> In c s.
Proof.
  revert c. induction s as [|a s IH]; simpl; [tauto|].
  intros c [->|Hin]; [left; reflexivity|].
  right. apply IH. apply List.filter_In in Hin. tauto.
Qed.


Lemma In_group_keys k ks : In k (group_keys ks) -> In k ks /\ k <> CNull.
Proof.
  unfold group_keys. intros Hin. apply In_sort_by, In_unique in Hin.
  unfold series_dropna in Hin. apply List.filter_In in Hin. destruct Hin as [Hin Hn].
  split; [exact Hin|]. intros ->. discriminate.
Qed.

Lemma groupby_agg_ok df key val f nm :
  key ∈ columns df -> val ∈ columns df ->
  groupby_agg df key val f nm
  = Ok (DataFrame [key; nm]
          (map (fun k => <[nm := f (group_values df key val k)]> {[key := k]})
               (group_keys (map (cell_at key) (rows df))))).
Proof.
  intros Hk Hv. unfold groupby_agg. rewrite (getitem_ok _ _ Hk), (getitem_ok _ _ Hv).
  reflexivity.
Qed.

(** ** Percentiles per entity *)

Lemma omap_num_of_dropna s : omap num_of (series_dropna s) = omap num_of s.
Proof.
  induction s as [|c s IH]; [reflexivity|].
  unfold series_dropna in *. destruct c; simpl; first [exact IH | f_equal; exact IH].
Qed.

Lemma series_dropna_app s t : series_dropna (s ++ t) = series_dropna s ++ series_dropna t.
Proof. unfold series_dropna. apply List.filter_app. Qed.


Lemma series_dropna_idem s : series_dropna (series_dropna s) = series_dropna s.
Proof. unfold series_dropna. apply filter_idem. Qed.

Lemma p90_dropna s : p90 (series_dropna s) = p90 s.
Proof. unfold p90. rewrite series_dropna_idem. reflexivity. Qed.


Lemma p90_percentile s :
  p90 s = match percentile (omap num_of (series_dropna s)) 90 with
          | Some v => CNum v
          | None => CNull
          end.
Proof.
  unfold p90, series_size, nanpercentile.
  destruct (series_dropna s) as [|c t] eqn:E; reflexivity.
Qed.

Lemma df_monthly_p90_ok df_monthly :
  df_empty df_monthly = false ->
  "BMU" ∈ columns df_monthly -> "M_ABS_NetError%" ∈ columns df_monthly ->
  df_monthly_p90 df_monthly
  = Ok (DataFrame ["BMU"; "P90_monthly_error"]
          (map (fun k => <["P90_monthly_error" :=
                             p90 (group_values df_monthly "BMU" "M_ABS_NetError%" k)]>
                           {["BMU" := k]})
               (group_keys (map (cell_at "BMU") (rows df_monthly))))).
Proof.
  intros He Hb Hm. unfold df_monthly_p90. rewrite He. simpl.
  rewrite (groupby_agg_ok _ _ _ _ _ Hb Hm). simpl.
  unfold rename, set_columns. simpl columns. simpl rows. rewrite map_map.
  reflexivity.
Qed.


(** ** The attention flag *)

Lemma cell_ge_25 c : cell_ge c (CInt 25) = true <-> at_least_25 c.
Proof.
  unfold at_least_25, cell_ge. split.
  - destruct (num_of c) as [q|] eqn:Hq.
    + rewrite (cell_cmp_num _ _ _ Hq). intros H. exists q. split; [reflexivity|].
      change (inject_Z 25) with 25%Q in H.
      destruct (Qcompare_spec q 25) as [E|E|E]; try discriminate; lra.
    + destruct c; simpl in *; discriminate.
  - intros (q & Hq & Hle). rewrite (cell_cmp_num _ _ _ Hq).
    change (inject_Z 25) with 25%Q.
    destruct (Qcompare_spec q 25) as [E|E|E]; try reflexivity. exfalso. lra.
Qed.

Lemma at_least_25_null : ~ at_least_25 CNull.
Proof. intros (q & Hq & _). discriminate. Qed.

Lemma cell_at_insert_ne c d v (r : gmap string cell) :
  c <> d -> cell_at c (<[d := v]> r) = cell_at c r.
Proof. intros Hne. unfold cell_at. rewrite lookup_insert_ne by congruence. reflexivity. Qed.

Lemma cell_at_insert_eq c v (r : gmap string cell) : cell_at c (<[c := v]> r) = v.
Proof. unfold cell_at. rewrite lookup_insert_eq. reflexivity. Qed.

Lemma cell_at_singleton c v : cell_at c ({[c := v]} : gmap string cell) = v.
Proof. unfold cell_at. rewrite lookup_singleton_eq. reflexivity. Qed.

Lemma NeedsAttention_ok df :
  "A_ABS_NetError%" ∈ columns df -> "P90_monthly_error" ∈ columns df ->
  exists cs, NeedsAttention df = Ok (DataFrame cs (map flagged (rows df))).
Proof.
  intros Ha Hp. unfold NeedsAttention.
  rewrite (getitem_ok _ _ Ha). cbn [rbind]. rewrite setitem_map. cbn [rbind].
  set (df1 := DataFrame _ _).
  assert (Ha1 : "A_ABS_NetError%" ∈ columns df1).
  { subst df1. simpl. destruct (has_column df "ErrorFlagValue");
      [|apply elem_of_app; left]; exact Ha. }
  assert (Hp1 : "P90_monthly_error" ∈ columns df1).
  { subst df1. simpl. destruct (has_column df "ErrorFlagValue");
      [|apply elem_of_app; left]; exact Hp. }
  rewrite (getitem_ok _ _ Ha1), (getitem_ok _ _ Hp1). cbn [rbind].
  unfold mask_or, series_ge, series_of_mask. rewrite !map_map, zip_with_map_same, map_map.
  rewrite setitem_map. eexists. f_equal. f_equal.
  subst df1. cbn [rows]. rewrite map_map. apply map_ext. intros r. unfold flagged.
  rewrite !cell_at_insert_ne by discriminate. reflexivity.
Qed.

Lemma flagged_flag r :
  cell_at "NeedsAttention" (flagged r)
  = CBool (cell_ge (cell_at "A_ABS_NetError%" (flagged r)) (CInt 25)
           || cell_ge (cell_at "P90_monthly_error" (flagged r)) (CInt 25)).
Proof.
  unfold flagged. rewrite cell_at_insert_eq.
  rewrite !cell_at_insert_ne by discriminate. reflexivity.
Qed.

Lemma merge_left_ok left right on :
  on ∈ columns left -> on ∈ columns right ->
  (forall c, c ∈ columns left -> c ∈ columns right -> c = on) ->
  exists rs,
    merge_left left right on
    = Ok (DataFrame (columns left
                     ++ List.filter (fun c => negb (String.eqb c on)) (columns right)) rs).
Proof.
  intros Hl Hr Hdisj. unfold merge_left.
  rewrite (getitem_ok _ _ Hl), (getitem_ok _ _ Hr). cbn [rbind].
  assert (Hno : existsb (fun c => negb (String.eqb c on) && has_column left c
                                  && has_column right c) (columns left) = false).
  { apply not_true_is_false. intros Hex. apply existsb_exists in Hex.
    destruct Hex as (x & Hx & Hs). apply andb_true_iff in Hs. destruct Hs as [Hs Hxr].
    apply andb_true_iff in Hs. destruct Hs as [Hne Hxl].
    apply has_column_true in Hxr. apply has_column_true in Hxl.
    apply negb_true_iff, String.eqb_neq in Hne. apply Hne, Hdisj; assumption. }
  rewrite Hno. eexists. reflexivity.
Qed.

(** C2.  In the enriched annual table the attention flag of a row is
    true exactly when its [A_ABS_NetError%] is a number of at least 25
    or its joined [P90_monthly_error] is, and false otherwise; a null
    satisfies neither test.  A BMU with error 24 and percentile 26 is
    flagged; one with error 24 and no monthly data, or only null
    monthly data, is not. *)
Theorem attention_flag :
  (forall df_annual df_monthly,
     "BMU" ∈ columns df_annual -> "A_ABS_NetError%" ∈ columns df_annual ->
     "P90_monthly_error" ∉ columns df_annual ->
     (df_empty df_monthly = false ->
      "BMU" ∈ columns df_monthly /\ "M_ABS_NetError%" ∈ columns df_monthly) ->
     exists out,
       enrich df_annual df_monthly = Ok out
       /\ forall r, In r (rows out) ->
            (cell_at "NeedsAttention" r = CBool true
             <-> at_least_25 (cell_at "A_ABS_NetError%" r)
                 \/ at_least_25 (cell_at "P90_monthly_error" r))
            /\ (cell_at "NeedsAttention" r = CBool false
                <-> ~ (at_least_25 (cell_at "A_ABS_NetError%" r)
                       \/ at_least_25 (cell_at "P90_monthly_error" r))))
  /\ ~ at_least_25 CNull
  /\ (exists out,
        enrich annual_scenario monthly_scenario = Ok out
        /\ map (fun r => (cell_at "BMU" r, cell_at "A_ABS_NetError%" r,
                          cell_at "P90_monthly_error" r, cell_at "NeedsAttention" r))
               (rows out)
           = [ (CStr "E1", CInt 24, CNum 26, CBool true);
               (CStr "E2", CInt 24, CNull, CBool false);
               (CStr "E3", CInt 24, CNull, CBool false) ]).
Proof.
  split; [|split; [exact at_least_25_null | eexists; split; vm_compute; reflexivity]].
  intros df_annual df_monthly Hb Ha Hnp Hm.
  assert (Hp : exists p, df_monthly_p90 df_monthly = Ok p
                         /\ columns p = ["BMU"; "P90_monthly_error"]).
  { destruct (df_empty df_monthly) eqn:He.
    - unfold df_monthly_p90. rewrite He. eexists. split; reflexivity.
    - destruct (Hm eq_refl) as [Hmb Hmm].
      rewrite (df_monthly_p90_ok _ He Hmb Hmm). eexists. split; reflexivity. }
  destruct Hp as (p & Hp & Hpc). unfold enrich. rewrite Hp. cbn [rbind].
  destruct (merge_left_ok df_annual p "BMU") as (rs & Hmerge).
  { exact Hb. }
  { rewrite Hpc. col_in. }
  { intros c Hc Hcp. rewrite Hpc in Hcp.
    apply elem_of_cons in Hcp. destruct Hcp as [->|Hcp]; [reflexivity|].
    apply list_elem_of_singleton in Hcp. subst c. contradiction. }
  rewrite Hmerge. cbn [rbind]. rewrite Hpc in *. simpl List.filter in *.
  destruct (NeedsAttention_ok (DataFrame (columns df_annual ++ ["P90_monthly_error"]) rs))
    as (cs & Hna).
  { simpl. apply elem_of_app. left. exact Ha. }
  { simpl. apply elem_of_app. right. col_in. }
  rewrite Hna. eexists. split; [reflexivity|]. simpl. intros r Hr.
  apply in_map_iff in Hr. destruct Hr as (r0 & <- & _).
  rewrite flagged_flag. rewrite <- !cell_ge_25.
  destruct (cell_ge (cell_at "A_ABS_NetError%" (flagged r0)) (CInt 25));
    destruct (cell_ge (cell_at "P90_monthly_error" (flagged r0)) (CInt 25));
    simpl; split; split; intros H;
    solve [ reflexivity | discriminate
          | intuition (try discriminate; try reflexivity; auto) ].
Qed.

Lemma attention_flag_witness :
  exists out,
    enrich annual_scenario monthly_scenario = Ok out
    /\ forall r, In r (rows out) ->
         (cell_at "NeedsAttention" r = CBool true
          <-> at_least_25 (cell_at "A_ABS_NetError%" r)
              \/ at_least_25 (cell_at "P90_monthly_error" r))
         /\ (cell_at "NeedsAttention" r = CBool false
             <-> ~ (at_least_25 (cell_at "A_ABS_NetError%" r)
                    \/ at_least_25 (cell_at "P90_monthly_error" r))).
Proof.
  apply (proj1 attention_flag annual_scenario monthly_scenario).
  - col_in.
  - col_in.
  - col_notin.
  - intros _. split; col_in.
Defined.

(** ** Hours over threshold *)


Lemma cell_same_int h : cell_same (CInt h) (CInt h) = true.
Proof.
  simpl. unfold cell_eq, cell_cmp. simpl.
  rewrite (proj1 (Qeq_alt (inject_Z h) (inject_Z h)) (Qeq_refl _)). reflexivity.
Qed.

Lemma NoDup_map_filter {A B} (f : A -> B) (p : A -> bool) l :
  List.NoDup (map f l) -> List.NoDup (map f (List.filter p l)).
Proof.
  induction l as [|x l IH]; simpl; intros Hnd; [constructor|].
  inversion Hnd as [|? ? Hx Hl]; subst.
  destruct (p x); simpl; [|apply IH, Hl].
  constructor; [|apply IH, Hl].
  intros Hin. apply Hx.
  apply in_map_iff in Hin. destruct Hin as (y & Hy & Hin).
  apply in_map_iff. exists y. split; [exact Hy|]. apply List.filter_In in Hin. tauto.
Qed.

Lemma unique_hours_NoDup s :
  (forall c, In c s -> exists h, c = CInt h /\ 0 <= h < 24) ->
  List.NoDup (map hour_of (unique s)).
Proof.
  induction s as [|a s IH]; simpl; intros Hs; [constructor|].
  constructor.
  - intros Hin. apply in_map_iff in Hin. destruct Hin as (d & Hd & Hin).
    apply List.filter_In in Hin. destruct Hin as [Hin Hne].
    destruct (Hs a (or_introl eq_refl)) as (ha & -> & Ha).
    destruct (Hs d (or_intror (In_unique _ _ Hin))) as (hd & -> & Hdr).
    simpl in Hd. assert (hd = ha) by lia. subst hd.
    rewrite cell_same_int in Hne. discriminate.
  - apply NoDup_map_filter, IH. intros c Hc. apply Hs. right. exact Hc.
Qed.

Lemma nunique_hours s : (forall c, In c s -> is_hour c) -> (nunique s <= 24)%nat.
Proof.
  intros Hs. unfold nunique.
  assert (Hd : forall c, In c (series_dropna s) -> exists h, c = CInt h /\ 0 <= h < 24).
  { intros c Hc. unfold series_dropna in Hc. apply List.filter_In in Hc.
    destruct Hc as [Hc Hn]. destruct (Hs c Hc) as [->|H]; [discriminate | exact H]. }
  pose proof (unique_hours_NoDup _ Hd) as Hnd.
  rewrite <- (length_map hour_of).
  change 24%nat with (length (seq 0 24)).
  apply NoDup_incl_length; [exact Hnd|].
  intros n Hn. apply in_map_iff in Hn. destruct Hn as (c & <- & Hc).
  destruct (Hd c (In_unique _ _ Hc)) as (h & -> & Hh).
  apply in_seq. unfold hour_of. lia.
Qed.

Lemma daily_data_ok df thr :
  "Trade_Abs_MW" ∈ columns df -> "Date" ∈ columns df -> "Hour" ∈ columns df ->
  daily_data df thr
  = Ok (DataFrame ["Date"; "Hours Over Threshold"]
          (map (fun d => <["Hours Over Threshold" :=
                             CInt (Z.of_nat (nunique (hours_above df thr d)))]>
                           {["Date" := d]})
               (group_keys (map (cell_at "Date") (List.filter (above thr) (rows df)))))).
Proof.
  intros Ht Hd Hh. unfold daily_data.
  rewrite (getitem_ok _ _ Ht). cbn [rbind]. unfold series_gt. rewrite map_map.
  change (fun x => cell_gt (cell_at "Trade_Abs_MW" x) thr) with (above thr).
  rewrite (getitem_mask_map df (above thr)). cbn [rbind].
  rewrite groupby_agg_ok by assumption. reflexivity.
Qed.



Lemma above_over t r : above (CInt t) r = over t r.
Proof.
  unfold above, over, cell_gt.
  destruct (num_of (cell_at "Trade_Abs_MW" r)) as [q|] eqn:Hq.
  - rewrite (cell_cmp_num _ _ _ Hq).
    destruct (Qcompare_spec q (inject_Z t)) as [H|H|H];
      destruct (Qle_bool q (inject_Z t)) eqn:E; try reflexivity; exfalso.
    + assert (H' : (q <= inject_Z t)%Q) by lra. apply Qle_bool_iff in H'. congruence.
    + assert (H' : (q <= inject_Z t)%Q) by lra. apply Qle_bool_iff in H'. congruence.
    + apply Qle_bool_iff in E. lra.
  - destruct (cell_at "Trade_Abs_MW" r); try discriminate; reflexivity.
Qed.

Lemma filter_above_over t (l : list (gmap string cell)) :
  List.filter (above (CInt t)) l = List.filter (over t) l.
Proof. apply List.filter_ext. intros r. apply above_over. Qed.



Lemma fact_trades_sample_numeric : numeric_volumes fact_trades_sample.
Proof.
  intros r Hr. simpl in Hr.
  repeat (destruct Hr as [<-|Hr]; [right; eexists; vm_compute; reflexivity|]). destruct Hr.
Qed.


(** ** Assigning derived columns *)

Lemma setitem_with_column df dst (g : gmap string cell -> cell) :
  setitem df dst (map g (rows df)) = Ok (with_column df dst g).
Proof. apply setitem_map. Qed.

Lemma in_with_column_old df dst g c : c ∈ columns df -> c ∈ columns (with_column df dst g).
Proof.
  intros Hc. unfold with_column. cbn [columns].
  destruct (has_column df dst); [exact Hc | apply elem_of_app; left; exact Hc].
Qed.

Lemma in_with_column_new df dst g : dst ∈ columns (with_column df dst g).
Proof.
  unfold with_column. cbn [columns]. destruct (has_column df dst) eqn:E.
  - apply has_column_true. exact E.
  - apply elem_of_app. right. apply list_elem_of_singleton. reflexivity.
Qed.

Lemma rows_with_column df dst g :
  rows (with_column df dst g) = map (fun r => <[dst := g r]> r) (rows df).
Proof. reflexivity. Qed.

Lemma setitem_scalar_with_column df dst v :
  setitem_scalar df dst v = with_column df dst (fun _ => v).
Proof. reflexivity. Qed.

Create HintDb cols.
#[local] Hint Resolve in_with_column_old in_with_column_new : cols.

(** ** Reading the sources *)

Lemma read_sources_app s1 s2 :
  read_sources (s1 ++ s2)
  = ((read_sources s1).1 ++ (read_sources s2).1, (read_sources s1).2 ++ (read_sources s2).2).
Proof.
  induction s1 as [|src s1 IH].
  - cbn [read_sources app fst snd]. destruct (read_sources s2); reflexivity.
  - cbn [read_sources app]. rewrite IH.
    destruct (read_sources s1) as [e1 d1], (read_sources s2) as [e2 d2]. cbn [fst snd].
    destruct (read_csv src) as [df|e]; [destruct (forallb (has_column df) required_cols)|];
      reflexivity.
Qed.

Lemma read_sources_frames srcs df :
  In df (read_sources srcs).2 <->
  exists src, In src srcs /\ content src = Parsed df
              /\ forallb (has_column df) required_cols = true.
Proof.
  induction srcs as [|src srcs IH]; cbn [read_sources In snd].
  - split; [intros [] | intros (? & [] & _)].
  - destruct (read_sources srcs) as [errs dfs]. cbn [snd] in IH.
    unfold read_csv. destruct (content src) as [msg|df0] eqn:Hc; cbn [snd].
    + rewrite IH. split.
      * intros (s & Hs & H). exists s. split; [right; exact Hs | exact H].
      * intros (s & [<-|Hs] & Hp & H); [congruence|]. exists s. tauto.
    + destruct (forallb (has_column df0) required_cols) eqn:Hreq; cbn [snd In];
        rewrite IH; split.
      * intros [<-|(s & Hs & H)]; [exists src; tauto|]. exists s. tauto.
      * intros (s & [<-|Hs] & Hp & H); [left; congruence|]. right. exists s. tauto.
      * intros (s & Hs & H). exists s. tauto.
      * intros (s & [<-|Hs] & Hp & H); [congruence|]. exists s. tauto.
Qed.

Lemma in_union_columns_l cs ds c : c ∈ cs -> c ∈ union_columns cs ds.
Proof. intros H. unfold union_columns. apply elem_of_app. left. exact H. Qed.

Lemma in_foldl_union_columns acc css c :
  c ∈ acc \/ (exists cs, In cs css /\ c ∈ cs) -> c ∈ foldl union_columns acc css.
Proof.
  revert acc. induction css as [|cs css IH]; simpl; intros acc H.
  - destruct H as [H|(? & [] & _)]. exact H.
  - apply IH. destruct H as [H|(cs' & [<-|Hin] & Hc)].
    + left. apply in_union_columns_l, H.
    + destruct (decide (c ∈ acc)) as [Ha|Hna]; [left; apply in_union_columns_l, Ha|].
      left. unfold union_columns. apply elem_of_app. right.
      apply list_elem_of_In, List.filter_In. split; [apply list_elem_of_In, Hc|].
      apply negb_true_iff, bool_decide_eq_false. exact Hna.
    + right. exists cs'. split; assumption.
Qed.

Lemma pd_concat_ok dfs :
  dfs <> [] ->
  pd_concat dfs = Ok (DataFrame (foldl union_columns [] (map columns dfs))
                                (List.concat (map rows dfs))).
Proof. destruct dfs; [congruence | reflexivity]. Qed.

Lemma dropna_ok df cs :
  (forall c, In c cs -> c ∈ columns df) ->
  dropna df cs
  = Ok (DataFrame (columns df)
          (List.filter (fun r => forallb (fun c => negb (isna (cell_at c r))) cs) (rows df))).
Proof.
  intros Hcs. unfold dropna.
  destruct (List.find (fun c => negb (has_column df c)) cs) as [c|] eqn:E; [|reflexivity].
  apply List.find_some in E. destruct E as [Hin Hc].
  apply Hcs, has_column_true in Hin. rewrite Hin in Hc. discriminate.
Qed.

Lemma filter_map_comm {A B} (f : A -> B) (p : B -> bool) l :
  List.filter p (map f l) = map f (List.filter (fun x => p (f x)) l).
Proof.
  induction l as [|x l IH]; simpl; [reflexivity|].
  destruct (p (f x)); simpl; rewrite IH; reflexivity.
Qed.

(** ** The trading loader *)

Section TradingLoader.

Variable parse_datetime : string -> option Z.
Variable repr_float : Q -> string.

Lemma load_and_transform_data_ok srcs :
  (read_sources srcs).2 <> [] ->
  exists cs,
    cs <> []
    /\ load_and_transform_data parse_datetime repr_float srcs
    = ((read_sources srcs).1,
       Ok (DataFrame cs
             (map (canonical parse_datetime repr_float)
                  (List.filter (usable parse_datetime) (List.concat (map rows (read_sources srcs).2)))))).
Proof.
  intros Hne. unfold load_and_transform_data.
  pose proof (read_sources_frames srcs) as Hfr.
  destruct (read_sources srcs) as [errs dfs]. cbn [fst snd] in *.
  destruct dfs as [|df0 dfs0]; [congruence|].
  set (dfs := df0 :: dfs0) in *. rewrite (pd_concat_ok dfs) by exact Hne.
  cbn [rbind]. set (fact := DataFrame _ _).
  assert (Hreq : forall c, In c required_cols -> c ∈ columns fact).
  { intros c Hc. unfold fact. cbn [columns]. apply in_foldl_union_columns. right.
    exists (columns df0). split; [left; reflexivity|].
    destruct (proj1 (Hfr df0) (or_introl eq_refl)) as (src & _ & _ & Hall).
    rewrite forallb_forall in Hall. apply has_column_true, Hall, Hc. }
  assert (Hh : "HourStartLocal" ∈ columns fact) by (apply Hreq; simpl; tauto).
  assert (Ht : "Trade_Abs_MW" ∈ columns fact) by (apply Hreq; simpl; tauto).
  assert (Hi : "Interconnector" ∈ columns fact) by (apply Hreq; simpl; tauto).
  rewrite (getitem_ok _ _ Hh). cbn [rbind]. unfold to_datetime. rewrite map_map.
  rewrite setitem_with_column. cbn [rbind].
  rewrite dropna_ok.
  2:{ intros c [<-|[<-|[<-|[]]]]; auto with cols. }
  cbn [rbind]. rewrite rows_with_column, filter_map_comm.
  set (kept := List.filter _ (rows fact)).
  set (f1 := DataFrame _ (map _ kept)).
  assert (Hh1 : "HourStartLocal" ∈ columns f1) by (unfold f1; cbn [columns]; auto with cols).
  assert (Hi1 : "Interconnector" ∈ columns f1) by (unfold f1; cbn [columns]; auto with cols).
  repeat (rewrite getitem_ok by auto 10 with cols; cbn [rbind];
          rewrite ?map_map; rewrite setitem_with_column; cbn [rbind]).
  rewrite getitem_ok by auto 10 with cols. cbn [rbind].
  unfold series_apply. rewrite map_map, setitem_with_column.
  match goal with |- context [Ok ?final] => exists (columns final) end.
  split.
  { assert (Hin : "HourStartLocal" ∈ columns
      (with_column f1 "Date" (fun x => dt_date (cell_at "HourStartLocal" x))))
      by auto with cols.
    intros Hnil.
    match goal with H : columns ?final = [] |- _ =>
      assert (Hfin : "HourStartLocal" ∈ columns final) by auto 10 with cols end.
    rewrite Hnil in Hfin. apply elem_of_nil in Hfin. exact Hfin. }
  do 2 f_equal. apply frame_eta; [reflexivity|].
  rewrite !rows_with_column. unfold f1. cbn [rows]. rewrite !map_map.
  unfold kept, fact. cbn [rows]. 
  replace (List.filter (usable parse_datetime) (List.concat (map rows dfs)))
    with (List.filter
            (fun x => forallb (fun c => negb (isna (cell_at c
                         (<["HourStartLocal" :=
                              to_datetime_cell parse_datetime (cell_at "HourStartLocal" x)]> x))))
                      ["HourStartLocal"; "Trade_Abs_MW"; "Interconnector"])
            (List.concat (map rows dfs))).
  2:{ apply List.filter_ext. intros r. unfold usable. cbn [forallb].
      rewrite cell_at_insert_eq. rewrite !cell_at_insert_ne by discriminate.
      rewrite andb_true_r, andb_assoc. reflexivity. }
  reflexivity.
Qed.

(** In a row of the loaded table the hour is the hour of day of the
    row's timestamp. *)
Lemma canonical_hour r :
  cell_at "Hour" (canonical parse_datetime repr_float r)
  = dt_hour (cell_at "HourStartLocal" (canonical parse_datetime repr_float r)).
Proof.
  unfold canonical, derive.
  repeat (rewrite cell_at_insert_eq || (rewrite cell_at_insert_ne by discriminate)).
  reflexivity.
Qed.

End TradingLoader.

(** ** The accuracy loader *)

Lemma rmap_ok {A B} (f : A -> result B) (g : A -> B) l :
  (forall x, In x l -> f x = Ok (g x)) -> rmap f l = Ok (map g l).
Proof.
  induction l as [|x l IH]; intros H; [reflexivity|].
  cbn [rmap map]. rewrite (H x (or_introl eq_refl)). cbn [rbind].
  rewrite IH by (intros y Hy; apply H; right; exact Hy). reflexivity.
Qed.

Section AccuracyLoader.

Variable parse_float : string -> option Q.
Variable parse_period : string -> option Z.
Variable repr_float : Q -> string.

Lemma to_numeric_cell_idem c : to_numeric_cell parse_float (to_numeric_cell parse_float c) = to_numeric_cell parse_float c.
Proof. destruct c; simpl; try reflexivity. destruct (parse_float s); reflexivity. Qed.

(** A text cell that does not parse becomes a null. *)
Lemma to_numeric_cell_fail s : parse_float s = None -> to_numeric_cell parse_float (CStr s) = CNull.
Proof. intros H. simpl. rewrite H. reflexivity. Qed.

Lemma coerce_numeric_ok cols df :
  coerce_numeric parse_float cols df
  = Ok (DataFrame (columns df) (map (coerce_row parse_float cols (columns df)) (rows df))).
Proof.
  revert df. induction cols as [|c cols IH]; intros df.
  - cbn [coerce_numeric]. unfold coerce_row. cbn [fold_left]. rewrite map_id.
    destruct df; reflexivity.
  - cbn [coerce_numeric]. unfold has_column at 1.
    destruct (bool_decide (c ∈ columns df)) eqn:Hc.
    + apply bool_decide_eq_true in Hc as Hc'.
      rewrite (getitem_ok _ _ Hc'). cbn [rbind]. unfold to_numeric. rewrite map_map.
      rewrite setitem_with_column. cbn [rbind]. rewrite IH.
      unfold with_column, has_column. rewrite Hc. cbn [columns rows].
      rewrite map_map. do 2 f_equal. apply map_ext. intros r.
      unfold coerce_row. cbn [fold_left]. rewrite Hc. reflexivity.
    + cbn [rbind]. rewrite IH. do 2 f_equal. apply map_ext. intros r.
      unfold coerce_row. cbn [fold_left]. rewrite Hc. reflexivity.
Qed.

Lemma coerce_row_cell cols present r c :
  cell_at c (coerce_row parse_float cols present r)
  = if existsb (String.eqb c) cols && bool_decide (c ∈ present)
    then to_numeric_cell parse_float (cell_at c r) else cell_at c r.
Proof.
  revert r. induction cols as [|c0 cols IH]; intros r; [reflexivity|].
  unfold coerce_row in *. cbn [fold_left existsb]. rewrite IH. clear IH.
  destruct (String.eqb c c0) eqn:E.
  - apply String.eqb_eq in E. subst c0. cbn [orb andb].
    destruct (bool_decide (c ∈ present)) eqn:Hp.
    + rewrite cell_at_insert_eq, to_numeric_cell_idem.
      destruct (existsb (String.eqb c) cols); reflexivity.
    + rewrite andb_false_r. reflexivity.
  - apply String.eqb_neq in E. cbn [orb].
    destruct (bool_decide (c0 ∈ present)); [|reflexivity].
    rewrite cell_at_insert_ne by exact E. reflexivity.
Qed.

Lemma load_annual_ok f df :
  content f = Parsed df ->
  "nationalGridBmUnit" ∈ map strip (columns df) -> "FUEL_I" ∈ map strip (columns df) ->
  exists cs,
    load_annual parse_float repr_float f
    = Ok (DataFrame cs (map (annual_row parse_float repr_float (map strip (columns df)))
                            (rows (set_columns strip df)))).
Proof.
  intros Hf Hb Hfu. unfold load_annual, read_csv. rewrite Hf. cbn [rbind].
  rewrite coerce_numeric_ok. cbn [rbind].
  set (df1 := DataFrame _ _).
  assert (Hb1 : "nationalGridBmUnit" ∈ columns df1) by exact Hb.
  assert (Hf1 : "FUEL_I" ∈ columns df1) by exact Hfu.
  rewrite (getitem_ok _ _ Hb1). cbn [rbind]. unfold astype_str. rewrite map_map.
  rewrite setitem_with_column. cbn [rbind].
  rewrite getitem_ok by auto with cols. cbn [rbind]. rewrite map_map.
  rewrite setitem_with_column. cbn [rbind].
  rewrite !setitem_scalar_with_column.
  match goal with |- context [Ok ?final] => exists (columns final) end.
  f_equal. apply frame_eta; [reflexivity|].
  rewrite !rows_with_column. unfold df1. cbn [rows].
  rewrite !map_map.
  unfold annual_row, derive. cbn [columns set_columns]. reflexivity.
Qed.

Lemma load_monthly_ok f df :
  content f = Parsed df ->
  "year_month" ∈ map strip (columns df) ->
  "nationalGridBmUnit" ∈ map strip (columns df) -> "FUEL_I" ∈ map strip (columns df) ->
  exists cs present,
    (forall c, c ∈ map strip (columns df) -> c ∈ present)
    /\ load_monthly parse_float parse_period repr_float f
       = Ok (DataFrame cs (map (monthly_row parse_float parse_period repr_float present)
                               (rows (set_columns strip df)))).
Proof.
  intros Hf Hy Hb Hfu. unfold load_monthly, read_csv. rewrite Hf. cbn [rbind].
  set (df1 := set_columns strip df).
  assert (Hy1 : "year_month" ∈ columns df1) by exact Hy.
  assert (Hb1 : "nationalGridBmUnit" ∈ columns df1) by exact Hb.
  assert (Hf1 : "FUEL_I" ∈ columns df1) by exact Hfu.
  unfold astype_str, str_pad_month, to_datetime_Ym.
  do 6 (rewrite getitem_ok by auto 10 with cols; cbn [rbind];
        rewrite ?map_map; rewrite setitem_with_column; cbn [rbind]).
  rewrite coerce_numeric_ok. cbn [rbind].
  match goal with |- context [coerce_row parse_float num_cols_m (columns ?d)] =>
    set (df2 := d) end.
  set (df3 := DataFrame (columns df2) _).
  assert (Hb3 : "nationalGridBmUnit" ∈ columns df3)
    by (unfold df3, df2; cbn [columns]; auto 10 with cols).
  assert (Hf3 : "FUEL_I" ∈ columns df3)
    by (unfold df3, df2; cbn [columns]; auto 10 with cols).
  do 2 (rewrite getitem_ok by auto 10 with cols; cbn [rbind];
        rewrite ?map_map; rewrite setitem_with_column; cbn [rbind]).
  rewrite !setitem_scalar_with_column.
  match goal with |- context [Ok ?final] => exists (columns final) end.
  exists (columns df2). split.
  { intros c Hc. unfold df2. auto 10 with cols. }
  f_equal. apply frame_eta; [reflexivity|].
  rewrite !rows_with_column. unfold df3. cbn [rows]. unfold df2.
  rewrite !rows_with_column, !map_map.
  unfold monthly_row, derive. reflexivity.
Qed.


End AccuracyLoader.

(** ** Parsers for the examples *)

Example parsers_check :
  decimal "12.5" = Some (25 # 2)%Q /\ decimal "-3" = Some (-3 # 1)%Q
  /\ decimal "n/a" = None /\ decimal "" = None
  /\ iso_datetime "2025-03-01 01:00:00" = Some (20148 * 86400 + 3600)
  /\ iso_datetime "not-a-date" = None /\ iso_datetime "2025-13-01 00:00:00" = None
  /\ repr_1dp (25 # 2) = "12.5".
Proof. vm_compute. repeat split; reflexivity. Qed.


(** ** Skipped sources and the empty result *)

Lemma read_sources_skip bad df rest :
  content bad = Parsed df -> forallb (has_column df) required_cols = false ->
  read_sources (bad :: rest) = read_sources rest.
Proof.
  intros Hc Hreq. cbn [read_sources]. unfold read_csv. rewrite Hc, Hreq.
  destruct (read_sources rest); reflexivity.
Qed.

Lemma load_and_transform_data_read pd rf srcs srcs' :
  read_sources srcs = read_sources srcs' ->
  load_and_transform_data pd rf srcs = load_and_transform_data pd rf srcs'.
Proof. intros H. unfold load_and_transform_data. rewrite H. reflexivity. Qed.

Lemma df_empty_rows cs rs : cs <> [] -> df_empty (DataFrame cs rs) = true <-> rs = [].
Proof.
  intros Hcs. unfold df_empty. cbn [columns rows].
  destruct cs as [|c cs]; [congruence|]. destruct rs; split; congruence.
Qed.

Lemma filter_nil_iff {A} (p : A -> bool) l :
  List.filter p l = [] <-> forall x, In x l -> p x = false.
Proof.
  induction l as [|x l IH]; simpl; [tauto|].
  destruct (p x) eqn:E; split.
  - discriminate.
  - intros H. rewrite (H x (or_introl eq_refl)) in E. discriminate.
  - intros H y [<-|Hy]; [exact E | apply IH; assumption].
  - intros H. apply IH. intros y Hy. apply H. right. exact Hy.
Qed.

(** C7.  A source that lacks a required column is passed over without
    a diagnostic: the diagnostics and the table are those of the other
    sources alone.  The loader always returns a table, and the table is
    empty exactly when no row of any source with the required columns
    is usable. *)
Theorem missing_columns_skipped (parse_datetime : string -> option Z)
    (repr_float : Q -> string) :
  (forall s1 bad s2 df,
     content bad = Parsed df -> forallb (has_column df) required_cols = false ->
     load_and_transform_data parse_datetime repr_float (s1 ++ bad :: s2)
     = load_and_transform_data parse_datetime repr_float (s1 ++ s2))
  /\ (forall srcs,
        exists out,
          (load_and_transform_data parse_datetime repr_float srcs).2 = Ok out
          /\ (df_empty out = true <->
              forall src df r,
                In src srcs -> content src = Parsed df ->
                forallb (has_column df) required_cols = true ->
                In r (rows df) -> usable parse_datetime r = false)).
Proof.
  split.
  - intros s1 bad s2 df Hc Hreq. apply load_and_transform_data_read.
    rewrite !read_sources_app, (read_sources_skip _ _ _ Hc Hreq). reflexivity.
  - intros srcs. pose proof (read_sources_frames srcs) as Hfr.
    destruct (read_sources srcs).2 as [|df0 dfs0] eqn:Hdfs.
    + exists DataFrame_empty. split.
      * unfold load_and_transform_data. destruct (read_sources srcs) as [errs dfs].
        cbn [snd] in Hdfs. subst dfs. reflexivity.
      * split; [|reflexivity]. intros _ src df r Hsrc Hc Hreq _.
        exfalso. apply (proj2 (Hfr df)). exists src. tauto.
    + destruct (load_and_transform_data_ok parse_datetime repr_float srcs)
        as (cs & Hcs & Hload); [rewrite Hdfs; discriminate|].
      rewrite Hload. cbn [snd]. eexists. split; [reflexivity|].
      rewrite (df_empty_rows _ _ Hcs). rewrite Hdfs in *.
      split.
      * intros Hnil src df r Hsrc Hc Hreq Hr.
        apply map_eq_nil in Hnil. apply (proj1 (filter_nil_iff _ _) Hnil).
        apply in_concat. exists (rows df). split; [|exact Hr].
        apply in_map. apply Hfr. exists src. tauto.
      * intros Hall. rewrite (proj2 (filter_nil_iff _ _)); [reflexivity|].
        intros r Hr. apply in_concat in Hr. destruct Hr as (rs & Hrs & Hr).
        apply in_map_iff in Hrs. destruct Hrs as (df & <- & Hdf).
        apply Hfr in Hdf. destruct Hdf as (src & Hsrc & Hc & Hreq).
        apply (Hall src df r); assumption.
Qed.

Lemma missing_columns_skipped_witness :
  load_and_transform_data iso_datetime repr_1dp ([ifa1_csv] ++ notes_csv :: [broken_csv])
  = load_and_transform_data iso_datetime repr_1dp ([ifa1_csv] ++ [broken_csv]).
Proof.
  apply (proj1 (missing_columns_skipped iso_datetime repr_1dp)
           [ifa1_csv] notes_csv [broken_csv]
           (DataFrame ["HourStartLocal"; "Interconnector"; "Comment"]
               [ {[ "HourStartLocal" := CStr "2025-03-01 00:00:00";
                    "Interconnector" := CStr "NEMO"; "Comment" := CStr "outage" ]} ])).
  - reflexivity.
  - vm_compute. reflexivity.
Defined.

Example load_and_transform_data_sample :
  exists out,
    load_and_transform_data iso_datetime repr_1dp [ifa1_csv; notes_csv; broken_csv]
    = (["Error loading broken.csv: Error tokenizing data"], Ok out)
    /\ map (fun r => (cell_at "HourStartLocal" r, cell_at "Date" r, cell_at "Hour" r,
                      cell_at "YearMonth" r, cell_at "Interconnector Group" r))
           (rows out)
       = [ (CTime (20148 * 86400), CDate 20148, CInt 0, CStr "2025-03", CStr "IFA") ].
Proof. eexists. split; vm_compute; reflexivity. Qed.


(** ** Coercion failures *)

Lemma concat_or_empty_ok dfs :
  exists cs, concat_or_empty dfs = Ok (DataFrame cs (List.concat (map rows dfs))).
Proof.
  destruct dfs as [|d dfs]; [exists []; reflexivity|].
  eexists. unfold concat_or_empty. apply pd_concat_ok. discriminate.
Qed.

Lemma Forall2_map_same {A B C} (R : B -> C -> Prop) (f : A -> B) (g : A -> C) l :
  (forall x, In x l -> R (f x) (g x)) -> Forall2 R (map f l) (map g l).
Proof.
  induction l as [|x l IH]; intros H; simpl; constructor.
  - apply H. left. reflexivity.
  - apply IH. intros y Hy. apply H. right. exact Hy.
Qed.

Lemma Forall2_flat_map {A B C} (R : B -> C -> Prop) (f : A -> list B) (g : A -> list C) l :
  (forall x, In x l -> Forall2 R (f x) (g x)) ->
  Forall2 R (flat_map f l) (List.concat (map g l)).
Proof.
  induction l as [|x l IH]; intros H; simpl; [constructor|].
  apply Forall2_app; [apply H; left; reflexivity|].
  apply IH. intros y Hy. apply H. right. exact Hy.
Qed.

Lemma existsb_eqb_In c cols : In c cols -> existsb (String.eqb c) cols = true.
Proof.
  intros H. apply existsb_exists. exists c. split; [exact H | apply String.eqb_refl].
Qed.

Section CoercionFailures.

Variable parse_float : string -> option Q.
Variable parse_datetime : string -> option Z.
Variable parse_period : string -> option Z.
Variable repr_float : Q -> string.

Lemma annual_row_coerced present cs r :
  (forall c, c ∈ cs -> c ∈ present) ->
  coerced parse_float num_cols (cs, r) (annual_row parse_float repr_float present r).
Proof.
  intros Hsub c Hc Hp. cbn [fst snd] in *. unfold annual_row, derive.
  assert (Hne : c <> "Grain" /\ c <> "Year" /\ c <> "Fuel" /\ c <> "BMU").
  { repeat split; intros ->; simpl in Hc; intuition discriminate. }
  destruct Hne as (H1 & H2 & H3 & H4).
  rewrite !cell_at_insert_ne by assumption.
  rewrite coerce_row_cell, (existsb_eqb_In _ _ Hc).
  rewrite bool_decide_eq_true_2 by (apply Hsub, Hp). reflexivity.
Qed.

Lemma monthly_row_coerced present cs r :
  (forall c, c ∈ cs -> c ∈ present) ->
  coerced parse_float num_cols_m (cs, r)
          (monthly_row parse_float parse_period repr_float present r).
Proof.
  intros Hsub c Hc Hp. cbn [fst snd] in *. unfold monthly_row, derive.
  assert (Hne : c <> "Grain" /\ c <> "Fuel" /\ c <> "BMU" /\ c <> "MonthName"
                /\ c <> "Month" /\ c <> "Year" /\ c <> "YearMonth"
                /\ c <> "year_month_fixed" /\ c <> "year_month").
  { repeat split; intros ->; simpl in Hc; intuition discriminate. }
  destruct Hne as (H1 & H2 & H3 & H4 & H5 & H6 & H7 & H8 & H9).
  rewrite !cell_at_insert_ne by assumption.
  rewrite coerce_row_cell, (existsb_eqb_In _ _ Hc).
  rewrite bool_decide_eq_true_2 by (apply Hsub, Hp).
  rewrite !cell_at_insert_ne by assumption. reflexivity.
Qed.

Lemma monthly_row_dated present cs r :
  dated parse_period (cs, r) (monthly_row parse_float parse_period repr_float present r).
Proof.
  intros s Hs _. unfold monthly_row, derive. cbn [fst snd] in *.
  repeat (rewrite cell_at_insert_eq
          || (rewrite cell_at_insert_ne by discriminate)
          || (rewrite coerce_row_cell;
              change (existsb (String.eqb "YearMonth") num_cols_m) with false;
              change (existsb (String.eqb "Year") num_cols_m) with false;
              change (existsb (String.eqb "Month") num_cols_m) with false;
              change (existsb (String.eqb "MonthName") num_cols_m) with false;
              cbn [andb])).
  rewrite Hs. cbn [py_str to_datetime_Ym_cell].
  split; [reflexivity|]. intros ->. repeat split; reflexivity.
Qed.

(** C1 (as amended).  A text cell that does not parse as a number
    becomes a null, and a period that its reader rejects becomes a
    null.  [load_accuracy_data], given files with the identity
    columns whose headers are printable and distinct once stripped,
    returns both tables; every row of every file has its row in the
    table, in order, holding in each numeric column the coercion of
    the file's cell, and a monthly row whose period the reader
    rejects holds nulls in the calendar columns.
    [load_and_transform_data] keeps exactly the usable rows, in
    order: a row whose timestamp does not parse is not usable. *)
Theorem coercion_failures :
  (forall s, parse_float s = None -> to_numeric_cell parse_float (CStr s) = CNull)
  /\ (forall s, parse_period s = None -> to_datetime_Ym_cell parse_period (CStr s) = CNull)
  /\ (forall annual_files monthly_files,
        (forall f, In f annual_files ->
           exists df, content f = Parsed df
             /\ clean_headers df
             /\ "nationalGridBmUnit" ∈ map strip (columns df)
             /\ "FUEL_I" ∈ map strip (columns df)) ->
        (forall f, In f monthly_files ->
           exists df, content f = Parsed df
             /\ clean_headers df
             /\ "year_month" ∈ map strip (columns df)
             /\ "nationalGridBmUnit" ∈ map strip (columns df)
             /\ "FUEL_I" ∈ map strip (columns df)) ->
        exists df_annual df_monthly,
          load_accuracy_data parse_float parse_period repr_float annual_files monthly_files
          = Ok (df_annual, df_monthly)
          /\ Forall2 (coerced parse_float num_cols) (flat_map file_rows annual_files) (rows df_annual)
          /\ Forall2 (fun x r' => coerced parse_float num_cols_m x r' /\ dated parse_period x r')
                     (flat_map file_rows monthly_files) (rows df_monthly))
  /\ (forall srcs,
        (read_sources srcs).2 <> [] ->
        exists out,
          (load_and_transform_data parse_datetime repr_float srcs).2 = Ok out
          /\ rows out
             = map (canonical parse_datetime repr_float)
                   (List.filter (usable parse_datetime)
                                (List.concat (map rows (read_sources srcs).2))))
  /\ (forall r,
        to_datetime_cell parse_datetime (cell_at "HourStartLocal" r) = CNull ->
        usable parse_datetime r = false).
Proof.
  split; [apply to_numeric_cell_fail|].
  split; [intros s Hs; cbn [to_datetime_Ym_cell]; rewrite Hs; reflexivity|].
  split; [|split].
  - intros annual_files monthly_files Ha Hm.
    set (ga := fun f => force (load_annual parse_float repr_float f)).
    set (gm := fun f => force (load_monthly parse_float parse_period repr_float f)).
    assert (Hga : forall f, In f annual_files ->
              load_annual parse_float repr_float f = Ok (ga f)).
    { intros f Hf. destruct (Ha f Hf) as (df & Hc & _ & Hb & Hfu).
      destruct (load_annual_ok parse_float repr_float f df Hc Hb Hfu) as (cs & E).
      unfold ga. rewrite E. reflexivity. }
    assert (Hgm : forall f, In f monthly_files ->
              load_monthly parse_float parse_period repr_float f = Ok (gm f)).
    { intros f Hf. destruct (Hm f Hf) as (df & Hc & _ & Hy & Hb & Hfu).
      destruct (load_monthly_ok parse_float parse_period repr_float f df Hc Hy Hb Hfu)
        as (cs & present & _ & E).
      unfold gm. rewrite E. reflexivity. }
    unfold load_accuracy_data.
    rewrite (rmap_ok _ ga _ Hga). cbn [rbind].
    destruct (concat_or_empty_ok (map ga annual_files)) as (csa & ->). cbn [rbind].
    rewrite (rmap_ok _ gm _ Hgm). cbn [rbind].
    destruct (concat_or_empty_ok (map gm monthly_files)) as (csm & ->). cbn [rbind].
    do 2 eexists. split; [reflexivity|]. cbn [rows]. rewrite !map_map. split.
    + apply Forall2_flat_map. intros f Hf. destruct (Ha f Hf) as (df & Hc & _ & Hb & Hfu).
      destruct (load_annual_ok parse_float repr_float f df Hc Hb Hfu) as (cs & E).
      unfold file_rows, ga. rewrite Hc, E. cbn [force rows].
      apply Forall2_map_same. intros r _. apply annual_row_coerced. auto.
    + apply Forall2_flat_map. intros f Hf. destruct (Hm f Hf) as (df & Hc & _ & Hy & Hb & Hfu).
      destruct (load_monthly_ok parse_float parse_period repr_float f df Hc Hy Hb Hfu)
        as (cs & present & Hsub & E).
      unfold file_rows, gm. rewrite Hc, E. cbn [force rows].
      apply Forall2_map_same. intros r _. split.
      * apply monthly_row_coerced. exact Hsub.
      * apply monthly_row_dated.
  - intros srcs Hne.
    destruct (load_and_transform_data_ok parse_datetime repr_float srcs Hne)
      as (cs & _ & E).
    rewrite E. eexists. split; reflexivity.
  - intros r Hr. unfold usable. rewrite Hr. reflexivity.
Qed.

End CoercionFailures.

(** C1, counterexample.  A row whose timestamp does not parse is absent
    from the trading table: of the two rows of [ifa1_csv] only the
    first is returned, so the rows of the file and of the table do not
    correspond one to one. *)
Lemma unparsed_timestamp_row_dropped :
  exists out,
    (load_and_transform_data iso_datetime repr_1dp [ifa1_csv]).2 = Ok out
    /\ map (cell_at "HourStartLocal") (flat_map (fun x => [x.2]) (file_rows ifa1_csv))
       = [CStr "2025-03-01 00:00:00"; CStr "not-a-date"]
    /\ to_datetime_cell iso_datetime (CStr "not-a-date") = CNull
    /\ map (cell_at "Trade_Abs_MW") (rows out) = [CInt 700]
    /\ ~ Forall2 (fun x r' => cell_at "Trade_Abs_MW" r' = cell_at "Trade_Abs_MW" x.2)
                 (file_rows ifa1_csv) (rows out).
Proof.
  eexists. split; [vm_compute; reflexivity|].
  split; [vm_compute; reflexivity|]. split; [reflexivity|].
  split; [vm_compute; reflexivity|].
  intros H. apply Forall2_length in H. vm_compute in H. discriminate.
Qed.

Example load_accuracy_data_sample :
  exists df_annual df_monthly,
    load_accuracy_data decimal strptime_Ym repr_1dp [annual_csv] [monthly_csv]
    = Ok (df_annual, df_monthly)
    /\ map (fun r => (cell_at "BMU" r, cell_at "Fuel" r, cell_at "A_ABS_NetError%" r,
                      cell_at "NetError" r, cell_at "Grain" r))
           (rows df_annual)
       = [ (CStr "E1", CStr "WIND", CNum (25 # 2), CInt 3, CStr "annual");
           (CStr "E2", CStr "CCGT", CNull, CNull, CStr "annual") ]
    /\ map (fun r => (cell_at "BMU" r, cell_at "YearMonth" r, cell_at "Month" r,
                      cell_at "MonthName" r, cell_at "M_ABS_NetError%" r))
           (rows df_monthly)
       = [ (CStr "E1", CTime (20148 * 86400), CInt 3, CStr "March", CNum 26);
           (CStr "E1", CNull, CNull, CNull, CNull) ].
Proof. do 2 eexists. split; [vm_compute; reflexivity|]. split; vm_compute; reflexivity. Qed.

Lemma annual_csv_clean : exists df, content annual_csv = Parsed df /\ clean_headers df.
Proof.
  eexists. split; [reflexivity|]. split.
  - intros c Hc. cbn in Hc.
    repeat (destruct Hc as [<-|Hc]; [reflexivity|]). destruct Hc.
  - vm_compute. repeat constructor; cbn; intuition discriminate.
Qed.

Lemma monthly_csv_clean : exists df, content monthly_csv = Parsed df /\ clean_headers df.
Proof.
  eexists. split; [reflexivity|]. split.
  - intros c Hc. cbn in Hc.
    repeat (destruct Hc as [<-|Hc]; [reflexivity|]). destruct Hc.
  - vm_compute. repeat constructor; cbn; intuition discriminate.
Qed.

Lemma coercion_failures_witness :
  (exists df_annual df_monthly,
     load_accuracy_data decimal strptime_Ym repr_1dp [annual_csv] [monthly_csv]
     = Ok (df_annual, df_monthly)
     /\ Forall2 (coerced decimal num_cols) (flat_map file_rows [annual_csv]) (rows df_annual)
     /\ Forall2 (fun x r' => coerced decimal num_cols_m x r' /\ dated strptime_Ym x r')
                (flat_map file_rows [monthly_csv]) (rows df_monthly))
  /\ (exists out,
        (load_and_transform_data iso_datetime repr_1dp [ifa1_csv]).2 = Ok out
        /\ rows out
           = map (canonical iso_datetime repr_1dp)
                 (List.filter (usable iso_datetime)
                              (List.concat (map rows (read_sources [ifa1_csv]).2))))
  /\ to_numeric_cell decimal (CStr "n/a") = CNull
  /\ to_datetime_Ym_cell strptime_Ym (CStr "2025-13") = CNull
  /\ usable iso_datetime (raw_trade "not-a-date" "IFA1" (CInt 650) "Export") = false.
Proof.
  pose proof (coercion_failures decimal iso_datetime strptime_Ym repr_1dp)
    as (H1 & H1' & H2 & H3 & H4).
  split; [|split; [|split; [|split]]].
  - apply (H2 [annual_csv] [monthly_csv]).
    + intros f [<-|[]]. destruct annual_csv_clean as (df & E & Hcl).
      exists df. split; [exact E|]. split; [exact Hcl|].
      injection E as <-. split; vm_compute; col_in.
    + intros f [<-|[]]. destruct monthly_csv_clean as (df & E & Hcl).
      exists df. split; [exact E|]. split; [exact Hcl|].
      injection E as <-. repeat split; vm_compute; col_in.
  - apply (H3 [ifa1_csv]). vm_compute. discriminate.
  - apply (H1 "n/a"). reflexivity.
  - apply (H1' "2025-13"). reflexivity.
  - apply (H4 (raw_trade "not-a-date" "IFA1" (CInt 650) "Export")). reflexivity.
Defined.


(** ** Witnesses on the sample tables *)

Lemma fact_trades_sample_columns c : In c filter_columns -> c ∈ columns fact_trades_sample.
Proof. intros Hc. simpl in Hc. intuition (subst; col_in). Qed.

Lemma annual_sample_columns c : In c annual_filter_columns -> c ∈ columns annual_sample.
Proof. intros Hc. simpl in Hc. intuition (subst; col_in). Qed.

Lemma apply_filters_idempotent_witness :
  exists out,
    run_on (fun l => apply_filters l [CDate 20148; CDate 20148] [CStr "IFA"; CStr "NEMO"]
                       [CStr "IFA1"; CStr "IFA2"; CStr "NEMO"] "Import" false)
           fact_trades_sample = Ok out
    /\ run_on (fun l => apply_filters l [CDate 20148; CDate 20148] [CStr "IFA"; CStr "NEMO"]
                          [CStr "IFA1"; CStr "IFA2"; CStr "NEMO"] "Import" false)
              out = Ok out.
Proof.
  apply (apply_filters_idempotent fact_trades_sample). exact fact_trades_sample_columns.
Defined.

Example apply_filters_sample :
  run_on (fun l => apply_filters l [CDate 20148; CDate 20148] [CStr "IFA"; CStr "NEMO"]
                     [CStr "IFA1"; CStr "IFA2"; CStr "NEMO"] "Import" false)
         fact_trades_sample
  = Ok (DataFrame (columns fact_trades_sample)
          [trade_row "IFA1" (20148 * 86400) 700 "Import" false]).
Proof. vm_compute. reflexivity. Qed.

Lemma empty_selection_asymmetry_witness :
  run_on (fun l => filtered_annual l [] [CStr "E1"] false) annual_sample
    = Ok (DataFrame (columns annual_sample) [])
  /\ run_on (fun l => filtered_annual l [CStr "WIND"] [] false) annual_sample
    = Ok (DataFrame (columns annual_sample)
            (List.filter
               (fun r => cell_isin [CStr "WIND"] (cell_at "Fuel" r)
                         && (negb false || cell_eq (cell_at "NeedsAttention" r) (CBool true)))
               (rows annual_sample)))
  /\ ((forall r, In r (rows annual_sample) ->
         cell_isin [CStr "WIND"] (cell_at "Fuel" r) = true) ->
      run_on (fun l => filtered_annual l [CStr "WIND"] [] false) annual_sample
      = Ok annual_sample).
Proof.
  apply (empty_selection_asymmetry annual_sample [CStr "WIND"] [CStr "E1"] false).
  exact annual_sample_columns.
Defined.

Example filtered_annual_sample :
  map (cell_at "BMU") (rows (force (run_on (fun l => filtered_annual l [] [] false)
                                           annual_sample))) = []
  /\ map (cell_at "BMU")
         (rows (force (run_on (fun l => filtered_annual l [CStr "CCGT"; CStr "WIND"] [] false)
                              annual_sample)))
     = [CStr "E1"; CStr "E2"; CStr "E3"]
  /\ map (cell_at "BMU")
         (rows (force (run_on (fun l => filtered_annual l [CStr "CCGT"; CStr "WIND"]
                                          [CStr "E2"] false)
                              annual_sample)))
     = [CStr "E2"].
Proof. vm_compute. repeat split; reflexivity. Qed.

Lemma filters_do_not_mutate_witness :
  (exists l' σ',
     apply_filters 1%nat [CDate 20148; CDate 20149] [CStr "IFA"] [CStr "IFA1"] "Both" true
                   [annual_sample; fact_trades_sample] = Ok (l', σ')
     /\ l' <> 1%nat
     /\ σ' !! l' = Some (DataFrame (columns fact_trades_sample)
          (List.filter (passes_filters [CDate 20148; CDate 20149] [CStr "IFA"] [CStr "IFA1"]
                                       "Both" true)
                       (rows fact_trades_sample)))
     /\ σ' !! 1%nat = Some fact_trades_sample
     /\ forall k old, [annual_sample; fact_trades_sample] !! k = Some old ->
                      σ' !! k = Some old)
  /\ (exists l' σ',
        filtered_annual 0%nat [CStr "WIND"] [] true [annual_sample; fact_trades_sample]
        = Ok (l', σ')
        /\ l' <> 0%nat
        /\ σ' !! l' = Some (DataFrame (columns annual_sample)
             (List.filter (passes_annual [CStr "WIND"] [] true) (rows annual_sample)))
        /\ σ' !! 0%nat = Some annual_sample
        /\ forall k old, [annual_sample; fact_trades_sample] !! k = Some old ->
                         σ' !! k = Some old).
Proof.
  split.
  - apply (proj1 (filters_do_not_mutate [annual_sample; fact_trades_sample] 1%nat
                    fact_trades_sample eq_refl)).
    exact fact_trades_sample_columns.
  - apply (proj2 (filters_do_not_mutate [annual_sample; fact_trades_sample] 0%nat
                    annual_sample eq_refl)).
    exact annual_sample_columns.
Defined.

(** Item assignment does write into its object, and only into it:
    banding the filtered table (line 452) changes the filtered table
    and leaves the table it was filtered from as it was. *)
Example ErrorBand_sample :
  exists l' σ',
    (filtered <- filtered_annual 0%nat [CStr "WIND"] [] false ;;
     ErrorBand filtered ;;; oret filtered)%obj [annual_sample] = Ok (l', σ')
    /\ σ' !! 0%nat = Some annual_sample
    /\ (map (cell_at "ErrorBand") ∘ rows) <$> σ' !! l' = Some [CStr ">10%"; CStr "2–4%"]
    /\ (map (cell_at "ErrorBand") ∘ rows) <$> σ' !! 0%nat = Some [CNull; CNull; CNull].
Proof.
  do 2 eexists. split; [vm_compute; reflexivity|].
  split; [reflexivity|]. split; vm_compute; reflexivity.
Qed.


Example df_monthly_p90_sample :
  df_monthly_p90 monthly_scenario
  = Ok (DataFrame ["BMU"; "P90_monthly_error"]
          [ {[ "BMU" := CStr "E1"; "P90_monthly_error" := CNum 26 ]};
            {[ "BMU" := CStr "E3"; "P90_monthly_error" := CNull ]} ]).
Proof. vm_compute. reflexivity. Qed.


(** * Further properties *)

(** ** Equality of cells *)

Lemma cell_same_refl c : cell_same c c = true.
Proof.
  destruct c; try reflexivity; simpl; unfold cell_eq, cell_cmp; simpl.
  - destruct b; reflexivity.
  - rewrite (proj1 (Qeq_alt _ _) (Qeq_refl (inject_Z z))). reflexivity.
  - rewrite (proj1 (Qeq_alt _ _) (Qeq_refl q)). reflexivity.
  - rewrite string_compare_refl. reflexivity.
  - rewrite Z.compare_refl. reflexivity.
  - rewrite Z.compare_refl. reflexivity.
Qed.

Lemma cell_same_date d c : cell_same (CDate d) c = true <-> c = CDate d.
Proof.
  split; [|intros ->; apply cell_same_refl].
  destruct c; simpl; try discriminate. unfold cell_eq, cell_cmp.
  destruct (Z.compare d d0) eqn:E; try discriminate.
  apply Z.compare_eq in E. subst. reflexivity.
Qed.

Lemma cell_same_date_l d c : cell_same c (CDate d) = true <-> c = CDate d.
Proof.
  split; [|intros ->; apply cell_same_refl].
  destruct c; simpl; try discriminate. unfold cell_eq, cell_cmp.
  destruct (Z.compare d0 d) eqn:E; try discriminate.
  apply Z.compare_eq in E. subst. reflexivity.
Qed.

Lemma cell_isin_In values c : In c values -> cell_isin values c = true.
Proof.
  intros H. unfold cell_isin. apply existsb_exists. exists c. split; [exact H|].
  apply cell_same_refl.
Qed.

(** ** Minimum and maximum of a column of dates *)

Lemma cell_lt_date a b : cell_lt (CDate a) (CDate b) = (a <? b).
Proof. unfold cell_lt, cell_cmp, Z.ltb. destruct (a ?= b); reflexivity. Qed.

Lemma cell_gt_date a b : cell_gt (CDate a) (CDate b) = (b <? a).
Proof.
  unfold cell_gt, cell_cmp. rewrite Z.ltb_antisym, Z.leb_compare.
  destruct (a ?= b); reflexivity.
Qed.

Lemma fold_min_dates t d0 :
  (forall c, In c t -> exists d, c = CDate d) ->
  exists m, fold_left (fun m x => if cell_lt x m then x else m) t (CDate d0) = CDate m
            /\ m <= d0 /\ forall d, In (CDate d) t -> m <= d.
Proof.
  revert d0. induction t as [|c t IH]; intros d0 Ht; simpl.
  - exists d0. split; [reflexivity|]. split; [lia|]. intros d [].
  - destruct (Ht c (or_introl eq_refl)) as (dc & ->).
    assert (Ht' : forall c, In c t -> exists d, c = CDate d)
      by (intros c Hc; apply Ht; right; exact Hc).
    rewrite cell_lt_date. destruct (Z.ltb_spec dc d0) as [E|E].
    + destruct (IH dc Ht') as (m & Hm & Hle & Hall). exists m. split; [exact Hm|].
      split; [lia|]. intros d [Hd|Hd]; [inversion Hd; lia | apply Hall, Hd].
    + destruct (IH d0 Ht') as (m & Hm & Hle & Hall). exists m. split; [exact Hm|].
      split; [exact Hle|]. intros d [Hd|Hd]; [inversion Hd; lia | apply Hall, Hd].
Qed.

Lemma fold_max_dates t d0 :
  (forall c, In c t -> exists d, c = CDate d) ->
  exists m, fold_left (fun m x => if cell_gt x m then x else m) t (CDate d0) = CDate m
            /\ d0 <= m /\ forall d, In (CDate d) t -> d <= m.
Proof.
  revert d0. induction t as [|c t IH]; intros d0 Ht; simpl.
  - exists d0. split; [reflexivity|]. split; [lia|]. intros d [].
  - destruct (Ht c (or_introl eq_refl)) as (dc & ->).
    assert (Ht' : forall c, In c t -> exists d, c = CDate d)
      by (intros c Hc; apply Ht; right; exact Hc).
    rewrite cell_gt_date. destruct (Z.ltb_spec d0 dc) as [E|E].
    + destruct (IH dc Ht') as (m & Hm & Hle & Hall). exists m. split; [exact Hm|].
      split; [lia|]. intros d [Hd|Hd]; [inversion Hd; lia | apply Hall, Hd].
    + destruct (IH d0 Ht') as (m & Hm & Hle & Hall). exists m. split; [exact Hm|].
      split; [exact Hle|]. intros d [Hd|Hd]; [inversion Hd; lia | apply Hall, Hd].
Qed.

Lemma series_dropna_dates s :
  (forall c, In c s -> exists d, c = CDate d) -> series_dropna s = s.
Proof.
  intros H. unfold series_dropna. apply filter_all.
  intros c Hc. destruct (H c Hc) as (d & ->). reflexivity.
Qed.

(** The smallest and the largest date of a column of dates bound
    every date of the column. *)
Lemma series_min_max_dates s d :
  (forall c, In c s -> exists d, c = CDate d) -> In (CDate d) s ->
  cell_ge (CDate d) (series_min s) = true /\ cell_le (CDate d) (series_max s) = true.
Proof.
  intros Hs Hd. unfold series_min, series_max. rewrite (series_dropna_dates _ Hs).
  destruct s as [|c t]; [destruct Hd|].
  destruct (Hs c (or_introl eq_refl)) as (d0 & ->).
  assert (Ht : forall c, In c t -> exists d, c = CDate d)
    by (intros c Hc; apply Hs; right; exact Hc).
  destruct (fold_min_dates t d0 Ht) as (lo & -> & Hlo & Hlo').
  destruct (fold_max_dates t d0 Ht) as (hi & -> & Hhi & Hhi').
  assert (lo <= d <= hi).
  { destruct Hd as [Hd|Hd]; [inversion Hd; lia|]. split; [apply Hlo' | apply Hhi']; exact Hd. }
  unfold cell_ge, cell_le, cell_cmp. split.
  - destruct (Z.compare_spec d lo); try reflexivity. lia.
  - destruct (Z.compare_spec d hi); try reflexivity. lia.
Qed.

(** ** The working table of the trading dashboard *)

Lemma cell_isin_single_str f c : cell_isin [CStr f] c = cell_eq c (CStr f).
Proof. unfold cell_isin. simpl. rewrite orb_false_r. destruct c; reflexivity. Qed.

(** X1.  In [filtered_fact] neither the date range nor the group selection
    removes a row: the table holds the rows of the focused
    interconnector (of all of them in the global view), in the chosen
    direction, without the partial hours unless they are included. *)
Theorem filtered_fact_rows fact_trades_raw focus_mode direction_mode include_partial :
  (forall c, In c filter_columns -> c ∈ columns fact_trades_raw) ->
  (forall r, In r (rows fact_trades_raw) -> loaded_row r) ->
  filtered_fact fact_trades_raw focus_mode direction_mode include_partial
  = Ok (DataFrame (columns fact_trades_raw)
          (List.filter
             (fun r => (String.eqb focus_mode global_network
                        || cell_eq (cell_at "Interconnector" r) (CStr focus_mode))
                       && (include_partial
                           || cell_eq (cell_at "IsPartialHour" r) (CBool false))
                       && in_direction direction_mode r)
             (rows fact_trades_raw))).
Proof.
  intros Hcols Hrows. unfold filtered_fact, groups, primary_ics, date_range.
  assert (Hd : "Date" ∈ columns fact_trades_raw) by (apply Hcols; simpl; tauto).
  assert (Hg : "Interconnector Group" ∈ columns fact_trades_raw) by (apply Hcols; simpl; tauto).
  assert (Hi : "Interconnector" ∈ columns fact_trades_raw) by (apply Hcols; simpl; tauto).
  rewrite (getitem_ok _ _ Hg). cbn [rbind].
  assert (Hics : exists ics,
    (if negb (String.eqb focus_mode global_network) then Ok [CStr focus_mode]
     else s <~ getitem fact_trades_raw "Interconnector" ; Ok (unique s)) = Ok ics
    /\ forall r, In r (rows fact_trades_raw) ->
         cell_isin ics (cell_at "Interconnector" r)
         = (String.eqb focus_mode global_network
            || cell_eq (cell_at "Interconnector" r) (CStr focus_mode))).
  { destruct (String.eqb focus_mode global_network); cbn [negb orb].
    - rewrite (getitem_ok _ _ Hi). cbn [rbind]. eexists. split; [reflexivity|].
      intros r Hr. destruct (Hrows r Hr) as (t & ic & g & _ & _ & _ & Hic & _).
      apply cell_isin_In. rewrite Hic. apply In_unique_str.
      rewrite <- Hic. apply in_map. exact Hr.
    - eexists. split; [reflexivity|]. intros r _. apply cell_isin_single_str. }
  destruct Hics as (ics & -> & Hics). cbn [rbind].
  rewrite (getitem_ok _ _ Hd). cbn [rbind].
  rewrite apply_filters_run by exact Hcols. do 2 f_equal.
  apply List.filter_ext_in. intros r Hr. unfold passes_filters.
  destruct (Hrows r Hr) as (t & ic & g & Ht & Hdate & _ & Hic & Hgr & _).
  assert (Hdates : forall c, In c (map (cell_at "Date") (rows fact_trades_raw)) ->
                             exists d, c = CDate d).
  { intros c Hc. apply in_map_iff in Hc. destruct Hc as (r' & <- & Hr').
    destruct (Hrows r' Hr') as (t' & _ & _ & _ & Hd' & _). eexists. exact Hd'. }
  assert (Hin : In (CDate (t / 86400)) (map (cell_at "Date") (rows fact_trades_raw))).
  { rewrite <- Hdate. apply in_map. exact Hr. }
  destruct (series_min_max_dates _ _ Hdates Hin) as [Hlo Hhi].
  unfold in_date_range. rewrite Hdate, Hlo, Hhi. cbn [andb].
  rewrite (Hics r Hr). rewrite cell_isin_In; [reflexivity|].
  rewrite Hgr. apply In_sort_by, In_unique_str. rewrite <- Hgr. apply in_map. exact Hr.
Qed.

Lemma fact_trades_sample_loaded r : In r (rows fact_trades_sample) -> loaded_row r.
Proof.
  intros Hr. simpl in Hr.
  repeat (destruct Hr as [<-|Hr];
          [do 3 eexists; repeat split; vm_compute; reflexivity|]).
  destruct Hr.
Qed.

Lemma filtered_fact_rows_witness :
  filtered_fact fact_trades_sample "NEMO" "Import" false
  = Ok (DataFrame (columns fact_trades_sample)
          (List.filter
             (fun r => (String.eqb "NEMO" global_network
                        || cell_eq (cell_at "Interconnector" r) (CStr "NEMO"))
                       && (false || cell_eq (cell_at "IsPartialHour" r) (CBool false))
                       && in_direction "Import" r)
             (rows fact_trades_sample))).
Proof.
  apply (filtered_fact_rows fact_trades_sample "NEMO" "Import" false).
  - exact fact_trades_sample_columns.
  - exact fact_trades_sample_loaded.
Defined.

(** ** Distinct values *)

Lemma NoDup_filter_bool {A} (p : A -> bool) l : List.NoDup l -> List.NoDup (List.filter p l).
Proof.
  induction 1 as [|x l Hx Hl IH]; simpl; [constructor|].
  destruct (p x); [|exact IH]. constructor; [|exact IH].
  intros Hin. apply Hx. apply List.filter_In in Hin. tauto.
Qed.

Lemma unique_NoDup s : List.NoDup (unique s).
Proof.
  induction s as [|a s IH]; simpl; constructor.
  - intros Hin. apply List.filter_In in Hin. destruct Hin as [_ Hne].
    rewrite cell_same_refl in Hne. discriminate.
  - apply NoDup_filter_bool, IH.
Qed.

(** A value that only matches itself is kept by [unique]. *)
Lemma In_unique_exact c s :
  (forall a, cell_same c a = true -> a = c) -> In c s -> In c (unique s).
Proof.
  intros Hex. induction s as [|a s IH]; simpl; [tauto|].
  intros [->|Hin]; [left; reflexivity|].
  destruct (cell_same c a) eqn:E.
  - left. apply Hex. exact E.
  - right. apply List.filter_In. split; [apply IH, Hin|]. rewrite E. reflexivity.
Qed.

Lemma cell_same_time t c : cell_same (CTime t) c = true -> c = CTime t.
Proof.
  destruct c; simpl; try discriminate. unfold cell_eq, cell_cmp.
  destruct (Z.compare t t0) eqn:E; try discriminate.
  apply Z.compare_eq in E. subst. reflexivity.
Qed.

Lemma unique_length s : (length (unique s) <= length s)%nat.
Proof.
  induction s as [|a s IH]; simpl; [lia|].
  pose proof (List.filter_length_le (fun d => negb (cell_same d a)) (unique s)). lia.
Qed.

Lemma nunique_length s : (nunique s <= length s)%nat.
Proof.
  unfold nunique. pose proof (unique_length (series_dropna s)).
  pose proof (List.filter_length_le (fun c => negb (isna c)) s).
  unfold series_dropna in *. lia.
Qed.

(** A column computed from another has no more distinct values. *)
Lemma nunique_image (f : Z -> Z) (ts : list Z) :
  (nunique (map (fun t => CDate (f t)) ts) <= nunique (map CTime ts))%nat.
Proof.
  unfold nunique.
  assert (Hd : forall g : Z -> cell, (forall t, isna (g t) = false) ->
                 series_dropna (map g ts) = map g ts).
  { intros g Hg. unfold series_dropna. apply filter_all.
    intros c Hc. apply in_map_iff in Hc. destruct Hc as (t & <- & _). rewrite Hg. reflexivity. }
  rewrite !Hd by reflexivity.
  set (g := fun c => match c with CTime t => CDate (f t) | _ => c end).
  rewrite <- (length_map g (unique (map CTime ts))).
  apply NoDup_incl_length; [apply unique_NoDup|].
  intros c Hc. apply In_unique, in_map_iff in Hc. destruct Hc as (t & <- & Ht).
  apply in_map_iff. exists (CTime t). split; [reflexivity|].
  apply In_unique_exact; [apply cell_same_time|]. apply in_map. exact Ht.
Qed.

Lemma filter_length_impl {A} (p q : A -> bool) l :
  (forall x, In x l -> p x = true -> q x = true) ->
  (length (List.filter p l) <= length (List.filter q l))%nat.
Proof.
  induction l as [|x l IH]; intros H; simpl; [lia|].
  assert (IH' := IH (fun y Hy => H y (or_intror Hy))).
  destruct (p x) eqn:Hp.
  - rewrite (H x (or_introl eq_refl) Hp). simpl. lia.
  - destruct (q x); simpl; lia.
Qed.

(** ** The measures of [get_measures] *)

Lemma get_measures_value df thr :
  "Trade_Abs_MW" ∈ columns df -> "HourStartLocal" ∈ columns df -> "Date" ∈ columns df ->
  get_measures df thr
  = let subset := List.filter (above thr) (rows df) in
    Ok (length subset,
        nunique (map (cell_at "HourStartLocal") subset),
        nunique (map (cell_at "Date") subset),
        series_sum (map (cell_at "Trade_Abs_MW") subset),
        if Nat.ltb 0 (length subset)
        then series_mean (map (cell_at "Trade_Abs_MW") subset) else CInt 0).
Proof.
  intros Ht Hh Hd. unfold get_measures.
  rewrite (getitem_ok _ _ Ht). cbn [rbind]. unfold series_gt. rewrite map_map.
  change (fun x => cell_gt (cell_at "Trade_Abs_MW" x) thr) with (above thr).
  rewrite (getitem_mask_map df (above thr)). cbn [rbind].
  rewrite !getitem_ok by assumption. cbn [rbind]. reflexivity.
Qed.

(** X2.  The three counts of [get_measures] are ordered: on a loaded table
    whose volumes are numbers the interconnector-hours are the rows
    whose volume is strictly greater than the threshold, the days
    above the threshold are at most the network hours above it, which
    are at most the interconnector-hours; and when no row is above
    the threshold the energy and the average power are zero. *)
Theorem get_measures_ordered df (t : Z) :
  "Trade_Abs_MW" ∈ columns df -> "HourStartLocal" ∈ columns df -> "Date" ∈ columns df ->
  (forall r, In r (rows df) -> loaded_row r) ->
  numeric_volumes df ->
  exists ic_hours network_hours days energy power,
    get_measures df (CInt t) = Ok (ic_hours, network_hours, days, energy, power)
    /\ ic_hours = length (List.filter (over t) (rows df))
    /\ (days <= network_hours <= ic_hours)%nat
    /\ (ic_hours = 0%nat -> energy = 0%Q /\ power = CInt 0).
Proof.
  intros Ht Hh Hd Hrows _. rewrite (get_measures_value _ _ Ht Hh Hd). cbv zeta.
  set (subset := List.filter (above (CInt t)) (rows df)).
  do 5 eexists. split; [reflexivity|].
  split; [unfold subset; rewrite filter_above_over; reflexivity|]. split; [split|].
  - assert (Hsub : exists ts, map (cell_at "HourStartLocal") subset = map CTime ts
                /\ map (cell_at "Date") subset = map (fun t => CDate (t / 86400)) ts).
    { assert (Hs : forall r, In r subset -> loaded_row r).
      { intros r Hr. apply Hrows. unfold subset in Hr. apply List.filter_In in Hr. tauto. }
      clearbody subset. induction subset as [|r l IH]; [exists []; split; reflexivity|].
      destruct IH as (ts & E1 & E2); [intros x Hx; apply Hs; right; exact Hx|].
      destruct (Hs r (or_introl eq_refl)) as (t0 & ic & g & Ht' & Hd' & _).
      exists (t0 :: ts). simpl. rewrite Ht', Hd', E1, E2. split; reflexivity. }
    destruct Hsub as (ts & -> & ->). apply nunique_image.
  - rewrite <- (length_map (cell_at "HourStartLocal") subset). apply nunique_length.
  - intros H0. apply length_zero_iff_nil in H0. rewrite H0. split; reflexivity.
Qed.

Lemma get_measures_ordered_witness :
  exists ic_hours network_hours days energy power,
    get_measures fact_trades_sample (CInt 500)
    = Ok (ic_hours, network_hours, days, energy, power)
    /\ ic_hours = length (List.filter (over 500) (rows fact_trades_sample))
    /\ (days <= network_hours <= ic_hours)%nat
    /\ (ic_hours = 0%nat -> energy = 0%Q /\ power = CInt 0).
Proof.
  apply (get_measures_ordered fact_trades_sample 500); try col_in.
  - exact fact_trades_sample_loaded.
  - exact fact_trades_sample_numeric.
Defined.

Lemma cell_gt_int c (t : Z) :
  cell_gt c (CInt t) = true <-> exists q, num_of c = Some q /\ (inject_Z t < q)%Q.
Proof.
  unfold cell_gt. split.
  - destruct (num_of c) as [q|] eqn:Hq.
    + rewrite (cell_cmp_num _ _ _ Hq). intros H. exists q. split; [reflexivity|].
      destruct (Qcompare_spec q (inject_Z t)); try discriminate. assumption.
    + destruct c; simpl in *; discriminate.
  - intros (q & Hq & Hlt). rewrite (cell_cmp_num _ _ _ Hq).
    destruct (Qcompare_spec q (inject_Z t)) as [E|E|E]; try reflexivity; exfalso; lra.
Qed.

(** X3.  On a loaded table whose volumes are numbers, raising the
    threshold never raises the interconnector-hours, and filtering
    (by a range of dates, if by any) never raises them above those
    of the whole table. *)
Theorem ic_hours_above_monotone df (t1 t2 : Z) dr groups_sel ics_sel dir_mode inc_partial :
  "Trade_Abs_MW" ∈ columns df -> "HourStartLocal" ∈ columns df ->
  (forall c, In c filter_columns -> c ∈ columns df) ->
  (forall r, In r (rows df) -> loaded_row r) ->
  numeric_volumes df ->
  (forall c, In c dr -> exists d, c = CDate d) ->
  t1 <= t2 ->
  exists n1 n2 filtered m,
    ic_hours_above df (CInt t1) = Ok n1
    /\ ic_hours_above df (CInt t2) = Ok n2
    /\ n1 = length (List.filter (over t1) (rows df))
    /\ n2 = length (List.filter (over t2) (rows df))
    /\ (n2 <= n1)%nat
    /\ run_on (fun l => apply_filters l dr groups_sel ics_sel dir_mode inc_partial) df
       = Ok filtered
    /\ ic_hours_above filtered (CInt t1) = Ok m
    /\ m = length (List.filter (over t1) (rows filtered))
    /\ (m <= n1)%nat.
Proof.
  intros Ht Hh Hcols _ _ _ Hle.
  assert (Hd : "Date" ∈ columns df) by (apply Hcols; simpl; tauto).
  set (p := passes_filters dr groups_sel ics_sel dir_mode inc_partial).
  exists (length (List.filter (above (CInt t1)) (rows df))),
         (length (List.filter (above (CInt t2)) (rows df))),
         (DataFrame (columns df) (List.filter p (rows df))),
         (length (List.filter (above (CInt t1)) (List.filter p (rows df)))).
  assert (Hic : forall d thr, "Trade_Abs_MW" ∈ columns d -> "HourStartLocal" ∈ columns d ->
                  "Date" ∈ columns d ->
                  ic_hours_above d thr = Ok (length (List.filter (above thr) (rows d)))).
  { intros d thr H1 H2 H3. unfold ic_hours_above.
    rewrite (get_measures_value _ _ H1 H2 H3). reflexivity. }
  split; [apply Hic; assumption|]. split; [apply Hic; assumption|].
  split; [apply f_equal, filter_above_over|].
  split; [apply f_equal, filter_above_over|].
  split; [|split; [apply apply_filters_run, Hcols|split; [apply Hic; assumption|]]];
    [|split; [apply f_equal, filter_above_over|]].
  - apply filter_length_impl. intros r _ H. unfold above in *.
    apply cell_gt_int in H. destruct H as (q & Hq & Hlt). apply cell_gt_int.
    exists q. split; [exact Hq|]. apply Qle_lt_trans with (inject_Z t2); [|exact Hlt].
    rewrite <- Zle_Qle. exact Hle.
  - rewrite filter_filter. apply filter_length_impl. intros r _ H.
    apply andb_true_iff in H. tauto.
Qed.

Lemma ic_hours_above_monotone_witness :
  exists n1 n2 filtered m,
    ic_hours_above fact_trades_sample (CInt 500) = Ok n1
    /\ ic_hours_above fact_trades_sample (CInt 680) = Ok n2
    /\ n1 = length (List.filter (over 500) (rows fact_trades_sample))
    /\ n2 = length (List.filter (over 680) (rows fact_trades_sample))
    /\ (n2 <= n1)%nat
    /\ run_on (fun l => apply_filters l [] [CStr "IFA"] [CStr "IFA1"; CStr "IFA2"] "Both" true)
              fact_trades_sample = Ok filtered
    /\ ic_hours_above filtered (CInt 500) = Ok m
    /\ m = length (List.filter (over 500) (rows filtered))
    /\ (m <= n1)%nat.
Proof.
  apply (ic_hours_above_monotone fact_trades_sample 500 680); try col_in.
  - exact fact_trades_sample_columns.
  - exact fact_trades_sample_loaded.
  - exact fact_trades_sample_numeric.
  - intros c [].
  - lia.
Defined.

(** ** The loaded trading table *)

Lemma load_and_transform_data_rows pd rf srcs :
  exists out,
    load_and_transform_data pd rf srcs = ((read_sources srcs).1, Ok out)
    /\ rows out = map (canonical pd rf)
                      (List.filter (usable pd) (List.concat (map rows (read_sources srcs).2))).
Proof.
  destruct (read_sources srcs).2 as [|df0 dfs0] eqn:Hdfs.
  - exists DataFrame_empty. unfold load_and_transform_data.
    destruct (read_sources srcs) as [errs dfs]. cbn [fst snd] in *. subst dfs.
    split; reflexivity.
  - destruct (load_and_transform_data_ok pd rf srcs) as (cs & _ & E);
      [rewrite Hdfs; discriminate|].
    rewrite E, Hdfs. eexists. split; reflexivity.
Qed.

Lemma to_datetime_cell_time pd c :
  isna (to_datetime_cell pd c) = false -> exists t, to_datetime_cell pd c = CTime t.
Proof.
  destruct c; simpl; try discriminate; eauto.
  destruct (pd s); [eauto | discriminate].
Qed.

Lemma map_group_str rf ic :
  map_group rf (CStr ic) = CStr (if contains "IFA" (upper ic) then "IFA" else ic).
Proof. unfold map_group. simpl. destruct (contains "IFA" (upper ic)); reflexivity. Qed.

Lemma canonical_loaded pd rf r ic :
  usable pd r = true -> cell_at "Interconnector" r = CStr ic ->
  loaded_row (canonical pd rf r).
Proof.
  intros Hu Hic. unfold usable in Hu.
  apply andb_true_iff in Hu. destruct Hu as [Hu _].
  apply andb_true_iff in Hu. destruct Hu as [Ht Hmw].
  apply negb_true_iff in Ht, Hmw.
  destruct (to_datetime_cell_time _ _ Ht) as (t & Et).
  exists t, ic, (if contains "IFA" (upper ic) then "IFA" else ic).
  unfold canonical, derive.
  repeat (rewrite cell_at_insert_eq || (rewrite cell_at_insert_ne by discriminate)).
  rewrite Et, Hic, map_group_str. repeat split; try reflexivity. exact Hmw.
Qed.

(** X4.  Every row of the table the trading loader returns has a parsed
    timestamp, the date and the hour of day of that timestamp, an hour
    from 0 to 23, a trade volume, and the group of its interconnector,
    whenever the files give interconnector names as printable text. *)
Theorem loaded_rows_invariant pd rf srcs :
  (forall src df r, In src srcs -> content src = Parsed df -> In r (rows df) ->
     cell_at "Interconnector" r = CNull
     \/ exists ic, cell_at "Interconnector" r = CStr ic /\ printable ic = true) ->
  exists out,
    (load_and_transform_data pd rf srcs).2 = Ok out
    /\ forall r, In r (rows out) ->
         loaded_row r /\ exists h, cell_at "Hour" r = CInt h /\ 0 <= h < 24.
Proof.
  intros Htext. destruct (load_and_transform_data_rows pd rf srcs) as (out & E & Hrows).
  exists out. rewrite E. split; [reflexivity|]. intros r' Hr'.
  rewrite Hrows in Hr'. apply in_map_iff in Hr'. destruct Hr' as (r & <- & Hr).
  apply List.filter_In in Hr. destruct Hr as [Hr Hu].
  apply in_concat in Hr. destruct Hr as (rs & Hrs & Hr).
  apply in_map_iff in Hrs. destruct Hrs as (df & <- & Hdf).
  apply read_sources_frames in Hdf. destruct Hdf as (src & Hsrc & Hc & _).
  destruct (Htext src df r Hsrc Hc Hr) as [Hnull|(ic & Hic & _)].
  { unfold usable in Hu. rewrite Hnull in Hu. rewrite andb_false_r in Hu. discriminate. }
  pose proof (canonical_loaded pd rf r ic Hu Hic) as Hl. split; [exact Hl|].
  destruct Hl as (t & _ & _ & _ & _ & Hh & _). eexists. split; [exact Hh|].
  pose proof (Z.mod_pos_bound t 86400 eq_refl).
  split; [apply Z.div_pos; lia | apply Z.div_lt_upper_bound; lia].
Qed.

Lemma loaded_rows_invariant_witness :
  exists out,
    (load_and_transform_data iso_datetime repr_1dp [ifa1_csv; broken_csv]).2 = Ok out
    /\ forall r, In r (rows out) ->
         loaded_row r /\ exists h, cell_at "Hour" r = CInt h /\ 0 <= h < 24.
Proof.
  apply (loaded_rows_invariant iso_datetime repr_1dp [ifa1_csv; broken_csv]).
  intros src df r [<-|[<-|[]]] Hc Hr; [|discriminate].
  inversion Hc; subst df; clear Hc. simpl in Hr.
  destruct Hr as [<-|[<-|[]]]; right; eexists; split; reflexivity.
Defined.

(** X5.  The loader takes the sources in order: called on a list of
    sources followed by another, it reports the diagnostics of
    reading the first list followed by those of reading the second,
    and its rows are the usable rows of the files of the first list
    followed by those of the files of the second, each with its
    derived columns. *)
Theorem load_and_transform_data_app pd rf s1 s2 :
  exists out,
    load_and_transform_data pd rf (s1 ++ s2)
    = ((read_sources s1).1 ++ (read_sources s2).1, Ok out)
    /\ rows out
       = map (canonical pd rf)
             (List.filter (usable pd) (List.concat (map rows (read_sources s1).2)))
         ++ map (canonical pd rf)
                (List.filter (usable pd) (List.concat (map rows (read_sources s2).2))).
Proof.
  destruct (load_and_transform_data_rows pd rf (s1 ++ s2)) as (out & E & Hr).
  exists out. rewrite E. rewrite read_sources_app in *. cbn [fst snd] in *.
  split; [reflexivity|].
  rewrite Hr. rewrite map_app, concat_app, List.filter_app, map_app. reflexivity.
Qed.

(** X6.  Grouping is idempotent: the group of a group is that group, so
    grouping the group column again changes nothing. *)
Theorem map_group_idempotent rf nm :
  map_group rf (map_group rf nm) = map_group rf nm.
Proof.
  assert (H : map_group rf nm
               = if contains "IFA" (upper (py_str rf nm)) then CStr "IFA" else nm)
    by reflexivity.
  destruct (contains "IFA" (upper (py_str rf nm))); rewrite H; [reflexivity | exact H].
Qed.

(** ** Directions *)

Lemma filter_split_length {A} (p a b : A -> bool) l :
  (forall x, a x = true -> b x = false) ->
  (length (List.filter (fun x => p x && a x) l) + length (List.filter (fun x => p x && b x) l)
   <= length (List.filter p l))%nat
  /\ ((forall x, In x l -> a x = true \/ b x = true) ->
      (length (List.filter (fun x => p x && a x) l)
       + length (List.filter (fun x => p x && b x) l))%nat
      = length (List.filter p l)).
Proof.
  intros Hex. induction l as [|x l [IH1 IH2]]; simpl; [split; [lia | reflexivity]|].
  split.
  - destruct (p x); simpl; [|exact IH1].
    destruct (a x) eqn:Ha; [rewrite (Hex x Ha)|destruct (b x)]; simpl; lia.
  - intros Hall. assert (IH := IH2 (fun y Hy => Hall y (or_intror Hy))).
    destruct (p x); simpl; [|exact IH].
    destruct (a x) eqn:Ha; [rewrite (Hex x Ha); simpl; lia|].
    destruct (Hall x (or_introl eq_refl)) as [H|H]; [congruence|]. rewrite H. simpl. lia.
Qed.

Lemma import_not_export c :
  cell_eq c (CStr "Import") = true -> cell_eq c (CStr "Export") = false.
Proof.
  destruct c; try discriminate. unfold cell_eq, cell_cmp.
  destruct (String.compare s "Import") eqn:E; try discriminate.
  apply String.compare_eq_iff in E. subst. reflexivity.
Qed.

(** X7.  The import rows and the export rows are disjoint parts of the rows
    of both directions, and they make up all of them when every row is
    an import or an export. *)
Theorem directions_partition df dr groups_sel ics_sel inc_partial :
  (forall c, In c filter_columns -> c ∈ columns df) ->
  exists both imports exports,
    run_on (fun l => apply_filters l dr groups_sel ics_sel "Both" inc_partial) df = Ok both
    /\ run_on (fun l => apply_filters l dr groups_sel ics_sel "Import" inc_partial) df
       = Ok imports
    /\ run_on (fun l => apply_filters l dr groups_sel ics_sel "Export" inc_partial) df
       = Ok exports
    /\ (forall r, In r (rows imports) -> In r (rows both) /\ ~ In r (rows exports))
    /\ (forall r, In r (rows exports) -> In r (rows both))
    /\ (length (rows imports) + length (rows exports) <= length (rows both))%nat
    /\ ((forall r, In r (rows df) ->
           cell_eq (cell_at "Trade_Direction" r) (CStr "Import") = true
           \/ cell_eq (cell_at "Trade_Direction" r) (CStr "Export") = true) ->
        (length (rows imports) + length (rows exports))%nat = length (rows both)).
Proof.
  intros Hcols. do 3 eexists.
  split; [apply apply_filters_run, Hcols|]. split; [apply apply_filters_run, Hcols|].
  split; [apply apply_filters_run, Hcols|]. cbn [rows].
  set (p := fun r => in_date_range dr r
                     && cell_isin groups_sel (cell_at "Interconnector Group" r)
                     && cell_isin ics_sel (cell_at "Interconnector" r)
                     && (inc_partial || cell_eq (cell_at "IsPartialHour" r) (CBool false))).
  set (a := fun r => cell_eq (cell_at "Trade_Direction" r) (CStr "Import")).
  set (b := fun r => cell_eq (cell_at "Trade_Direction" r) (CStr "Export")).
  assert (EB : List.filter (passes_filters dr groups_sel ics_sel "Both" inc_partial) (rows df)
               = List.filter p (rows df)).
  { apply List.filter_ext. intros r. unfold passes_filters, in_direction, p. simpl.
    apply andb_true_r. }
  assert (EI : List.filter (passes_filters dr groups_sel ics_sel "Import" inc_partial) (rows df)
               = List.filter (fun r => p r && a r) (rows df)) by reflexivity.
  assert (EE : List.filter (passes_filters dr groups_sel ics_sel "Export" inc_partial) (rows df)
               = List.filter (fun r => p r && b r) (rows df)) by reflexivity.
  rewrite EB, EI, EE.
  assert (Hex : forall r, a r = true -> b r = false) by (intros r; apply import_not_export).
  destruct (filter_split_length p a b (rows df) Hex) as [Hle Heq].
  split; [|split; [|split; [exact Hle | exact Heq]]].
  - intros r Hr. apply List.filter_In in Hr. destruct Hr as [Hr Hpa].
    apply andb_true_iff in Hpa. destruct Hpa as [Hp Ha]. split.
    + apply List.filter_In. tauto.
    + intros He. apply List.filter_In in He. destruct He as [_ He].
      apply andb_true_iff in He. rewrite (Hex r Ha) in He. destruct He. discriminate.
  - intros r Hr. apply List.filter_In in Hr. destruct Hr as [Hr Hpb].
    apply andb_true_iff in Hpb. apply List.filter_In. tauto.
Qed.

Lemma directions_partition_witness :
  exists both imports exports,
    run_on (fun l => apply_filters l [] [CStr "IFA"; CStr "NEMO"]
                       [CStr "IFA1"; CStr "IFA2"; CStr "NEMO"] "Both" true)
           fact_trades_sample = Ok both
    /\ run_on (fun l => apply_filters l [] [CStr "IFA"; CStr "NEMO"]
                          [CStr "IFA1"; CStr "IFA2"; CStr "NEMO"] "Import" true)
              fact_trades_sample = Ok imports
    /\ run_on (fun l => apply_filters l [] [CStr "IFA"; CStr "NEMO"]
                          [CStr "IFA1"; CStr "IFA2"; CStr "NEMO"] "Export" true)
              fact_trades_sample = Ok exports
    /\ (forall r, In r (rows imports) -> In r (rows both) /\ ~ In r (rows exports))
    /\ (forall r, In r (rows exports) -> In r (rows both))
    /\ (length (rows imports) + length (rows exports) <= length (rows both))%nat
    /\ ((forall r, In r (rows fact_trades_sample) ->
           cell_eq (cell_at "Trade_Direction" r) (CStr "Import") = true
           \/ cell_eq (cell_at "Trade_Direction" r) (CStr "Export") = true) ->
        (length (rows imports) + length (rows exports))%nat = length (rows both)).
Proof.
  apply (directions_partition fact_trades_sample). exact fact_trades_sample_columns.
Defined.

(** ** Days above the threshold *)

Lemma In_group_keys_date d ks : In (CDate d) ks -> In (CDate d) (group_keys ks).
Proof.
  intros Hin. unfold group_keys. apply In_sort_by.
  apply In_unique_exact; [intros a Ha; apply cell_same_date in Ha; exact Ha|].
  unfold series_dropna. apply List.filter_In. split; [exact Hin | reflexivity].
Qed.

Lemma group_keys_NoDup ks : List.NoDup (group_keys ks).
Proof.
  unfold group_keys. eapply Permutation_NoDup; [symmetry; apply sort_by_perm|].
  apply unique_NoDup.
Qed.

Lemma nunique_pos s c : In c s -> isna c = false -> (1 <= nunique s)%nat.
Proof.
  intros Hin Hc. unfold nunique.
  assert (Hd : In c (series_dropna s)).
  { unfold series_dropna. apply List.filter_In. rewrite Hc. tauto. }
  destruct (series_dropna s) as [|a t]; [destruct Hd|]. simpl. lia.
Qed.

Lemma daily_rows_above df thr :
  "Trade_Abs_MW" ∈ columns df -> "Date" ∈ columns df -> "Hour" ∈ columns df ->
  (forall r, In r (rows df) -> loaded_row r) ->
  exists out,
    daily_data df thr = Ok out
    /\ List.NoDup (map (cell_at "Date") (rows out))
    /\ (forall c, In c (map (cell_at "Date") (rows out)) <->
                  exists r, In r (rows df) /\ above thr r = true /\ cell_at "Date" r = c)
    /\ forall o, In o (rows out) ->
         exists n, cell_at "Hours Over Threshold" o = CInt (Z.of_nat n) /\ (1 <= n <= 24)%nat.
Proof.
  intros Ht Hd Hh Hrows. rewrite (daily_data_ok _ _ Ht Hd Hh). eexists. split; [reflexivity|].
  cbn [rows]. rewrite map_map.
  set (keys := group_keys (map (cell_at "Date") (List.filter (above thr) (rows df)))).
  assert (Hmap : map (fun d => cell_at "Date"
                   (<["Hours Over Threshold" :=
                        CInt (Z.of_nat (nunique (hours_above df thr d)))]>
                      ({["Date" := d]} : gmap string cell))) keys = keys).
  { rewrite <- (map_id keys) at 2. apply map_ext. intros d.
    rewrite cell_at_insert_ne by discriminate. apply cell_at_singleton. }
  rewrite Hmap. split; [apply group_keys_NoDup|]. split.
  - intros c. split.
    + intros Hc. apply In_group_keys in Hc. destruct Hc as [Hc _].
      apply in_map_iff in Hc. destruct Hc as (r & <- & Hr).
      apply List.filter_In in Hr. exists r. tauto.
    + intros (r & Hr & Ha & <-). destruct (Hrows r Hr) as (t & _ & _ & _ & Hdate & _).
      rewrite Hdate. apply In_group_keys_date. rewrite <- Hdate. apply in_map.
      apply List.filter_In. tauto.
  - intros o Ho. apply in_map_iff in Ho. destruct Ho as (d & <- & Hd').
    rewrite cell_at_insert_eq. eexists. split; [reflexivity|].
    apply In_group_keys in Hd'. destruct Hd' as [Hd' _].
    apply in_map_iff in Hd'. destruct Hd' as (r & <- & Hr). split.
    + apply List.filter_In in Hr as Hr'. destruct Hr' as [Hr0 Ha].
      destruct (Hrows r Hr0) as (t & _ & _ & _ & _ & Hhour & _).
      apply (nunique_pos _ (cell_at "Hour" r)); [|rewrite Hhour; reflexivity].
      unfold hours_above. apply in_map. apply List.filter_In. split; [exact Hr|].
      apply cell_same_refl.
    + apply nunique_hours. intros c Hc. unfold hours_above in Hc.
      apply in_map_iff in Hc. destruct Hc as (r' & <- & Hr').
      apply List.filter_In in Hr'. destruct Hr' as [Hr' _].
      apply List.filter_In in Hr'. destruct Hr' as [Hr' _].
      destruct (Hrows r' Hr') as (t & _ & _ & _ & _ & Hhour & _). rewrite Hhour.
      right. eexists. split; [reflexivity|].
      pose proof (Z.mod_pos_bound t 86400 eq_refl).
      split; [apply Z.div_pos; lia | apply Z.div_lt_upper_bound; lia].
Qed.

(** X8.  On a loaded table whose volumes are numbers, [daily_data] has
    exactly one row for each day on which some row has a volume
    strictly greater than the threshold, no row for any other day,
    and every count in it is at least 1 and at most 24. *)
Theorem daily_data_days df (t : Z) :
  "Trade_Abs_MW" ∈ columns df -> "Date" ∈ columns df -> "Hour" ∈ columns df ->
  (forall r, In r (rows df) -> loaded_row r) ->
  numeric_volumes df ->
  exists out,
    daily_data df (CInt t) = Ok out
    /\ List.NoDup (map (cell_at "Date") (rows out))
    /\ (forall c, In c (map (cell_at "Date") (rows out)) <->
                  exists r, In r (rows df) /\ over t r = true /\ cell_at "Date" r = c)
    /\ forall o, In o (rows out) ->
         exists n, cell_at "Hours Over Threshold" o = CInt (Z.of_nat n) /\ (1 <= n <= 24)%nat.
Proof.
  intros Ht Hd Hh Hrows _.
  destruct (daily_rows_above df (CInt t) Ht Hd Hh Hrows) as (out & E & Hnd & Hdays & Hn).
  exists out. split; [exact E|]. split; [exact Hnd|]. split; [|exact Hn].
  intros c. rewrite Hdays. split; intros (r & Hr & Ha & Hc); exists r;
    (split; [exact Hr|]); (split; [|exact Hc]).
  - rewrite <- above_over. exact Ha.
  - rewrite above_over. exact Ha.
Qed.

Lemma daily_data_days_witness :
  exists out,
    daily_data fact_trades_sample (CInt 500) = Ok out
    /\ List.NoDup (map (cell_at "Date") (rows out))
    /\ (forall c, In c (map (cell_at "Date") (rows out)) <->
                  exists r, In r (rows fact_trades_sample) /\ over 500 r = true
                            /\ cell_at "Date" r = c)
    /\ forall o, In o (rows out) ->
         exists n, cell_at "Hours Over Threshold" o = CInt (Z.of_nat n) /\ (1 <= n <= 24)%nat.
Proof.
  apply (daily_data_days fact_trades_sample 500); try col_in.
  - exact fact_trades_sample_loaded.
  - exact fact_trades_sample_numeric.
Defined.

(** ** The busiest day *)

Lemma fold_best t x :
  let best := fold_left (fun best y : cell * nat => if Nat.ltb best.2 y.2 then y else best) t x in
  In best (x :: t) /\ forall y, In y (x :: t) -> (y.2 <= best.2)%nat.
Proof.
  revert x. induction t as [|z t IH]; intros x; simpl.
  - split; [left; reflexivity|]. intros y [<-|[]]. lia.
  - destruct (Nat.ltb_spec x.2 z.2) as [H|H].
    + destruct (IH z) as [Hin Hmax]. split.
      * right. exact Hin.
      * intros y [<-|Hy]; [|apply Hmax, Hy].
        specialize (Hmax z (or_introl eq_refl)). lia.
    + destruct (IH x) as [Hin Hmax]. split.
      * destruct Hin as [<-|Hin]; [left; reflexivity | right; right; exact Hin].
      * intros y [<-|[<-|Hy]].
        -- apply Hmax. left. reflexivity.
        -- specialize (Hmax x (or_introl eq_refl)). lia.
        -- apply Hmax. right. exact Hy.
Qed.

Lemma busiest_day_above df thr :
  "Trade_Abs_MW" ∈ columns df -> "Date" ∈ columns df ->
  (forall r, In r (rows df) -> loaded_row r) ->
  let heavy := List.filter (above thr) (rows df) in
  let count d := length (List.filter (fun r => cell_same (cell_at "Date" r) d) heavy) in
  (heavy = [] -> peak_day df thr = Ok None)
  /\ (heavy <> [] ->
      exists d, peak_day df thr = Ok (Some d)
        /\ (exists r, In r heavy /\ cell_at "Date" r = d)
        /\ forall r, In r heavy -> (count (cell_at "Date" r) <= count d)%nat).
Proof.
  intros Ht Hd Hrows heavy count.
  assert (Hcols : columns df <> []) by (intros E; rewrite E in Ht; apply elem_of_nil in Ht; exact Ht).
  assert (Hheavy : heavy_trades df thr = Ok (DataFrame (columns df) heavy)).
  { unfold heavy_trades. rewrite (getitem_ok _ _ Ht). cbn [rbind].
    unfold series_gt. rewrite map_map.
    change (fun x => cell_gt (cell_at "Trade_Abs_MW" x) thr) with (above thr).
    apply getitem_mask_map. }
  unfold peak_day. rewrite Hheavy. cbn [rbind]. split.
  - intros E. rewrite E. unfold df_empty. cbn [columns rows].
    destruct (columns df); reflexivity.
  - intros Hne.
    assert (He : df_empty (DataFrame (columns df) heavy) = false).
    { unfold df_empty. cbn [columns rows]. destruct (columns df); [congruence|].
      destruct heavy; congruence. }
    rewrite He. cbn [negb]. unfold groupby_size.
    rewrite getitem_ok by exact Hd. cbn [rbind rows].
    set (keys := group_keys (map (cell_at "Date") heavy)).
    assert (Hkeys : forall r, In r heavy -> In (cell_at "Date" r) keys).
    { intros r Hr. assert (Hr0 : In r (rows df)) by (apply List.filter_In in Hr; tauto).
      destruct (Hrows r Hr0) as (t & _ & _ & _ & Hdate & _). rewrite Hdate.
      apply In_group_keys_date. rewrite <- Hdate. apply in_map. exact Hr. }
    destruct keys as [|k keys'] eqn:Ek.
    { destruct heavy as [|r h]; [congruence|]. destruct (Hkeys r (or_introl eq_refl)). }
    cbn [map idxmax rbind].
    match goal with |- context [fold_left ?f ?t ?x] =>
      destruct (fold_best t x) as [Hin Hmax]; set (best := fold_left f t x) in * end.
    exists best.1. split; [reflexivity|].
    change (In best (map (fun k => (k, count k)) (k :: keys'))) in Hin.
    apply in_map_iff in Hin. destruct Hin as (d & Hbest & Hdk).
    rewrite <- Hbest. cbn [fst]. split.
    + rewrite <- Ek in Hdk. apply In_group_keys in Hdk. destruct Hdk as [Hdk _].
      apply in_map_iff in Hdk. destruct Hdk as (r & Hr & Hin). exists r. tauto.
    + intros r Hr. specialize (Hkeys r Hr).
      assert (Hy : In (cell_at "Date" r, count (cell_at "Date" r))
                      (map (fun k => (k, count k)) (k :: keys')))
        by (apply in_map_iff; eexists; split; [reflexivity | exact Hkeys]).
      specialize (Hmax _ Hy). rewrite <- Hbest in Hmax. exact Hmax.
Qed.

(** X9.  The busiest day, on a loaded table whose volumes are numbers:
    when some row has a volume strictly greater than the threshold,
    [peak_day] is a day of such a row, and no day has more such rows;
    when none has, there is no busiest day. *)
Theorem peak_day_is_busiest df (t : Z) :
  "Trade_Abs_MW" ∈ columns df -> "Date" ∈ columns df ->
  (forall r, In r (rows df) -> loaded_row r) ->
  numeric_volumes df ->
  let heavy := List.filter (over t) (rows df) in
  let count d := length (List.filter (fun r => cell_same (cell_at "Date" r) d) heavy) in
  (heavy = [] -> peak_day df (CInt t) = Ok None)
  /\ (heavy <> [] ->
      exists d, peak_day df (CInt t) = Ok (Some d)
        /\ (exists r, In r heavy /\ cell_at "Date" r = d)
        /\ forall r, In r heavy -> (count (cell_at "Date" r) <= count d)%nat).
Proof.
  intros Ht Hd Hrows _. rewrite <- filter_above_over.
  exact (busiest_day_above df (CInt t) Ht Hd Hrows).
Qed.

Lemma peak_day_is_busiest_witness :
  let heavy := List.filter (over 500) (rows fact_trades_sample) in
  let count d := length (List.filter (fun r => cell_same (cell_at "Date" r) d) heavy) in
  (heavy = [] -> peak_day fact_trades_sample (CInt 500) = Ok None)
  /\ (heavy <> [] ->
      exists d, peak_day fact_trades_sample (CInt 500) = Ok (Some d)
        /\ (exists r, In r heavy /\ cell_at "Date" r = d)
        /\ forall r, In r heavy -> (count (cell_at "Date" r) <= count d)%nat).
Proof.
  apply (peak_day_is_busiest fact_trades_sample 500); try col_in.
  - exact fact_trades_sample_loaded.
  - exact fact_trades_sample_numeric.
Defined.

Example peak_day_sample :
  peak_day fact_trades_sample (CInt 500) = Ok (Some (CDate 20148))
  /\ peak_day fact_trades_sample (CInt 2000) = Ok None.
Proof. vm_compute. split; reflexivity. Qed.

(** ** The default view of the accuracy dashboard *)

(** X10.  With the sidebar as it opens (every fuel selected, no BMU, the
    attention box clear) the filtered table is the whole annual
    table. *)
Theorem default_view_is_whole_table df_annual :
  (forall c, In c annual_filter_columns -> c ∈ columns df_annual) ->
  (forall r, In r (rows df_annual) -> exists f, cell_at "Fuel" r = CStr f) ->
  exists fuel_filter,
    ALL_FUELS df_annual = Ok fuel_filter
    /\ run_on (fun l => filtered_annual l fuel_filter [] false) df_annual = Ok df_annual.
Proof.
  intros Hcols Hfuel. unfold ALL_FUELS, sorted_options.
  rewrite getitem_ok by (apply Hcols; simpl; tauto). cbn [rbind].
  eexists. split; [reflexivity|].
  rewrite filtered_annual_run by exact Hcols. rewrite filter_all.
  { destruct df_annual; reflexivity. }
  intros r Hr. unfold passes_annual. cbn [negb orb]. rewrite !andb_true_r.
  destruct (Hfuel r Hr) as (f & Hf). apply cell_isin_In.
  rewrite Hf. apply In_sort_by, In_unique_str.
  unfold series_dropna. apply List.filter_In. split; [|reflexivity].
  rewrite <- Hf. apply in_map. exact Hr.
Qed.

Lemma annual_sample_fuels r : In r (rows annual_sample) -> exists f, cell_at "Fuel" r = CStr f.
Proof.
  intros Hr. simpl in Hr.
  repeat (destruct Hr as [<-|Hr]; [eexists; vm_compute; reflexivity|]). destruct Hr.
Qed.

Lemma default_view_is_whole_table_witness :
  exists fuel_filter,
    ALL_FUELS annual_sample = Ok fuel_filter
    /\ run_on (fun l => filtered_annual l fuel_filter [] false) annual_sample
       = Ok annual_sample.
Proof.
  apply (default_view_is_whole_table annual_sample).
  - exact annual_sample_columns.
  - exact annual_sample_fuels.
Defined.

(** ** Bands *)

Lemma band_rank_interval v q :
  num_of v = Some q ->
  exists label, classify_band v = Ok label
    /\ ((q < 1)%Q /\ band_rank label = 1%nat
        \/ (1 <= q)%Q /\ (q < 2)%Q /\ band_rank label = 2%nat
        \/ (2 <= q)%Q /\ (q < 4)%Q /\ band_rank label = 3%nat
        \/ (4 <= q)%Q /\ (q < 10)%Q /\ band_rank label = 4%nat
        \/ (10 <= q)%Q /\ band_rank label = 5%nat).
Proof.
  intros Hq.
  destruct (classify_band_interval v q Hq)
    as [[H1 E]|[(H1 & H2 & E)|[(H1 & H2 & E)|[(H1 & H2 & E)|[H1 E]]]]];
    rewrite E; eexists; (split; [reflexivity|]); vm_compute band_rank; tauto.
Qed.

(** X11.  Banding is monotone: a larger error never falls in a lower band. *)
Theorem classify_band_monotone v w p q :
  num_of v = Some p -> num_of w = Some q -> (p <= q)%Q ->
  exists lv lw,
    classify_band v = Ok lv /\ classify_band w = Ok lw
    /\ (band_rank lv <= band_rank lw)%nat.
Proof.
  intros Hv Hw Hle.
  destruct (band_rank_interval v p Hv) as (lv & Ev & Hlv).
  destruct (band_rank_interval w q Hw) as (lw & Ew & Hlw).
  exists lv, lw. split; [exact Ev|]. split; [exact Ew|].
  destruct Hlv as [(? & ->)|[(? & ? & ->)|[(? & ? & ->)|[(? & ? & ->)|(? & ->)]]]];
    destruct Hlw as [(? & ->)|[(? & ? & ->)|[(? & ? & ->)|[(? & ? & ->)|(? & ->)]]]];
    try lia; exfalso; lra.
Qed.

Lemma classify_band_monotone_witness :
  exists lv lw,
    classify_band (CNum (3 # 2)) = Ok lv /\ classify_band (CInt 7) = Ok lw
    /\ (band_rank lv <= band_rank lw)%nat.
Proof.
  apply (classify_band_monotone (CNum (3 # 2)) (CInt 7) (3 # 2) (inject_Z 7));
    reflexivity || (vm_compute; discriminate).
Defined.

(** X12.  Banding a text cell raises [TypeError]; banding a cell that went
    through the numeric coercion never raises, whatever its text. *)
Theorem classify_band_after_coercion (parse_float : string -> option Q) :
  (forall s, exists msg, classify_band (CStr s) = Raise (TypeError msg))
  /\ (forall c, exists label, classify_band (to_numeric_cell parse_float c) = Ok label).
Proof.
  split; [intros s; eexists; reflexivity|].
  intros c.
  assert (H : to_numeric_cell parse_float c = CNull
              \/ exists q, num_of (to_numeric_cell parse_float c) = Some q).
  { destruct c; simpl; try (left; reflexivity); try (right; eexists; reflexivity).
    destruct (parse_float s); [right; eexists; reflexivity | left; reflexivity]. }
  destruct H as [->|(q & Hq)]; [eexists; reflexivity|].
  destruct (band_rank_interval _ q Hq) as (label & E & _). exists label. exact E.
Qed.


(** ** The enrichment as a left join *)





Lemma NeedsAttention_rows df :
  "A_ABS_NetError%" ∈ columns df -> "P90_monthly_error" ∈ columns df ->
  exists cs,
    (forall c, c ∈ columns df -> c ∈ cs) /\ "NeedsAttention" ∈ cs
    /\ NeedsAttention df = Ok (DataFrame cs (map flagged (rows df))).
Proof.
  intros Ha Hp. unfold NeedsAttention.
  rewrite (getitem_ok _ _ Ha). cbn [rbind]. rewrite setitem_with_column. cbn [rbind].
  rewrite !getitem_ok by auto with cols. cbn [rbind].
  unfold mask_or, series_ge, series_of_mask. rewrite !map_map, zip_with_map_same, map_map.
  rewrite setitem_with_column.
  match goal with |- context [Ok ?final] => exists (columns final) end.
  split; [intros c Hc; auto with cols|]. split; [auto with cols|].
  f_equal. apply frame_eta; [reflexivity|].
  rewrite !rows_with_column, map_map. apply map_ext. intros r. unfold flagged.
  rewrite !cell_at_insert_ne by discriminate. reflexivity.
Qed.








(** ** Attention counts *)

Lemma enrich_flagged df_annual df_monthly :
  "BMU" ∈ columns df_annual -> "A_ABS_NetError%" ∈ columns df_annual ->
  "P90_monthly_error" ∉ columns df_annual ->
  (df_empty df_monthly = false ->
   "BMU" ∈ columns df_monthly /\ "M_ABS_NetError%" ∈ columns df_monthly) ->
  exists cs rs,
    enrich df_annual df_monthly = Ok (DataFrame cs (map flagged rs))
    /\ (forall c, c ∈ columns df_annual -> c ∈ cs)
    /\ "P90_monthly_error" ∈ cs /\ "NeedsAttention" ∈ cs.
Proof.
  intros Hb Ha Hnp Hm.
  assert (Hp : exists p, df_monthly_p90 df_monthly = Ok p
                         /\ columns p = ["BMU"; "P90_monthly_error"]).
  { destruct (df_empty df_monthly) eqn:He.
    - unfold df_monthly_p90. rewrite He. eexists. split; reflexivity.
    - destruct (Hm eq_refl) as [Hmb Hmm].
      rewrite (df_monthly_p90_ok _ He Hmb Hmm). eexists. split; reflexivity. }
  destruct Hp as (p & Hp & Hpc). unfold enrich. rewrite Hp. cbn [rbind].
  destruct (merge_left_ok df_annual p "BMU") as (rs & Hmerge).
  { exact Hb. }
  { rewrite Hpc. col_in. }
  { intros c Hc Hcp. rewrite Hpc in Hcp.
    apply elem_of_cons in Hcp. destruct Hcp as [->|Hcp]; [reflexivity|].
    apply list_elem_of_singleton in Hcp. subst c. contradiction. }
  rewrite Hmerge. cbn [rbind]. rewrite Hpc. simpl List.filter.
  destruct (NeedsAttention_rows (DataFrame (columns df_annual ++ ["P90_monthly_error"]) rs))
    as (cs & Hcs & Hna & E).
  { cbn [columns]. apply elem_of_app. left. exact Ha. }
  { cbn [columns]. apply elem_of_app. right. col_in. }
  exists cs, rs. rewrite E. split; [reflexivity|].
  split; [intros c Hc; apply Hcs; cbn [columns]; apply elem_of_app; left; exact Hc|].
  split; [apply Hcs; cbn [columns]; apply elem_of_app; right; col_in | exact Hna].
Qed.

Lemma cell_eq_bool_true b : cell_eq (CBool b) (CBool true) = b.
Proof. destruct b; reflexivity. Qed.

(** X14.  The attention count of the fuel tab agrees with the attention
    filter of the sidebar: it is the number of distinct BMUs that the
    filter shows for that fuel alone with the attention box ticked. *)
Theorem fuel_attention_count_consistent df_annual df_monthly selected_fuel :
  "BMU" ∈ columns df_annual -> "Fuel" ∈ columns df_annual ->
  "A_ABS_NetError%" ∈ columns df_annual -> "P90_monthly_error" ∉ columns df_annual ->
  (df_empty df_monthly = false ->
   "BMU" ∈ columns df_monthly /\ "M_ABS_NetError%" ∈ columns df_monthly) ->
  exists enriched fuel_df n filtered,
    enrich df_annual df_monthly = Ok enriched
    /\ fuel_df_annual enriched (CStr selected_fuel) = Ok fuel_df
    /\ fuel_attention_count fuel_df = Ok n
    /\ run_on (fun l => filtered_annual l [CStr selected_fuel] [] true) enriched = Ok filtered
    /\ n = nunique (map (cell_at "BMU") (rows filtered)).
Proof.
  intros Hb Hf Ha Hnp Hm.
  destruct (enrich_flagged df_annual df_monthly Hb Ha Hnp Hm)
    as (cs & rs & E & Hcs & Hp & Hna).
  set (out := DataFrame cs (map flagged rs)) in *.
  set (is_fuel := fun r => cell_eq (cell_at "Fuel" r) (CStr selected_fuel)).
  set (att := fun r => cell_ge (cell_at "A_ABS_NetError%" r) (CInt 25)
                       || cell_ge (cell_at "P90_monthly_error" r) (CInt 25)).
  set (fuel_df := DataFrame cs (List.filter is_fuel (rows out))).
  assert (Hfuel : fuel_df_annual out (CStr selected_fuel) = Ok fuel_df).
  { unfold fuel_df_annual. rewrite getitem_ok by (apply Hcs, Hf). cbn [rbind].
    unfold series_eq. rewrite map_map. apply (getitem_mask_map out is_fuel). }
  assert (Hcount : fuel_attention_count fuel_df
                   = Ok (nunique (map (cell_at "BMU") (List.filter att (rows fuel_df))))).
  { unfold fuel_attention_count.
    rewrite getitem_ok by (apply Hcs, Ha). cbn [rbind].
    rewrite (proj2 (has_column_true fuel_df "P90_monthly_error") Hp).
    unfold mask_or, series_ge. rewrite !map_map, zip_with_map_same.
    rewrite getitem_mask_map. cbn [rbind].
    rewrite getitem_ok by (apply Hcs, Hb). reflexivity. }
  exists out, fuel_df, (nunique (map (cell_at "BMU") (List.filter att (rows fuel_df)))).
  eexists. split; [exact E|]. split; [exact Hfuel|]. split; [exact Hcount|].
  split.
  - apply filtered_annual_run. intros c Hc. simpl in Hc.
    destruct Hc as [<-|[<-|[<-|[]]]]; [apply Hcs, Hf | apply Hcs, Hb | exact Hna].
  - cbn [rows]. do 2 f_equal. unfold fuel_df. cbn [rows]. rewrite filter_filter.
    apply List.filter_ext_in. intros r Hr. unfold passes_annual.
    rewrite cell_isin_single_str. cbn [negb orb]. rewrite andb_true_r.
    unfold out in Hr. cbn [rows] in Hr. apply in_map_iff in Hr. destruct Hr as (r0 & <- & _).
    rewrite flagged_flag, cell_eq_bool_true. reflexivity.
Qed.

Lemma fuel_attention_count_consistent_witness :
  exists enriched fuel_df n filtered,
    enrich (DataFrame ["BMU"; "Fuel"; "A_ABS_NetError%"]
              [ {[ "BMU" := CStr "E1"; "Fuel" := CStr "WIND"; "A_ABS_NetError%" := CInt 24 ]};
                {[ "BMU" := CStr "E2"; "Fuel" := CStr "WIND"; "A_ABS_NetError%" := CInt 31 ]} ])
           monthly_scenario = Ok enriched
    /\ fuel_df_annual enriched (CStr "WIND") = Ok fuel_df
    /\ fuel_attention_count fuel_df = Ok n
    /\ run_on (fun l => filtered_annual l [CStr "WIND"] [] true) enriched = Ok filtered
    /\ n = nunique (map (cell_at "BMU") (rows filtered)).
Proof.
  apply fuel_attention_count_consistent.
  - col_in.
  - col_in.
  - col_in.
  - col_notin.
  - intros _. split; col_in.
Defined.

(** ** The accuracy loader: files it cannot use *)

Lemma rmap_raise {A B} (f : A -> result B) l x e :
  In x l -> f x = Raise e -> exists e', rmap f l = Raise e'.
Proof.
  induction l as [|a l IH]; intros Hin Hx; [destruct Hin|].
  cbn [rmap]. destruct Hin as [->|Hin].
  - rewrite Hx. eexists. reflexivity.
  - destruct (f a) as [b|e0]; [|eexists; reflexivity]. cbn [rbind].
    destruct (IH Hin Hx) as (e' & ->). eexists. reflexivity.
Qed.

Lemma notin_with_column df dst g c :
  c ∉ columns df -> c <> dst -> c ∉ columns (with_column df dst g).
Proof.
  intros Hc Hne. unfold with_column. cbn [columns].
  destruct (has_column df dst); [exact Hc|].
  intros H. apply elem_of_app in H. destruct H as [H|H]; [exact (Hc H)|].
  apply list_elem_of_singleton in H. exact (Hne H).
Qed.

Lemma getitem_missing df c : c ∉ columns df -> getitem df c = Raise (KeyError c).
Proof.
  intros Hc. unfold getitem, has_column. rewrite bool_decide_eq_false_2 by exact Hc.
  reflexivity.
Qed.

Section AccuracyLoaderErrors.

Variable parse_float : string -> option Q.
Variable parse_period : string -> option Z.
Variable repr_float : Q -> string.

Lemma load_annual_no_unit f df :
  content f = Parsed df -> "nationalGridBmUnit" ∉ map strip (columns df) ->
  load_annual parse_float repr_float f = Raise (KeyError "nationalGridBmUnit").
Proof.
  intros Hf Hb. unfold load_annual, read_csv. rewrite Hf. cbn [rbind].
  rewrite coerce_numeric_ok. cbn [rbind].
  rewrite getitem_missing; [reflexivity | exact Hb].
Qed.

Lemma load_annual_no_fuel f df :
  content f = Parsed df -> "nationalGridBmUnit" ∈ map strip (columns df) ->
  "FUEL_I" ∉ map strip (columns df) ->
  load_annual parse_float repr_float f = Raise (KeyError "FUEL_I").
Proof.
  intros Hf Hb Hfu. unfold load_annual, read_csv. rewrite Hf. cbn [rbind].
  rewrite coerce_numeric_ok. cbn [rbind].
  set (df1 := DataFrame _ _).
  assert (Hb1 : "nationalGridBmUnit" ∈ columns df1) by exact Hb.
  rewrite (getitem_ok _ _ Hb1). cbn [rbind]. unfold astype_str. rewrite map_map.
  rewrite setitem_with_column. cbn [rbind].
  rewrite getitem_missing; [reflexivity|].
  apply notin_with_column; [exact Hfu | discriminate].
Qed.

Lemma load_annual_unreadable f msg :
  content f = Unreadable msg ->
  load_annual parse_float repr_float f = Raise (ParserError msg).
Proof. intros Hf. unfold load_annual, read_csv. rewrite Hf. reflexivity. Qed.

Lemma load_monthly_no_period f df :
  content f = Parsed df -> "year_month" ∉ map strip (columns df) ->
  load_monthly parse_float parse_period repr_float f = Raise (KeyError "year_month").
Proof.
  intros Hf Hy. unfold load_monthly, read_csv. rewrite Hf. cbn [rbind].
  rewrite getitem_missing; [reflexivity | exact Hy].
Qed.

End AccuracyLoaderErrors.

Section AccuracyLoaderAborts.

Variable parse_float : string -> option Q.
Variable parse_period : string -> option Z.
Variable repr_float : Q -> string.

Lemma load_monthly_no_unit f df :
  content f = Parsed df -> "year_month" ∈ map strip (columns df) ->
  "nationalGridBmUnit" ∉ map strip (columns df) ->
  load_monthly parse_float parse_period repr_float f = Raise (KeyError "nationalGridBmUnit").
Proof.
  intros Hf Hy Hb. unfold load_monthly, read_csv. rewrite Hf. cbn [rbind].
  set (df1 := set_columns strip df).
  assert (Hy1 : "year_month" ∈ columns df1) by exact Hy.
  assert (Hb1 : "nationalGridBmUnit" ∉ columns df1) by exact Hb.
  unfold astype_str, str_pad_month, to_datetime_Ym.
  do 6 (rewrite getitem_ok by auto 10 with cols; cbn [rbind];
        rewrite ?map_map; rewrite setitem_with_column; cbn [rbind]).
  rewrite coerce_numeric_ok. cbn [rbind].
  rewrite getitem_missing; [reflexivity|]. cbn [columns].
  repeat (apply notin_with_column; [|discriminate]). exact Hb1.
Qed.

Lemma load_monthly_no_fuel f df :
  content f = Parsed df -> "year_month" ∈ map strip (columns df) ->
  "nationalGridBmUnit" ∈ map strip (columns df) -> "FUEL_I" ∉ map strip (columns df) ->
  load_monthly parse_float parse_period repr_float f = Raise (KeyError "FUEL_I").
Proof.
  intros Hf Hy Hb Hfu. unfold load_monthly, read_csv. rewrite Hf. cbn [rbind].
  set (df1 := set_columns strip df).
  assert (Hy1 : "year_month" ∈ columns df1) by exact Hy.
  assert (Hb1 : "nationalGridBmUnit" ∈ columns df1) by exact Hb.
  assert (Hf1 : "FUEL_I" ∉ columns df1) by exact Hfu.
  unfold astype_str, str_pad_month, to_datetime_Ym.
  do 6 (rewrite getitem_ok by auto 10 with cols; cbn [rbind];
        rewrite ?map_map; rewrite setitem_with_column; cbn [rbind]).
  rewrite coerce_numeric_ok. cbn [rbind].
  match goal with |- context [coerce_row parse_float num_cols_m (columns ?d)] =>
    set (df2 := d) end.
  set (df3 := DataFrame (columns df2) _).
  assert (Hb3 : "nationalGridBmUnit" ∈ columns df3)
    by (unfold df3, df2; cbn [columns]; auto 10 with cols).
  rewrite getitem_ok by exact Hb3. cbn [rbind].
  rewrite ?map_map. rewrite setitem_with_column. cbn [rbind].
  rewrite getitem_missing; [reflexivity|].
  apply notin_with_column; [|discriminate]. unfold df3, df2. cbn [columns].
  repeat (apply notin_with_column; [|discriminate]). exact Hf1.
Qed.

Lemma annual_error_raise f e :
  annual_error f = Some e -> load_annual parse_float repr_float f = Raise e.
Proof.
  unfold annual_error. destruct (content f) as [msg|df] eqn:Hf.
  - intros [= <-]. apply load_annual_unreadable. exact Hf.
  - destruct (bool_decide ("nationalGridBmUnit" ∈ map strip (columns df))) eqn:Hb; cbn [negb].
    + apply bool_decide_eq_true in Hb.
      destruct (bool_decide ("FUEL_I" ∈ map strip (columns df))) eqn:Hfu; cbn [negb];
        [discriminate|].
      apply bool_decide_eq_false in Hfu. intros [= <-].
      eapply load_annual_no_fuel; eassumption.
    + apply bool_decide_eq_false in Hb. intros [= <-].
      eapply load_annual_no_unit; eassumption.
Qed.

Lemma annual_error_none f :
  annual_error f = None ->
  exists df, content f = Parsed df
    /\ "nationalGridBmUnit" ∈ map strip (columns df) /\ "FUEL_I" ∈ map strip (columns df).
Proof.
  unfold annual_error. destruct (content f) as [msg|df] eqn:Hf; [discriminate|].
  destruct (bool_decide ("nationalGridBmUnit" ∈ map strip (columns df))) eqn:Hb; cbn [negb];
    [|discriminate].
  destruct (bool_decide ("FUEL_I" ∈ map strip (columns df))) eqn:Hfu; cbn [negb];
    [|discriminate].
  intros _. exists df. apply bool_decide_eq_true in Hb, Hfu. auto.
Qed.

Lemma monthly_error_raise f e :
  monthly_error f = Some e -> load_monthly parse_float parse_period repr_float f = Raise e.
Proof.
  unfold monthly_error. destruct (content f) as [msg|df] eqn:Hf.
  - intros [= <-]. unfold load_monthly, read_csv. rewrite Hf. reflexivity.
  - destruct (bool_decide ("year_month" ∈ map strip (columns df))) eqn:Hy; cbn [negb].
    + apply bool_decide_eq_true in Hy.
      destruct (bool_decide ("nationalGridBmUnit" ∈ map strip (columns df))) eqn:Hb;
        cbn [negb].
      * apply bool_decide_eq_true in Hb.
        destruct (bool_decide ("FUEL_I" ∈ map strip (columns df))) eqn:Hfu; cbn [negb];
          [discriminate|].
        apply bool_decide_eq_false in Hfu. intros [= <-].
        eapply load_monthly_no_fuel; eassumption.
      * apply bool_decide_eq_false in Hb. intros [= <-].
        eapply load_monthly_no_unit; eassumption.
    + apply bool_decide_eq_false in Hy. intros [= <-].
      eapply load_monthly_no_period; eassumption.
Qed.

Lemma monthly_error_none f :
  monthly_error f = None ->
  exists df, content f = Parsed df
    /\ "year_month" ∈ map strip (columns df)
    /\ "nationalGridBmUnit" ∈ map strip (columns df) /\ "FUEL_I" ∈ map strip (columns df).
Proof.
  unfold monthly_error. destruct (content f) as [msg|df] eqn:Hf; [discriminate|].
  destruct (bool_decide ("year_month" ∈ map strip (columns df))) eqn:Hy; cbn [negb];
    [|discriminate].
  destruct (bool_decide ("nationalGridBmUnit" ∈ map strip (columns df))) eqn:Hb; cbn [negb];
    [|discriminate].
  destruct (bool_decide ("FUEL_I" ∈ map strip (columns df))) eqn:Hfu; cbn [negb];
    [|discriminate].
  intros _. exists df. apply bool_decide_eq_true in Hy, Hb, Hfu. auto.
Qed.

Lemma rmap_first_raise {A B} (f : A -> result B) good x rest e :
  (forall g, In g good -> exists b, f g = Ok b) -> f x = Raise e ->
  rmap f (good ++ x :: rest) = Raise e.
Proof.
  induction good as [|a good IH]; intros Hgood Hx; cbn [rmap app].
  - rewrite Hx. reflexivity.
  - destruct (Hgood a (or_introl eq_refl)) as (b & ->). cbn [rbind].
    rewrite IH; [reflexivity | | exact Hx].
    intros g Hg. apply Hgood. right. exact Hg.
Qed.

Lemma rmap_all_ok {A B} (f : A -> result B) l :
  (forall g, In g l -> exists b, f g = Ok b) -> exists bs, rmap f l = Ok bs.
Proof.
  induction l as [|a l IH]; intros H; [eexists; reflexivity|].
  cbn [rmap]. destruct (H a (or_introl eq_refl)) as (b & ->). cbn [rbind].
  destruct IH as (bs & ->); [intros g Hg; apply H; right; exact Hg|].
  eexists. reflexivity.
Qed.

(** X15.  The accuracy loader has no skip: among files whose headers are
    printable and distinct once stripped, the first one that cannot
    be read, or that lacks an identity column (in a monthly file the
    period comes first), ends the whole load with its exception,
    whatever the files after it hold. *)
Theorem accuracy_loader_aborts good f rest others e :
  (forall g, In g (f :: good ++ others) -> clean_source g) ->
  (forall g, In g good -> annual_error g = None) ->
  (annual_error f = Some e ->
   load_accuracy_data parse_float parse_period repr_float (good ++ f :: rest) others = Raise e)
  /\ ((forall g, In g others -> monthly_error g = None) ->
      monthly_error f = Some e ->
      load_accuracy_data parse_float parse_period repr_float good (others ++ f :: rest) = Raise e).
Proof.
  intros _ Hgood.
  assert (Hok : forall g, In g good -> exists b, load_annual parse_float repr_float g = Ok b).
  { intros g Hg. destruct (annual_error_none g (Hgood g Hg)) as (df & Hc & Hb & Hfu).
    destruct (load_annual_ok parse_float repr_float g df Hc Hb Hfu) as (cs & E).
    eexists. exact E. }
  split.
  - intros He. unfold load_accuracy_data.
    rewrite (rmap_first_raise _ good f rest e Hok (annual_error_raise f e He)). reflexivity.
  - intros Hothers He. unfold load_accuracy_data.
    destruct (rmap_all_ok _ good Hok) as (bs & ->). cbn [rbind].
    destruct (concat_or_empty_ok bs) as (cs & ->). cbn [rbind].
    rewrite (rmap_first_raise _ others f rest e); [reflexivity | | apply monthly_error_raise, He].
    intros g Hg. destruct (monthly_error_none g (Hothers g Hg)) as (df & Hc & Hy & Hb & Hfu).
    destruct (load_monthly_ok parse_float parse_period repr_float g df Hc Hy Hb Hfu) as (cs' & p & _ & E).
    eexists. exact E.
Qed.

End AccuracyLoaderAborts.

Lemma sample_sources_clean g :
  In g [annual_csv; monthly_csv; notes_csv; broken_csv] -> clean_source g.
Proof.
  intros Hg. unfold clean_source.
  repeat (destruct Hg as [<-|Hg];
          [first [exact I
                 | split;
                   [intros c Hc; cbn in Hc;
                    repeat (destruct Hc as [<-|Hc]; [reflexivity|]); destruct Hc
                   | vm_compute; repeat constructor; cbn; intuition discriminate]]|]).
  destruct Hg.
Qed.

Lemma accuracy_loader_aborts_witness :
  load_accuracy_data decimal strptime_Ym repr_1dp
    ([annual_csv] ++ notes_csv :: [broken_csv]) [monthly_csv]
  = Raise (KeyError "nationalGridBmUnit")
  /\ load_accuracy_data decimal strptime_Ym repr_1dp
       [annual_csv] ([monthly_csv] ++ broken_csv :: [notes_csv])
     = Raise (ParserError "Error tokenizing data").
Proof.
  split.
  - apply (accuracy_loader_aborts decimal strptime_Ym repr_1dp [annual_csv] notes_csv
             [broken_csv] [monthly_csv] (KeyError "nationalGridBmUnit")).
    + intros g Hg. apply sample_sources_clean. cbn in Hg. cbn. tauto.
    + intros g [<-|[]]. vm_compute. reflexivity.
    + vm_compute. reflexivity.
  - apply (accuracy_loader_aborts decimal strptime_Ym repr_1dp [annual_csv] broken_csv
             [notes_csv] [monthly_csv] (ParserError "Error tokenizing data")).
    + intros g Hg. apply sample_sources_clean. cbn in Hg. cbn. tauto.
    + intros g [<-|[]]. vm_compute. reflexivity.
    + intros g [<-|[]]. vm_compute. reflexivity.
    + vm_compute. reflexivity.
Defined.

(** ** The accuracy loader: identity columns *)

Section AccuracyIdentity.

Variable parse_float : string -> option Q.
Variable parse_period : string -> option Z.
Variable repr_float : Q -> string.

Lemma annual_row_identity present r :
  let r' := annual_row parse_float repr_float present r in
  cell_at "BMU" r' = CStr (py_str repr_float (cell_at "nationalGridBmUnit" r))
  /\ cell_at "Fuel" r' = CStr (py_str repr_float (cell_at "FUEL_I" r))
  /\ cell_at "Year" r' = CInt 2025
  /\ cell_at "Grain" r' = CStr "annual".
Proof.
  cbv zeta. unfold annual_row, derive.
  repeat (rewrite cell_at_insert_eq || (rewrite cell_at_insert_ne by discriminate)).
  rewrite !coerce_row_cell.
  change (existsb (String.eqb "nationalGridBmUnit") num_cols) with false.
  change (existsb (String.eqb "FUEL_I") num_cols) with false.
  cbn [andb]. repeat split; reflexivity.
Qed.

Lemma monthly_row_identity present r :
  let r' := monthly_row parse_float parse_period repr_float present r in
  cell_at "BMU" r' = CStr (py_str repr_float (cell_at "nationalGridBmUnit" r))
  /\ cell_at "Fuel" r' = CStr (py_str repr_float (cell_at "FUEL_I" r))
  /\ cell_at "Grain" r' = CStr "monthly".
Proof.
  cbv zeta. unfold monthly_row, derive.
  repeat (rewrite cell_at_insert_eq || (rewrite cell_at_insert_ne by discriminate)).
  rewrite !coerce_row_cell.
  change (existsb (String.eqb "nationalGridBmUnit") num_cols_m) with false.
  change (existsb (String.eqb "FUEL_I") num_cols_m) with false.
  cbn [andb].
  repeat (rewrite cell_at_insert_eq || (rewrite cell_at_insert_ne by discriminate)).
  repeat split; reflexivity.
Qed.

(** X16.  Every row of the loaded tables is identified, when the headers
    of the files are printable and distinct once stripped: a unit or
    a fuel that the file gives as text is the BMU or the Fuel of the
    row; annual rows are stamped with the year 2025 and the grain
    [annual], monthly rows with the grain [monthly]. *)
Theorem accuracy_rows_identified annual_files monthly_files :
  (forall f, In f (annual_files ++ monthly_files) -> clean_source f) ->
  (forall f, In f annual_files -> annual_error f = None) ->
  (forall f, In f monthly_files -> monthly_error f = None) ->
  exists df_annual df_monthly,
    load_accuracy_data parse_float parse_period repr_float annual_files monthly_files
    = Ok (df_annual, df_monthly)
    /\ Forall2 (fun x r' =>
                  (forall s, cell_at "nationalGridBmUnit" x.2 = CStr s ->
                             cell_at "BMU" r' = CStr s)
                  /\ (forall s, cell_at "FUEL_I" x.2 = CStr s -> cell_at "Fuel" r' = CStr s)
                  /\ cell_at "Year" r' = CInt 2025
                  /\ cell_at "Grain" r' = CStr "annual")
               (flat_map file_rows annual_files) (rows df_annual)
    /\ Forall2 (fun x r' =>
                  (forall s, cell_at "nationalGridBmUnit" x.2 = CStr s ->
                             cell_at "BMU" r' = CStr s)
                  /\ (forall s, cell_at "FUEL_I" x.2 = CStr s -> cell_at "Fuel" r' = CStr s)
                  /\ cell_at "Grain" r' = CStr "monthly")
               (flat_map file_rows monthly_files) (rows df_monthly).
Proof.
  intros _ Ha Hm.
  set (ga := fun f => force (load_annual parse_float repr_float f)).
  set (gm := fun f => force (load_monthly parse_float parse_period repr_float f)).
  assert (Hga : forall f, In f annual_files ->
            load_annual parse_float repr_float f = Ok (ga f)).
  { intros f Hf. destruct (annual_error_none f (Ha f Hf)) as (df & Hc & Hb & Hfu).
    destruct (load_annual_ok parse_float repr_float f df Hc Hb Hfu) as (cs & E).
    unfold ga. rewrite E. reflexivity. }
  assert (Hgm : forall f, In f monthly_files ->
            load_monthly parse_float parse_period repr_float f = Ok (gm f)).
  { intros f Hf. destruct (monthly_error_none f (Hm f Hf)) as (df & Hc & Hy & Hb & Hfu).
    destruct (load_monthly_ok parse_float parse_period repr_float f df Hc Hy Hb Hfu)
      as (cs & present & _ & E).
    unfold gm. rewrite E. reflexivity. }
  unfold load_accuracy_data.
  rewrite (rmap_ok _ ga _ Hga). cbn [rbind].
  destruct (concat_or_empty_ok (map ga annual_files)) as (csa & ->). cbn [rbind].
  rewrite (rmap_ok _ gm _ Hgm). cbn [rbind].
  destruct (concat_or_empty_ok (map gm monthly_files)) as (csm & ->). cbn [rbind].
  do 2 eexists. split; [reflexivity|]. cbn [rows]. rewrite !map_map. split.
  - apply Forall2_flat_map. intros f Hf.
    destruct (annual_error_none f (Ha f Hf)) as (df & Hc & Hb & Hfu).
    destruct (load_annual_ok parse_float repr_float f df Hc Hb Hfu) as (cs & E).
    unfold file_rows, ga. rewrite Hc, E. cbn [force rows].
    apply Forall2_map_same. intros r _. cbn [snd].
    destruct (annual_row_identity (map strip (columns df)) r) as (H1 & H2 & H3 & H4).
    split; [intros s Hs; rewrite H1, Hs; reflexivity|].
    split; [intros s Hs; rewrite H2, Hs; reflexivity|]. split; assumption.
  - apply Forall2_flat_map. intros f Hf.
    destruct (monthly_error_none f (Hm f Hf)) as (df & Hc & Hy & Hb & Hfu).
    destruct (load_monthly_ok parse_float parse_period repr_float f df Hc Hy Hb Hfu)
      as (cs & present & Hsub & E).
    unfold file_rows, gm. rewrite Hc, E. cbn [force rows].
    apply Forall2_map_same. intros r _. cbn [snd].
    destruct (monthly_row_identity present r) as (H1 & H2 & H3).
    split; [intros s Hs; rewrite H1, Hs; reflexivity|].
    split; [intros s Hs; rewrite H2, Hs; reflexivity|]. exact H3.
Qed.

End AccuracyIdentity.

Lemma accuracy_rows_identified_witness :
  exists df_annual df_monthly,
    load_accuracy_data decimal strptime_Ym repr_1dp [annual_csv] [monthly_csv]
    = Ok (df_annual, df_monthly)
    /\ Forall2 (fun x r' =>
                  (forall s, cell_at "nationalGridBmUnit" x.2 = CStr s ->
                             cell_at "BMU" r' = CStr s)
                  /\ (forall s, cell_at "FUEL_I" x.2 = CStr s -> cell_at "Fuel" r' = CStr s)
                  /\ cell_at "Year" r' = CInt 2025
                  /\ cell_at "Grain" r' = CStr "annual")
               (flat_map file_rows [annual_csv]) (rows df_annual)
    /\ Forall2 (fun x r' =>
                  (forall s, cell_at "nationalGridBmUnit" x.2 = CStr s ->
                             cell_at "BMU" r' = CStr s)
                  /\ (forall s, cell_at "FUEL_I" x.2 = CStr s -> cell_at "Fuel" r' = CStr s)
                  /\ cell_at "Grain" r' = CStr "monthly")
               (flat_map file_rows [monthly_csv]) (rows df_monthly).
Proof.
  apply (accuracy_rows_identified decimal strptime_Ym repr_1dp [annual_csv] [monthly_csv]).
  - intros f Hf. apply sample_sources_clean. cbn in Hf. cbn. tauto.
  - intros f [<-|[]]. vm_compute. reflexivity.
  - intros f [<-|[]]. vm_compute. reflexivity.
Defined.

(** ** The banded view *)

Lemma classify_band_band_of v :
  v = CNull \/ (exists q, num_of v = Some q) -> classify_band v = Ok (band_of v).
Proof.
  intros [->|(q & Hq)]; [reflexivity|].
  destruct (band_rank_interval v q Hq) as (label & E & _).
  unfold band_of. rewrite E. reflexivity.
Qed.

(** X17.  The band column is written into the table the filter returned,
    not into the annual table.  Whether the page stops on an empty
    selection or goes on to the bands, the annual table is as it was,
    without a band column of its own; it stops exactly when no row is
    selected, and otherwise the view holds the selected rows, each
    with the band of its annual error. *)
Theorem banded_view_leaves_annual σ l df fuel_filter bmu_filter attention_only :
  σ !! l = Some df ->
  (forall c, In c annual_filter_columns -> c ∈ columns df) ->
  "A_ABS_NetError%" ∈ columns df ->
  (forall r, In r (rows df) ->
     cell_at "A_ABS_NetError%" r = CNull
     \/ exists q, num_of (cell_at "A_ABS_NetError%" r) = Some q) ->
  let selected := List.filter (passes_annual fuel_filter bmu_filter attention_only) (rows df) in
  exists res σ',
    banded_view l fuel_filter bmu_filter attention_only σ = Ok (res, σ')
    /\ σ' !! l = Some df
    /\ (forall k old, σ !! k = Some old -> σ' !! k = Some old)
    /\ match res with
       | None => selected = []
       | Some l' =>
           selected <> [] /\ l' <> l
           /\ exists cs,
                "ErrorBand" ∈ cs
                /\ σ' !! l' = Some (DataFrame cs
                     (map (fun r => <["ErrorBand" :=
                                        CStr (band_of (cell_at "A_ABS_NetError%" r))]> r)
                          selected))
       end.
Proof.
  intros Hl Hcols Ha Hnum selected.
  destruct (wp_elim _ _ _ (filtered_annual_wp σ l df fuel_filter bmu_filter attention_only
                             Hl Hcols)) as (l1 & σ1 & Hrun & Hl1 & Hpre & Hlen).
  fold selected in Hl1.
  set (view := DataFrame (columns df) selected) in *.
  assert (Hne : l1 <> l) by (apply lookup_lt_Some in Hl; lia).
  assert (Hcs : columns df <> []).
  { intros E. rewrite E in Ha. apply elem_of_nil in Ha. exact Ha. }
  assert (Hempty : df_empty view = true <-> selected = []) by (apply df_empty_rows; exact Hcs).
  assert (Hkeep : forall k old, σ !! k = Some old -> σ1 !! k = Some old).
  { intros k old Hk. eapply prefix_lookup_Some; eassumption. }
  destruct (df_empty view) eqn:Ev.
  - exists None, σ1. split; [|split; [|split]].
    + unfold banded_view, obind. rewrite Hrun. unfold deref. rewrite Hl1, Ev. reflexivity.
    + apply Hkeep. exact Hl.
    + exact Hkeep.
    + apply Hempty. reflexivity.
  - assert (Hbands : rmap classify_band (map (cell_at "A_ABS_NetError%") (rows view))
                     = Ok (map band_of (map (cell_at "A_ABS_NetError%") (rows view)))).
    { apply rmap_ok. intros c Hc. apply in_map_iff in Hc. destruct Hc as (r & <- & Hr).
      apply classify_band_band_of. apply Hnum.
      unfold view, selected in Hr. cbn [rows] in Hr. apply List.filter_In in Hr. tauto. }
    exists (Some l1),
           (<[l1 := with_column view "ErrorBand"
                      (fun r => CStr (band_of (cell_at "A_ABS_NetError%" r)))]> σ1).
    split; [|split; [|split; [|split; [|split]]]].
    + unfold banded_view, obind. rewrite Hrun. unfold deref at 1. rewrite Hl1, Ev.
      unfold ErrorBand, df_getitem, df_setitem, obind, deref, lift, assign, oret.
      rewrite Hl1. rewrite (getitem_ok view _ Ha). cbv beta iota. rewrite Hbands.
      cbv beta iota. rewrite Hl1. rewrite !map_map. rewrite setitem_with_column. reflexivity.
    + rewrite list_lookup_insert_ne by exact Hne. apply Hkeep. exact Hl.
    + intros k old Hk. rewrite list_lookup_insert_ne.
      * apply Hkeep. exact Hk.
      * apply lookup_lt_Some in Hk. lia.
    + intros E. apply Hempty in E. congruence.
    + exact Hne.
    + exists (columns (with_column view "ErrorBand"
                         (fun r => CStr (band_of (cell_at "A_ABS_NetError%" r))))).
      split; [apply in_with_column_new|].
      rewrite list_lookup_insert_eq by (apply lookup_lt_Some in Hl1; exact Hl1).
      reflexivity.
Qed.

Lemma banded_view_leaves_annual_witness :
  let selected := List.filter (passes_annual [CStr "WIND"] [] false) (rows annual_sample) in
  exists res σ',
    banded_view 0%nat [CStr "WIND"] [] false [annual_sample] = Ok (res, σ')
    /\ σ' !! 0%nat = Some annual_sample
    /\ (forall k old, [annual_sample] !! k = Some old -> σ' !! k = Some old)
    /\ match res with
       | None => selected = []
       | Some l' =>
           selected <> [] /\ l' <> 0%nat
           /\ exists cs,
                "ErrorBand" ∈ cs
                /\ σ' !! l' = Some (DataFrame cs
                     (map (fun r => <["ErrorBand" :=
                                        CStr (band_of (cell_at "A_ABS_NetError%" r))]> r)
                          selected))
       end.
Proof.
  apply (banded_view_leaves_annual [annual_sample] 0%nat annual_sample).
  - reflexivity.
  - apply annual_sample_columns.
  - col_in.
  - intros r Hr. simpl in Hr.
    repeat (destruct Hr as [<-|Hr]; [right; eexists; vm_compute; reflexivity|]). destruct Hr.
Defined.

Example banded_view_sample :
  match banded_view 0%nat [CStr "WIND"] [] false [annual_sample] with
  | Ok (Some l', σ') =>
      (map (fun d => has_column d "ErrorBand") σ',
       match σ' !! l' with
       | Some view => map (cell_at "ErrorBand") (rows view)
       | None => []
       end)
  | _ => ([], [])
  end = ([false; false; true], [CStr ">10%"; CStr "2–4%"])
  /\ match banded_view 0%nat [] [] false [annual_sample] with
     | Ok (None, σ') => σ' !! 0%nat = Some annual_sample
     | _ => False
     end.
Proof. vm_compute. split; reflexivity. Qed.

(** ** Percentiles lie among the data *)

Lemma interpolation_between (a b f v : Q) :
  (0 <= f)%Q -> (f <= 1)%Q -> (v == a + (b - a) * f)%Q ->
  ((a <= b)%Q -> (a <= v)%Q /\ (v <= b)%Q) /\ ((b <= a)%Q -> (b <= v)%Q /\ (v <= a)%Q).
Proof. intros H0 H1 Hv. split; intros Hab; split; nra. Qed.

Lemma percentile_between xs q v :
  (0 <= q)%Q -> (q <= 100)%Q -> percentile xs q = Some v ->
  exists a b, In a xs /\ In b xs /\ (a <= v)%Q /\ (v <= b)%Q.
Proof.
  intros Hq0 Hq1. unfold percentile.
  destruct (sort_by Qle_bool xs) as [|x0 t] eqn:Es; [discriminate|].
  set (sorted := x0 :: t).
  set (n := Z.of_nat (length sorted)).
  set (idx := (q / 100 * (inject_Z n - 1))%Q).
  set (lo := Qfloor idx).
  set (hi := Z.min (lo + 1) (n - 1)).
  intros [= <-].
  assert (Hn : 1 <= n) by (unfold n, sorted; cbn [length]; lia).
  assert (Hn' : (1 <= inject_Z n)%Q).
  { change 1%Q with (inject_Z 1). rewrite <- Zle_Qle. exact Hn. }
  assert (Hidx0 : (0 <= idx)%Q).
  { unfold idx. apply Qmult_le_0_compat; [|lra].
    apply Qle_shift_div_l; lra. }
  assert (Hidx1 : (idx <= inject_Z (n - 1))%Q).
  { unfold idx. replace (n - 1) with (n + - (1)) by lia.
    rewrite inject_Z_plus, inject_Z_opp. change (inject_Z 1) with 1%Q.
    assert (Hq : (q / 100 <= 1)%Q) by (apply Qle_shift_div_r; lra).
    assert (H0 : (0 <= inject_Z n - 1)%Q) by lra.
    nra. }
  assert (Hlo0 : 0 <= lo).
  { unfold lo. rewrite <- (Qfloor_Z 0). apply Qfloor_resp_le. exact Hidx0. }
  assert (Hlo1 : lo <= n - 1).
  { unfold lo. rewrite <- (Qfloor_Z (n - 1)). apply Qfloor_resp_le. exact Hidx1. }
  assert (Hf0 : (0 <= idx - inject_Z lo)%Q) by (pose proof (Qfloor_le idx); unfold lo; lra).
  assert (Hf1 : (idx - inject_Z lo <= 1)%Q).
  { pose proof (Qlt_floor idx) as H. rewrite inject_Z_plus in H.
    change (inject_Z 1) with 1%Q in H. unfold lo. lra. }
  assert (Hin : forall k, 0 <= k <= n - 1 -> In (nth (Z.to_nat k) sorted x0) xs).
  { intros k Hk. apply (In_sort_by Qle_bool). rewrite Es. apply nth_In.
    unfold n in Hk. fold sorted. lia. }
  set (a := nth (Z.to_nat lo) sorted x0).
  set (b := nth (Z.to_nat hi) sorted x0).
  assert (Ha : In a xs) by (apply Hin; lia).
  assert (Hb : In b xs) by (apply Hin; unfold hi; lia).
  destruct (interpolation_between a b (idx - inject_Z lo)
              (Qred (a + (b - a) * (idx - inject_Z lo))) Hf0 Hf1 (Qred_correct _))
    as [Hup Hdown].
  destruct (Qlt_le_dec b a) as [Hba|Hab].
  - exists b, a. split; [exact Hb|]. split; [exact Ha|]. apply Hdown. lra.
  - exists a, b. split; [exact Ha|]. split; [exact Hb|]. apply Hup. exact Hab.
Qed.

Lemma percentile_some xs q : xs <> [] -> exists v, percentile xs q = Some v.
Proof.
  intros Hne. unfold percentile.
  destruct (sort_by Qle_bool xs) as [|x0 t] eqn:Es; [|eexists; reflexivity].
  destruct xs as [|x xs]; [congruence|].
  assert (H : In x (sort_by Qle_bool (x :: xs))) by (apply In_sort_by; left; reflexivity).
  rewrite Es in H. destruct H.
Qed.

(** X18.  The monthly percentile of a BMU lies between two of its monthly
    values.  So the percentile rule flags a BMU only when one of its
    months reached 25, and it does flag a BMU all of whose months
    reached 25. *)
Theorem p90_within_values s v :
  p90 s = CNum v ->
  (exists a b, In a (omap num_of s) /\ In b (omap num_of s) /\ (a <= v)%Q /\ (v <= b)%Q)
  /\ (cell_ge (p90 s) (CInt 25) = true ->
      exists x, In x (omap num_of s) /\ (25 <= x)%Q)
  /\ ((forall x, In x (omap num_of s) -> (25 <= x)%Q) ->
      cell_ge (p90 s) (CInt 25) = true).
Proof.
  intros Hp. rewrite p90_percentile, omap_num_of_dropna in Hp.
  destruct (percentile (omap num_of s) 90) as [w|] eqn:E; [|discriminate].
  injection Hp as ->.
  destruct (percentile_between (omap num_of s) 90 v) as (a & b & Ha & Hb & Hav & Hvb);
    [lra | lra | exact E |].
  assert (Hge : cell_ge (p90 s) (CInt 25) = true <-> (25 <= v)%Q).
  { rewrite p90_percentile, omap_num_of_dropna, E. unfold cell_ge, cell_cmp. cbn [num_of].
    change (inject_Z 25) with 25%Q.
    destruct (Qcompare_spec v 25) as [H|H|H]; split; intros; try discriminate;
      try reflexivity; lra. }
  split; [exists a, b; auto|]. split.
  - intros H. apply Hge in H. exists b. split; [exact Hb | lra].
  - intros H. apply Hge. specialize (H a Ha). lra.
Qed.

Lemma p90_within_values_witness :
  (exists a b, In a (omap num_of [CInt 10; CInt 20; CInt 30; CInt 40; CInt 50; CNull])
     /\ In b (omap num_of [CInt 10; CInt 20; CInt 30; CInt 40; CInt 50; CNull])
     /\ (a <= 46)%Q /\ (46 <= b)%Q)
  /\ (cell_ge (p90 [CInt 10; CInt 20; CInt 30; CInt 40; CInt 50; CNull]) (CInt 25) = true ->
      exists x, In x (omap num_of [CInt 10; CInt 20; CInt 30; CInt 40; CInt 50; CNull])
                /\ (25 <= x)%Q)
  /\ ((forall x, In x (omap num_of [CInt 10; CInt 20; CInt 30; CInt 40; CInt 50; CNull])
                 -> (25 <= x)%Q) ->
      cell_ge (p90 [CInt 10; CInt 20; CInt 30; CInt 40; CInt 50; CNull]) (CInt 25) = true).
Proof.
  apply (p90_within_values [CInt 10; CInt 20; CInt 30; CInt 40; CInt 50; CNull] 46).
  vm_compute. reflexivity.
Defined.

(** ** Periods of the monthly file *)

Lemma periods_read_back :
  forallb (fun y => forallb (period_reads_back y) (map Z.of_nat (seq 1 12)))
          (map Z.of_nat (seq 1678 584)) = true.
Proof. vm_compute. reflexivity. Qed.

Lemma period_reads_back_ok y m :
  1678 <= y <= 2261 -> 1 <= m <= 12 -> period_reads_back y m = true.
Proof.
  intros Hy Hm. pose proof periods_read_back as H.
  rewrite forallb_forall in H.
  specialize (H y). rewrite forallb_forall in H. apply H.
  - apply in_map_iff. exists (Z.to_nat y). split; [lia|]. apply in_seq. lia.
  - apply in_map_iff. exists (Z.to_nat m). split; [lia|]. apply in_seq. lia.
Qed.

Lemma period_calendar y m s :
  1678 <= y <= 2261 -> 1 <= m <= 12 ->
  s = period y m \/ s = period_padded y m ->
  let c := CTime (days_from_civil y m 1 * 86400) in
  pad_month s = period_padded y m
  /\ strptime_Ym (period_padded y m) = Some (days_from_civil y m 1 * 86400)
  /\ dt_year c = CInt y /\ dt_month c = CInt m
  /\ dt_month_name c = CStr (nth (Z.to_nat (m - 1)) month_names "").
Proof.
  intros Hy Hm Hs. pose proof (period_reads_back_ok y m Hy Hm) as H.
  unfold period_reads_back in H. cbv zeta in *.
  apply andb_prop in H. destruct H as [H H3].
  apply andb_prop in H. destruct H as [H1 H2].
  apply String.eqb_eq in H1, H2.
  destruct (strptime_Ym (period_padded y m)) as [t|]; [|discriminate].
  destruct (dt_year _) as [| |y'| | | |]; try discriminate.
  destruct (dt_month _) as [| |m'| | | |]; try discriminate.
  destruct (dt_month_name _) as [| | | |nm| |]; try discriminate.
  apply andb_prop in H3. destruct H3 as [H3 H7].
  apply andb_prop in H3. destruct H3 as [H3 H6].
  apply andb_prop in H3. destruct H3 as [H4 H5].
  apply Z.eqb_eq in H4, H5, H6. apply String.eqb_eq in H7. subst.
  split; [destruct Hs as [->| ->]; assumption|]. repeat split; reflexivity.
Qed.

Lemma strptime_Ym_reads_periods : reads_periods strptime_Ym.
Proof. intros y m Hy Hm. apply (period_calendar y m (period y m) Hy Hm). left. reflexivity. Qed.

Section MonthlyPeriods.

Variable parse_float : string -> option Q.
Variable parse_period : string -> option Z.
Variable repr_float : Q -> string.

Lemma monthly_row_calendar present r s :
  cell_at "year_month" r = CStr s ->
  let c := to_datetime_Ym_cell parse_period (CStr (pad_month s)) in
  let r' := monthly_row parse_float parse_period repr_float present r in
  cell_at "YearMonth" r' = c /\ cell_at "Year" r' = dt_year c
  /\ cell_at "Month" r' = dt_month c /\ cell_at "MonthName" r' = dt_month_name c.
Proof.
  intros Hs. cbv zeta. unfold monthly_row, derive.
  repeat (rewrite cell_at_insert_eq
          || (rewrite cell_at_insert_ne by discriminate)
          || (rewrite coerce_row_cell;
              change (existsb (String.eqb "YearMonth") num_cols_m) with false;
              change (existsb (String.eqb "Year") num_cols_m) with false;
              change (existsb (String.eqb "Month") num_cols_m) with false;
              change (existsb (String.eqb "MonthName") num_cols_m) with false;
              cbn [andb])).
  rewrite Hs. cbn [py_str]. repeat split; reflexivity.
Qed.

(** X19.  When the reader of periods reads the padded form of a month as
    the first day of that month, and the headers of the file are
    printable and distinct once stripped, a monthly row whose period
    names month [m] of year [y], with the month in one or two digits,
    is loaded with that year, that month and the name of that
    month. *)
Theorem monthly_periods f :
  reads_periods parse_period ->
  clean_source f ->
  monthly_error f = None ->
  exists out,
    load_monthly parse_float parse_period repr_float f = Ok out
    /\ Forall2 (fun x r' =>
                  forall y m, 1678 <= y <= 2261 -> 1 <= m <= 12 ->
                    cell_at "year_month" x.2 = CStr (period y m)
                    \/ cell_at "year_month" x.2 = CStr (period_padded y m) ->
                    cell_at "YearMonth" r' = CTime (days_from_civil y m 1 * 86400)
                    /\ cell_at "Year" r' = CInt y /\ cell_at "Month" r' = CInt m
                    /\ cell_at "MonthName" r'
                       = CStr (nth (Z.to_nat (m - 1)) month_names ""))
               (file_rows f) (rows out).
Proof.
  intros Hread _ He. destruct (monthly_error_none f He) as (df & Hc & Hy & Hb & Hfu).
  destruct (load_monthly_ok parse_float parse_period repr_float f df Hc Hy Hb Hfu)
    as (cs & present & _ & E).
  rewrite E. eexists. split; [reflexivity|]. unfold file_rows. rewrite Hc. cbn [rows].
  apply Forall2_map_same. intros r _ y m Hyr Hm Hs. cbn [snd] in Hs.
  assert (Hcell : exists s, cell_at "year_month" r = CStr s
                            /\ (s = period y m \/ s = period_padded y m)).
  { destruct Hs as [Hs|Hs]; eexists; (split; [exact Hs|]); [left | right]; reflexivity. }
  destruct Hcell as (s & Hcell & Hform).
  destruct (monthly_row_calendar present r s Hcell) as (H1 & H2 & H3 & H4).
  destruct (period_calendar y m s Hyr Hm Hform) as (G0 & _ & G2 & G3 & G4).
  rewrite H1, H2, H3, H4, G0. cbn [to_datetime_Ym_cell].
  rewrite (Hread y m Hyr Hm). auto.
Qed.

End MonthlyPeriods.

Lemma monthly_periods_witness :
  exists out,
    load_monthly decimal strptime_Ym repr_1dp monthly_csv = Ok out
    /\ Forall2 (fun x r' =>
                  forall y m, 1678 <= y <= 2261 -> 1 <= m <= 12 ->
                    cell_at "year_month" x.2 = CStr (period y m)
                    \/ cell_at "year_month" x.2 = CStr (period_padded y m) ->
                    cell_at "YearMonth" r' = CTime (days_from_civil y m 1 * 86400)
                    /\ cell_at "Year" r' = CInt y /\ cell_at "Month" r' = CInt m
                    /\ cell_at "MonthName" r'
                       = CStr (nth (Z.to_nat (m - 1)) month_names ""))
               (file_rows monthly_csv) (rows out).
Proof.
  apply (monthly_periods decimal strptime_Ym repr_1dp monthly_csv).
  - exact strptime_Ym_reads_periods.
  - apply sample_sources_clean. cbn. tauto.
  - vm_compute. reflexivity.
Defined.

Example monthly_periods_sample :
  match load_monthly decimal strptime_Ym repr_1dp monthly_csv with
  | Ok out => map (fun r => (cell_at "Year" r, cell_at "Month" r, cell_at "MonthName" r))
                  (rows out)
  | Raise _ => []
  end = [(CInt 2025, CInt 3, CStr "March"); (CNull, CNull, CNull)].
Proof. vm_compute. reflexivity. Qed.

(** ** Groups partition the rows *)

Lemma cell_same_sym a b : cell_same a b = cell_same b a.
Proof.
  destruct a, b; try reflexivity; unfold cell_same, cell_eq, cell_cmp; cbn [num_of];
    try (rewrite <- Qcompare_antisym; match goal with |- context [Qcompare ?x ?y] =>
           destruct (Qcompare x y) end; reflexivity).
  - rewrite (String.compare_antisym s s0). destruct (String.compare s0 s); reflexivity.
  - rewrite (Z.compare_antisym t t0). destruct (Z.compare t t0); reflexivity.
  - rewrite (Z.compare_antisym d d0). destruct (Z.compare d d0); reflexivity.
Qed.

Lemma cell_same_spec a b :
  cell_same a b = true <->
  (a = CNull /\ b = CNull) \/ (exists s, a = CStr s /\ b = CStr s)
  \/ (exists t, a = CTime t /\ b = CTime t) \/ (exists d, a = CDate d /\ b = CDate d)
  \/ (exists p q, num_of a = Some p /\ num_of b = Some q /\ (p == q)%Q).
Proof.
  split.
  - destruct a, b; unfold cell_same, cell_eq, cell_cmp; cbn [num_of]; try discriminate;
      try (intros _; left; split; reflexivity);
      try (match goal with |- context [Qcompare ?x ?y] =>
             destruct (Qcompare x y) eqn:E end; try discriminate; intros _;
           apply Qeq_alt in E; do 4 right; do 2 eexists; repeat split; exact E).
    + destruct (String.compare s s0) eqn:E; try discriminate.
      apply String.compare_eq_iff in E. subst. intros _. right. left. eauto.
    + destruct (Z.compare t t0) eqn:E; try discriminate.
      apply Z.compare_eq in E. subst. intros _. do 2 right. left. eauto.
    + destruct (Z.compare d d0) eqn:E; try discriminate.
      apply Z.compare_eq in E. subst. intros _. do 3 right. left. eauto.
  - intros [[-> ->]|[(s & -> & ->)|[(t & -> & ->)|[(d & -> & ->)|(p & q & Hp & Hq & E)]]]];
      try apply cell_same_refl.
    apply Qeq_alt in E.
    destruct a, b; cbn [num_of] in Hp, Hq; try discriminate;
      injection Hp as <-; injection Hq as <-;
      unfold cell_same, cell_eq, cell_cmp; cbn [num_of]; rewrite E; reflexivity.
Qed.

Lemma cell_same_trans a b c :
  cell_same a b = true -> cell_same b c = true -> cell_same a c = true.
Proof.
  rewrite !cell_same_spec.
  intros [[-> Hb]|[(s & -> & Hb)|[(t & -> & Hb)|[(d & -> & Hb)|(p & q & Hp & Hq & E)]]]]
         [[Hb' ->]|[(s' & Hb' & ->)|[(t' & Hb' & ->)|[(d' & Hb' & ->)|(p' & q' & Hp' & Hq' & E')]]]];
    subst; try discriminate; try (cbn [num_of] in *; discriminate).
  - left. auto.
  - injection Hb' as <-. right. left. eauto.
  - injection Hb' as <-. do 2 right. left. eauto.
  - injection Hb' as <-. do 3 right. left. eauto.
  - do 4 right. exists p, q'. rewrite Hq in Hp'. injection Hp' as <-.
    repeat split; try assumption. rewrite E. exact E'.
Qed.

Lemma unique_separated s a b :
  In a (unique s) -> In b (unique s) -> cell_same a b = true -> a = b.
Proof.
  induction s as [|c s IH]; cbn [unique]; [intros []|].
  intros [<-|Ha] [<-|Hb] Hab; [reflexivity | | |].
  - apply List.filter_In in Hb. destruct Hb as [_ Hb].
    rewrite cell_same_sym, Hab in Hb. discriminate.
  - apply List.filter_In in Ha. destruct Ha as [_ Ha]. rewrite Hab in Ha. discriminate.
  - apply List.filter_In in Ha, Hb. apply IH; tauto.
Qed.

Lemma unique_covers s c : In c s -> exists k, In k (unique s) /\ cell_same c k = true.
Proof.
  induction s as [|a s IH]; [intros []|]. cbn [unique].
  intros [->|Hc]; [exists c; split; [left; reflexivity | apply cell_same_refl]|].
  destruct (IH Hc) as (k & Hk & Hck).
  destruct (cell_same k a) eqn:E.
  - exists a. split; [left; reflexivity|]. eapply cell_same_trans; eassumption.
  - exists k. split; [|exact Hck]. right. apply List.filter_In. rewrite E. tauto.
Qed.

Lemma filter_or_length {A} (p q : A -> bool) l :
  (forall x, In x l -> p x = true -> q x = false) ->
  length (List.filter (fun x => p x || q x) l)
  = (length (List.filter p l) + length (List.filter q l))%nat.
Proof.
  induction l as [|x l IH]; intros H; [reflexivity|]. cbn [List.filter].
  assert (IH' := IH (fun y Hy => H y (or_intror Hy))).
  destruct (p x) eqn:Ep; cbn [orb].
  - rewrite (H x (or_introl eq_refl) Ep). cbn [length]. rewrite IH'. lia.
  - destruct (q x); cbn [length]; rewrite IH'; lia.
Qed.

Lemma list_sum_cons x l : list_sum (x :: l) = (x + list_sum l)%nat.
Proof. reflexivity. Qed.

Lemma group_sizes_total {A} (κ : A -> cell) (l : list A) (U : list cell) :
  List.NoDup U ->
  (forall a b, In a U -> In b U -> cell_same a b = true -> a = b) ->
  list_sum (map (fun k => length (List.filter (fun r => cell_same (κ r) k) l)) U)
  = length (List.filter (fun r => existsb (cell_same (κ r)) U) l).
Proof.
  induction U as [|k U IH]; intros Hnd Hsep.
  - cbn [map list_sum existsb]. rewrite filter_none; [reflexivity | reflexivity].
  - cbn [map existsb]. rewrite list_sum_cons. inversion Hnd as [|k' U' Hk HU]; subst.
    rewrite IH; [|exact HU | intros a b Ha Hb; apply Hsep; right; assumption].
    symmetry. apply filter_or_length.
    intros r _ Hrk. destruct (existsb (cell_same (κ r)) U) eqn:E; [|reflexivity].
    apply existsb_exists in E. destruct E as (k2 & Hk2 & Hrk2).
    exfalso. apply Hk.
    assert (k = k2).
    { apply Hsep; [left; reflexivity | right; exact Hk2|].
      eapply cell_same_trans; [|exact Hrk2]. rewrite cell_same_sym. exact Hrk. }
    subst. exact Hk2.
Qed.

Lemma cell_same_null_l k : cell_same CNull k = true -> k = CNull.
Proof. destruct k; try discriminate. reflexivity. Qed.

Lemma group_keys_cover ks c :
  In c ks -> existsb (cell_same c) (group_keys ks) = negb (isna c).
Proof.
  intros Hc. destruct (isna c) eqn:En; cbn [negb].
  - destruct c; try discriminate.
    destruct (existsb (cell_same CNull) (group_keys ks)) eqn:E; [|reflexivity].
    apply existsb_exists in E. destruct E as (k & Hk & Hs).
    apply cell_same_null_l in Hs. subst. apply In_group_keys in Hk. tauto.
  - apply existsb_exists.
    destruct (unique_covers (series_dropna ks) c) as (k & Hk & Hs).
    { unfold series_dropna. apply List.filter_In. rewrite En. tauto. }
    exists k. split; [|exact Hs]. unfold group_keys. apply In_sort_by. exact Hk.
Qed.

Lemma group_keys_separated ks a b :
  In a (group_keys ks) -> In b (group_keys ks) -> cell_same a b = true -> a = b.
Proof.
  unfold group_keys. rewrite !In_sort_by. apply unique_separated.
Qed.

Lemma group_sizes_partition {A} (κ : A -> cell) (l l' : list A) :
  (forall r, In r l' -> In r l) ->
  list_sum (map (fun k => length (List.filter (fun r => cell_same (κ r) k) l'))
                (group_keys (map κ l)))
  = length (List.filter (fun r => negb (isna (κ r))) l').
Proof.
  intros Hsub.
  rewrite group_sizes_total; [|apply group_keys_NoDup | apply group_keys_separated].
  f_equal. apply List.filter_ext_in. intros r Hr. apply group_keys_cover.
  apply in_map. apply Hsub. exact Hr.
Qed.

Lemma list_sum_perm l l' : Permutation l l' -> list_sum l = list_sum l'.
Proof. induction 1; rewrite ?list_sum_cons; lia. Qed.

(** ** Band composition *)

Lemma sort_values_ok df c :
  c ∈ columns df ->
  exists rs, sort_values df c = Ok (DataFrame (columns df) rs) /\ Permutation rs (rows df).
Proof.
  intros Hc. unfold sort_values. rewrite (getitem_ok _ _ Hc). cbn [rbind].
  eexists. split; [reflexivity|]. apply sort_by_perm.
Qed.

Lemma group_count_length df key val k :
  series_count (group_values df key val k)
  = CInt (Z.of_nat (length (List.filter
             (fun r => cell_same (cell_at key r) k && negb (isna (cell_at val r)))
             (rows df)))).
Proof.
  unfold series_count, series_size, series_dropna, group_values. do 2 f_equal.
  rewrite <- filter_filter.
  induction (List.filter (fun r => cell_same (cell_at key r) k) (rows df)) as [|r l IH];
    [reflexivity|].
  cbn [map List.filter]. destruct (negb (isna (cell_at val r))); cbn [length]; rewrite IH;
    reflexivity.
Qed.

(** X20.  The band composition counts every row of the view once: the
    counts of the bands add up to the number of rows that have a band
    and a BMU, no band is listed twice, and the count of a band is
    the number of rows of the view in that band. *)
Theorem band_counts_total view :
  "ErrorBand" ∈ columns view -> "BMU" ∈ columns view ->
  exists out counts,
    band_counts view = Ok out
    /\ map (cell_at "Count") (rows out) = map (fun n => CInt (Z.of_nat n)) counts
    /\ list_sum counts
       = length (List.filter (fun r => negb (isna (cell_at "ErrorBand" r))
                                       && negb (isna (cell_at "BMU" r))) (rows view))
    /\ List.NoDup (map (cell_at "ErrorBand") (rows out))
    /\ (forall o, In o (rows out) ->
          cell_at "Count" o
          = CInt (Z.of_nat (length (List.filter
                (fun r => cell_same (cell_at "ErrorBand" r) (cell_at "ErrorBand" o)
                          && negb (isna (cell_at "BMU" r))) (rows view))))).
Proof.
  intros He Hb. unfold band_counts. rewrite (groupby_agg_ok _ _ _ _ _ He Hb). cbn [rbind].
  set (keys := group_keys (map (cell_at "ErrorBand") (rows view))).
  set (mk := fun k => <["Count" := series_count (group_values view "ErrorBand" "BMU" k)]>
                        ({["ErrorBand" := k]} : gmap string cell)).
  set (count := fun k => length (List.filter
                  (fun r => cell_same (cell_at "ErrorBand" r) k
                            && negb (isna (cell_at "BMU" r))) (rows view))).
  assert (Hkey : forall k, cell_at "ErrorBand" (mk k) = k).
  { intros k. unfold mk. rewrite cell_at_insert_ne by discriminate. apply cell_at_singleton. }
  assert (Hcount : forall k, cell_at "Count" (mk k) = CInt (Z.of_nat (count k))).
  { intros k. unfold mk. rewrite cell_at_insert_eq. apply group_count_length. }
  destruct (sort_values_ok (DataFrame ["ErrorBand"; "Count"] (map mk keys)) "ErrorBand")
    as (rs & E & Hperm); [col_in|].
  rewrite E. cbn [rows] in Hperm.
  exists (DataFrame ["ErrorBand"; "Count"] rs),
         (map (fun o => count (cell_at "ErrorBand" o)) rs).
  split; [reflexivity|]. cbn [rows].
  assert (Hrow : forall o, In o rs -> exists k, In k keys /\ o = mk k).
  { intros o Ho. apply (Permutation_in _ Hperm) in Ho. apply in_map_iff in Ho.
    destruct Ho as (k & <- & Hk). eauto. }
  split; [|split; [|split]].
  - rewrite map_map. apply map_ext_in. intros o Ho.
    destruct (Hrow o Ho) as (k & _ & ->). rewrite Hkey. apply Hcount.
  - rewrite (list_sum_perm _ (map (fun o => count (cell_at "ErrorBand" o)) (map mk keys)))
      by (apply Permutation_map; exact Hperm).
    rewrite map_map.
    rewrite (map_ext _ count) by (intros k; rewrite Hkey; reflexivity).
    unfold count, keys.
    rewrite (List.filter_ext _ (fun r => negb (isna (cell_at "BMU" r))
                                         && negb (isna (cell_at "ErrorBand" r))))
      by (intros r; apply andb_comm).
    rewrite <- (filter_filter (fun r => negb (isna (cell_at "BMU" r)))).
    rewrite <- (group_sizes_partition (cell_at "ErrorBand") (rows view)
                  (List.filter (fun r => negb (isna (cell_at "BMU" r))) (rows view))).
    + f_equal. apply map_ext. intros k. rewrite filter_filter. f_equal.
      apply List.filter_ext. intros r. apply andb_comm.
    + intros r Hr. apply List.filter_In in Hr. tauto.
  - eapply Permutation_NoDup; [apply Permutation_map; symmetry; exact Hperm|].
    rewrite map_map. rewrite (map_ext _ (fun k => k)) by exact Hkey. rewrite map_id.
    apply group_keys_NoDup.
  - intros o Ho. destruct (Hrow o Ho) as (k & _ & ->). rewrite Hkey. apply Hcount.
Qed.

Lemma band_counts_total_witness :
  exists out counts,
    band_counts (DataFrame ["BMU"; "ErrorBand"]
                   [ {[ "BMU" := CStr "E1"; "ErrorBand" := CStr "2-4%" ]};
                     {[ "BMU" := CStr "E2"; "ErrorBand" := CStr "0-1%" ]};
                     {[ "BMU" := CStr "E3"; "ErrorBand" := CStr "2-4%" ]} ]) = Ok out
    /\ map (cell_at "Count") (rows out) = map (fun n => CInt (Z.of_nat n)) counts
    /\ list_sum counts = 3%nat
    /\ List.NoDup (map (cell_at "ErrorBand") (rows out)).
Proof.
  destruct (band_counts_total
              (DataFrame ["BMU"; "ErrorBand"]
                 [ {[ "BMU" := CStr "E1"; "ErrorBand" := CStr "2-4%" ]};
                   {[ "BMU" := CStr "E2"; "ErrorBand" := CStr "0-1%" ]};
                   {[ "BMU" := CStr "E3"; "ErrorBand" := CStr "2-4%" ]} ]))
    as (out & counts & E & Hc & Hsum & Hnd & _); [col_in | col_in |].
  exists out, counts. split; [exact E|]. split; [exact Hc|]. split; [exact Hsum | exact Hnd].
Defined.

Example band_counts_sample :
  band_count_rows (band_counts (DataFrame ["BMU"; "ErrorBand"]
                   [ {[ "BMU" := CStr "E1"; "ErrorBand" := CStr "2-4%" ]};
                     {[ "BMU" := CStr "E2"; "ErrorBand" := CStr "0-1%" ]};
                     {[ "BMU" := CStr "E3"; "ErrorBand" := CStr "2-4%" ]} ]))
  = [(CStr "0-1%", CInt 1); (CStr "2-4%", CInt 2)].
Proof. vm_compute. reflexivity. Qed.

(** ** The fuel selector *)

Lemma cell_eq_refl c : isna c = false -> cell_eq c c = true.
Proof.
  intros Hc. pose proof (cell_same_refl c) as H. destruct c; try discriminate; exact H.
Qed.

(** X21.  A fuel offered by the selector always has rows: the table of the
    selected fuel is never empty, so the guard that stops the page on
    an empty table cannot fire for an offered fuel; and every fuel of
    the annual table that is not null is offered. *)
Theorem offered_fuel_has_rows df_annual :
  "Fuel" ∈ columns df_annual ->
  exists options,
    ALL_FUELS df_annual = Ok options
    /\ (forall selected_fuel, In selected_fuel options ->
          exists out,
            fuel_df_annual df_annual selected_fuel = Ok out
            /\ df_empty out = false
            /\ forall r, In r (rows out) <->
                 In r (rows df_annual) /\ cell_eq (cell_at "Fuel" r) selected_fuel = true)
    /\ (forall r, In r (rows df_annual) -> isna (cell_at "Fuel" r) = false ->
          exists f, In f options /\ cell_eq (cell_at "Fuel" r) f = true).
Proof.
  intros Hf. unfold ALL_FUELS, sorted_options. rewrite (getitem_ok _ _ Hf). cbn [rbind].
  eexists. split; [reflexivity|]. split.
  - intros f Hin. apply In_sort_by, In_unique in Hin.
    unfold series_dropna in Hin. apply List.filter_In in Hin. destruct Hin as [Hin Hn].
    apply in_map_iff in Hin. destruct Hin as (r & Hr & Hrin).
    unfold fuel_df_annual. rewrite (getitem_ok _ _ Hf). cbn [rbind].
    unfold series_eq. rewrite map_map.
    rewrite (getitem_mask_map df_annual (fun r => cell_eq (cell_at "Fuel" r) f)).
    eexists. split; [reflexivity|]. split.
    + unfold df_empty. cbn [columns rows].
      destruct (columns df_annual) as [|c cs] eqn:Ec.
      { apply elem_of_nil in Hf. destruct Hf. }
      destruct (List.filter _ (rows df_annual)) as [|x l] eqn:El; [|reflexivity].
      exfalso.
      pose proof (proj1 (filter_nil_iff _ _) El r Hrin) as Hfalse. cbv beta in Hfalse.
      rewrite Hr, cell_eq_refl in Hfalse; [discriminate|].
      apply negb_true_iff in Hn. exact Hn.
    + intros r0. cbn [rows]. apply List.filter_In.
  - intros r Hr Hn.
    destruct (unique_covers (series_dropna (map (cell_at "Fuel") (rows df_annual)))
                (cell_at "Fuel" r)) as (k & Hk & Hs).
    { unfold series_dropna. apply List.filter_In. rewrite Hn. split; [|reflexivity].
      apply in_map. exact Hr. }
    exists k. split; [apply In_sort_by; exact Hk|].
    destruct (cell_at "Fuel" r); try discriminate; exact Hs.
Qed.

Lemma offered_fuel_has_rows_witness :
  exists options,
    ALL_FUELS annual_sample = Ok options
    /\ (forall selected_fuel, In selected_fuel options ->
          exists out,
            fuel_df_annual annual_sample selected_fuel = Ok out
            /\ df_empty out = false
            /\ forall r, In r (rows out) <->
                 In r (rows annual_sample) /\ cell_eq (cell_at "Fuel" r) selected_fuel = true)
    /\ (forall r, In r (rows annual_sample) -> isna (cell_at "Fuel" r) = false ->
          exists f, In f options /\ cell_eq (cell_at "Fuel" r) f = true).
Proof. apply (offered_fuel_has_rows annual_sample). col_in. Defined.

(** ** Utilization breakdown *)

Example labels_check :
  nth 0 labels "" = "0 to 50 MW" /\ nth 13 labels "" = "650 to 700 MW"
  /\ nth 39 labels "" = "1950 to 2000 MW" /\ length labels = 40%nat.
Proof. vm_compute. repeat split; reflexivity. Qed.

Example pd_cut_check :
  map (pd_cut bins) [CInt 0; CInt 50; CNum (101 # 2); CInt 2000; CInt 2001; CInt (-1); CNull]
  = [Ok (CInt 0); Ok (CInt 0); Ok (CInt 1); Ok (CInt 39); Ok CNull; Ok CNull; Ok CNull].
Proof. vm_compute. reflexivity. Qed.

Lemma cell_lt_int_l (b : Z) c q :
  num_of c = Some q -> cell_lt (CInt b) c = true <-> (inject_Z b < q)%Q.
Proof.
  intros Hq. unfold cell_lt.
  assert (E : cell_cmp (CInt b) c = Some (Qcompare (inject_Z b) q)).
  { destruct c; cbn [num_of] in Hq; try discriminate; injection Hq as <-; reflexivity. }
  rewrite E. destruct (Qcompare_spec (inject_Z b) q) as [H|H|H]; split; intros; try discriminate;
    try reflexivity; try lra.
Qed.

Lemma edges_below q n :
  length (List.filter (fun i => negb (Qle_bool q (inject_Z (50 * Z.of_nat i)))) (seq 0 n))
  = Nat.min n (Z.to_nat (Qceiling (q / 50))).
Proof.
  induction n as [|n IH]; [reflexivity|].
  rewrite seq_S, List.filter_app, length_app, IH. cbn [List.filter Nat.add].
  pose proof (Qle_ceiling (q / 50)) as Hc1. pose proof (Qceiling_lt (q / 50)) as Hc2.
  set (K := Qceiling (q / 50)) in *.
  replace (K - 1) with (K + - (1)) in Hc2 by lia.
  rewrite inject_Z_plus, inject_Z_opp in Hc2. change (inject_Z 1) with 1%Q in Hc2.
  assert (Hdiv : (q == 50 * (q / 50))%Q) by (field).
  assert (Hn : (inject_Z (50 * Z.of_nat n) == 50 * inject_Z (Z.of_nat n))%Q).
  { rewrite inject_Z_mult. reflexivity. }
  destruct (Qle_bool q (inject_Z (50 * Z.of_nat n))) eqn:E.
  - apply Qle_bool_iff in E. cbn [negb length].
    assert (HK : K <= Z.of_nat n).
    { apply Z.lt_succ_r. rewrite Zlt_Qlt. unfold Z.succ. rewrite inject_Z_plus.
      change (inject_Z 1) with 1%Q. lra. }
    lia.
  - assert (E' : ~ (q <= inject_Z (50 * Z.of_nat n))%Q).
    { intros H. apply Qle_bool_iff in H. congruence. }
    cbn [negb length].
    assert (HK : Z.of_nat n < K).
    { rewrite Zlt_Qlt. lra. }
    lia.
Qed.

Lemma cell_same_int_iff a k : cell_same (CInt a) (CInt k) = true <-> a = k.
Proof.
  unfold cell_same, cell_eq, cell_cmp. cbn [num_of].
  destruct (Qcompare_spec (inject_Z a) (inject_Z k)) as [H|H|H]; split; intros E;
    try discriminate; try reflexivity.
  - apply inject_Z_injective. exact H.
  - subst. lra.
  - subst. lra.
Qed.

Lemma on_scale_num c q :
  num_of c = Some q -> on_scale c = true <-> (0 <= q)%Q /\ (q <= 2000)%Q.
Proof.
  intros Hq. unfold on_scale, cell_ge, cell_le. rewrite !(cell_cmp_num _ _ _ Hq).
  change (inject_Z 0) with 0%Q. change (inject_Z 2000) with 2000%Q.
  destruct (Qcompare_spec q 0) as [H0|H0|H0];
    destruct (Qcompare_spec q 2000) as [H1|H1|H1]; cbn [andb]; split;
    intros H; try discriminate; try reflexivity; try lra; split; lra.
Qed.

Lemma in_bin_num k c q :
  num_of c = Some q -> 0 <= k ->
  in_bin k c = true <->
  ((50 * inject_Z k < q)%Q /\ (q <= 50 * inject_Z k + 50)%Q) \/ (k = 0 /\ (q == 0)%Q).
Proof.
  intros Hq Hk. unfold in_bin. rewrite Hq.
  assert (Ha : (inject_Z (50 * k) == 50 * inject_Z k)%Q) by (rewrite inject_Z_mult; reflexivity).
  assert (Hb : (inject_Z (50 * (k + 1)) == 50 * inject_Z k + 50)%Q).
  { rewrite inject_Z_mult, inject_Z_plus. change (inject_Z 50) with 50%Q.
    change (inject_Z 1) with 1%Q. ring. }
  assert (Hk' : (0 <= inject_Z k)%Q).
  { change 0%Q with (inject_Z 0). rewrite <- Zle_Qle. exact Hk. }
  destruct (Qcompare_spec (inject_Z (50 * k)) q) as [H1|H1|H1].
  - split.
    + intros E. apply Z.eqb_eq in E. right. split; [exact E|]. subst k.
      rewrite <- H1. reflexivity.
    + intros [[H _]|[-> _]]; [exfalso; lra | reflexivity].
  - destruct (Qcompare_spec q (inject_Z (50 * (k + 1)))) as [H2|H2|H2]; split; intros H;
      try reflexivity; try discriminate; try (left; split; lra).
    destruct H as [[_ H]|[-> H]]; exfalso; [lra|].
    change (inject_Z (50 * 0)) with 0%Q in H1. lra.
  - split; [discriminate|]. intros [[H _]|[-> H]]; exfalso; [lra|].
    change (inject_Z (50 * 0)) with 0%Q in H1. lra.
Qed.

Lemma pd_cut_ids c q :
  num_of c = Some q ->
  length (List.filter (fun b => cell_lt (CInt b) c) bins)
  = Nat.min 41 (Z.to_nat (Qceiling (q / 50))).
Proof.
  intros Hq. unfold bins. rewrite filter_map_comm, length_map.
  rewrite <- edges_below. f_equal. apply List.filter_ext. intros i.
  destruct (Qle_bool q (inject_Z (50 * Z.of_nat i))) eqn:E; cbn [negb].
  - apply Qle_bool_iff in E.
    destruct (cell_lt (CInt (50 * Z.of_nat i)) c) eqn:E'; [|reflexivity].
    apply (cell_lt_int_l _ _ _ Hq) in E'. exfalso. lra.
  - apply (cell_lt_int_l _ _ _ Hq).
    destruct (Qlt_le_dec (inject_Z (50 * Z.of_nat i)) q) as [H|H]; [exact H|].
    apply Qle_bool_iff in H. congruence.
Qed.

Lemma pd_cut_numeric c q :
  num_of c = Some q ->
  exists code,
    pd_cut bins c = Ok code
    /\ isna code = negb (on_scale c)
    /\ (forall k, 0 <= k < 40 -> cell_same code (CInt k) = in_bin k c)
    /\ (forall k, code = CInt k -> 0 <= k < 40).
Proof.
  intros Hq.
  assert (Hna : isna c = false) by (destruct c; try reflexivity; discriminate).
  unfold pd_cut. rewrite Hna, Hq. change (hd 0 bins) with 0. change (length bins) with 41%nat.
  rewrite (pd_cut_ids _ _ Hq).
  pose proof (Qle_ceiling (q / 50)) as Hc1. pose proof (Qceiling_lt (q / 50)) as Hc2.
  set (K := Qceiling (q / 50)) in *.
  replace (K - 1) with (K + - (1)) in Hc2 by lia.
  rewrite inject_Z_plus, inject_Z_opp in Hc2. change (inject_Z 1) with 1%Q in Hc2.
  assert (Hdiv : (q == 50 * (q / 50))%Q) by field.
  assert (Hup : (q <= 50 * inject_Z K)%Q) by lra.
  assert (Hlow : (50 * inject_Z K - 50 < q)%Q) by lra.
  clear Hc1 Hc2 Hdiv.
  assert (Hscale := on_scale_num c q Hq).
  assert (Hzero : cell_eq c (CInt 0) = true <-> (q == 0)%Q).
  { unfold cell_eq. rewrite (cell_cmp_num _ _ _ Hq). change (inject_Z 0) with 0%Q.
    destruct (Qcompare_spec q 0) as [H|H|H]; split; intros; try discriminate;
      try reflexivity; try assumption; exfalso; lra. }
  assert (Hbool : forall (a b : bool), (a = true <-> b = true) -> a = b).
  { intros [] [] [H1 H2]; try reflexivity; [symmetry; apply H1 | apply H2]; reflexivity. }
  assert (HKpos : forall z, (inject_Z z < inject_Z K)%Q -> z < K).
  { intros z H. rewrite Zlt_Qlt. exact H. }
  assert (HKle : forall z, (inject_Z K <= inject_Z z)%Q -> K <= z).
  { intros z H. rewrite Zle_Qle. exact H. }
  destruct (cell_eq c (CInt 0)) eqn:E0.
  - (* the lowest edge *)
    assert (Hq0 : (q == 0)%Q) by (apply Hzero; reflexivity).
    cbn [Nat.eqb orb]. exists (CInt 0). split; [reflexivity|]. split; [|split].
    + cbn [isna]. symmetry. apply negb_false_iff. apply Hscale. lra.
    + intros k Hk. apply Hbool. rewrite cell_same_int_iff, (in_bin_num k c q Hq) by lia.
      split.
      * intros <-. right. split; [reflexivity | exact Hq0].
      * intros [[H _]|[-> _]]; [|reflexivity].
        assert (0 <= inject_Z k)%Q by (change 0%Q with (inject_Z 0); rewrite <- Zle_Qle; lia).
        exfalso. lra.
    + intros k [= <-]. lia.
  - assert (Hq0 : ~ (q == 0)%Q) by (intros H; apply Hzero in H; congruence).
    destruct (Qlt_le_dec q 0) as [Hneg|Hpos].
    + (* below the scale *)
      assert (HK0 : K <= 0).
      { assert (K < 1); [|lia]. rewrite Zlt_Qlt. change (inject_Z 1) with 1%Q. lra. }
      replace (Z.to_nat K) with 0%nat by lia. cbn [Nat.min Nat.eqb orb].
      exists CNull. split; [reflexivity|]. split; [|split].
      * cbn [isna]. symmetry. apply negb_true_iff.
        destruct (on_scale c) eqn:Es; [|reflexivity].
        destruct (proj1 Hscale eq_refl). exfalso. lra.
      * intros k Hk. apply Hbool. rewrite (in_bin_num k c q Hq) by lia.
        assert (0 <= inject_Z k)%Q by (change 0%Q with (inject_Z 0); rewrite <- Zle_Qle; lia).
        split; [discriminate|]. intros [[H1 _]|[_ H1]]; exfalso; [lra | exact (Hq0 H1)].
      * discriminate.
    + assert (HK1 : 1 <= K).
      { apply Z.lt_succ_r in HKpos || idtac.
        assert (0 < K); [|lia]. apply HKpos. change (inject_Z 0) with 0%Q. lra. }
      destruct (Z_le_gt_dec K 40) as [Hin|Hout].
      * (* on the scale *)
        replace (Nat.min 41 (Z.to_nat K)) with (Z.to_nat K) by lia.
        replace (Nat.eqb (Z.to_nat K) 0) with false by (symmetry; apply Nat.eqb_neq; lia).
        replace (Nat.eqb (Z.to_nat K) 41) with false by (symmetry; apply Nat.eqb_neq; lia).
        cbn [orb]. exists (CInt (Z.of_nat (Z.to_nat K) - 1)).
        split; [reflexivity|]. rewrite Z2Nat.id by lia.
        assert (HK40 : (inject_Z K <= 40)%Q).
        { change 40%Q with (inject_Z 40). rewrite <- Zle_Qle. exact Hin. }
        split; [|split].
        -- cbn [isna]. symmetry. apply negb_false_iff. apply Hscale. split; lra.
        -- intros k Hk. apply Hbool.
           rewrite cell_same_int_iff, (in_bin_num k c q Hq) by lia. split.
           ++ intros <-. left.
              replace (K - 1) with (K + - (1)) by lia.
              rewrite inject_Z_plus, inject_Z_opp. change (inject_Z 1) with 1%Q. split; lra.
           ++ intros [[H1 H2]|[_ H1]]; [|exfalso; exact (Hq0 H1)].
              assert (k < K) by (apply HKpos; lra).
              assert (K < k + 2).
              { rewrite Zlt_Qlt, inject_Z_plus. change (inject_Z 2) with 2%Q. lra. }
              lia.
        -- intros k [= <-]. lia.
      * (* beyond the scale *)
        replace (Nat.min 41 (Z.to_nat K)) with 41%nat by lia. cbn [Nat.eqb orb].
        exists CNull. split; [reflexivity|].
        assert (HK41 : (41 <= inject_Z K)%Q).
        { change 41%Q with (inject_Z 41). rewrite <- Zle_Qle. lia. }
        split; [|split].
        -- cbn [isna]. symmetry. apply negb_true_iff.
           destruct (on_scale c) eqn:Es; [|reflexivity].
        destruct (proj1 Hscale eq_refl). exfalso. lra.
        -- intros k Hk. apply Hbool. rewrite (in_bin_num k c q Hq) by lia.
           assert (inject_Z k <= 39)%Q
             by (change 39%Q with (inject_Z 39); rewrite <- Zle_Qle; lia).
           split; [discriminate|]. intros [[_ H1]|[_ H1]]; exfalso; [lra | exact (Hq0 H1)].
        -- discriminate.
Qed.

Lemma cut_code_spec c :
  isna c = true \/ (exists q, num_of c = Some q) ->
  pd_cut bins c = Ok (cut_code c)
  /\ isna (cut_code c) = negb (on_scale c)
  /\ (forall k, 0 <= k < 40 -> cell_same (cut_code c) (CInt k) = in_bin k c)
  /\ (forall k, cut_code c = CInt k -> 0 <= k < 40)
  /\ (cut_code c = CNull \/ exists k, cut_code c = CInt k).
Proof.
  intros [Hn|(q & Hq)].
  - destruct c; try discriminate.
    assert (E : pd_cut bins CNull = Ok CNull) by reflexivity.
    unfold cut_code. rewrite E.
    split; [reflexivity|]. split; [reflexivity|]. split; [intros k _; reflexivity|].
    split; [discriminate | left; reflexivity].
  - destruct (pd_cut_numeric c q Hq) as (code & E & H1 & H2 & H3).
    assert (Hform : code = CNull \/ exists k, code = CInt k).
    { destruct code as [| |k| | | |]; try (left; reflexivity); try (right; eexists; reflexivity);
        exfalso; revert E; unfold pd_cut; (destruct (isna c); [discriminate|]); rewrite Hq;
        match goal with |- context [if ?b then Ok CNull else _] => destruct b end;
        discriminate. }
    unfold cut_code. rewrite E.
    split; [reflexivity|]. split; [exact H1|]. split; [exact H2|]. split; [exact H3|].
    exact Hform.
Qed.

Lemma filter_map_length {A B} (f : A -> B) (p : B -> bool) l :
  length (List.filter p (map f l)) = length (List.filter (fun x => p (f x)) l).
Proof. rewrite filter_map_comm. apply length_map. Qed.

(** X22.  The utilization breakdown counts the hours on its scale, each
    once: the counts add up to the number of rows whose volume lies
    from 0 to 2000 MW, so that an hour above 2000 MW, or with a
    negative volume, is in no line of the table; every line is one of
    the forty intervals, holds at least one hour, and counts the rows
    whose volume is above the lower edge of its interval and at most
    its upper edge (the first interval takes 0 as well). *)
Theorem utilization_breakdown filtered_fact :
  "Trade_Abs_MW" ∈ columns filtered_fact ->
  (forall r, In r (rows filtered_fact) ->
     isna (cell_at "Trade_Abs_MW" r) = true
     \/ exists q, num_of (cell_at "Trade_Abs_MW" r) = Some q) ->
  exists out counts,
    stats filtered_fact = Ok out
    /\ map (cell_at "Hour Count") (rows out) = map (fun n => CInt (Z.of_nat n)) counts
    /\ list_sum counts
       = length (List.filter (fun r => on_scale (cell_at "Trade_Abs_MW" r))
                             (rows filtered_fact))
    /\ (forall o, In o (rows out) ->
          exists k n,
            0 <= k < 40 /\ (1 <= n)%nat
            /\ cell_at "MW Range" o = CStr (nth (Z.to_nat k) labels "")
            /\ cell_at "Hour Count" o = CInt (Z.of_nat n)
            /\ n = length (List.filter (fun r => in_bin k (cell_at "Trade_Abs_MW" r))
                                       (rows filtered_fact))).
Proof.
  intros Ht Hnum. unfold stats. rewrite (getitem_ok _ _ Ht). cbn [rbind].
  set (κ := fun r : gmap string cell => cut_code (cell_at "Trade_Abs_MW" r)).
  rewrite (rmap_ok _ cut_code).
  2:{ intros c Hc. apply in_map_iff in Hc. destruct Hc as (r & <- & Hr).
      apply cut_code_spec. apply Hnum. exact Hr. }
  cbn [rbind]. rewrite map_map.
  change (fun x : gmap string cell => cut_code (cell_at "Trade_Abs_MW" x)) with κ.
  rewrite (setitem_with_column filtered_fact "MW Range" κ).
  cbn [rbind]. unfold groupby_size.
  rewrite getitem_ok by apply in_with_column_new. cbn [rbind].
  rewrite rows_with_column, !map_map.
  rewrite (map_ext (fun r => cell_at "MW Range" (<["MW Range" := κ r]> r)) κ)
    by (intros r; apply cell_at_insert_eq).
  set (keys := group_keys (map κ (rows filtered_fact))).
  set (size := fun k => length (List.filter (fun r => cell_same (κ r) k) (rows filtered_fact))).
  assert (Hsize : forall k,
    length (List.filter (fun r => cell_same (cell_at "MW Range" r) k)
              (map (fun r => <["MW Range" := κ r]> r) (rows filtered_fact))) = size k).
  { intros k. rewrite filter_map_length. unfold size. f_equal.
    apply List.filter_ext. intros r. rewrite cell_at_insert_eq. reflexivity. }
  exists (DataFrame ["MW Range"; "Hour Count"]
            (map (fun k => <["Hour Count" := CInt (Z.of_nat (size k))]>
                             ({["MW Range" := match k with
                                              | CInt k => CStr (nth (Z.to_nat k) labels "")
                                              | _ => CNull
                                              end]} : gmap string cell)) keys)),
         (map size keys).
  split; [|split; [|split]].
  - do 2 f_equal. apply map_ext. intros k. cbn [fst snd].
    rewrite Hsize. reflexivity.
  - cbn [rows]. rewrite !map_map. apply map_ext. intros k. apply cell_at_insert_eq.
  - unfold size, keys. rewrite (group_sizes_partition κ) by auto.
    f_equal. apply List.filter_ext_in. intros r Hr. unfold κ.
    destruct (cut_code_spec _ (Hnum r Hr)) as (_ & H & _). rewrite H. apply negb_involutive.
  - cbn [rows]. intros o Ho. apply in_map_iff in Ho. destruct Ho as (key & <- & Hkey).
    unfold keys in Hkey. apply In_group_keys in Hkey. destruct Hkey as [Hin Hnn].
    apply in_map_iff in Hin. destruct Hin as (r0 & Hr0 & Hr0in).
    destruct (cut_code_spec _ (Hnum r0 Hr0in)) as (_ & _ & _ & Hrange & [Hnull|(k & Hk)]).
    { exfalso. apply Hnn. rewrite <- Hr0. exact Hnull. }
    assert (Hkeyk : key = CInt k) by (rewrite <- Hr0; exact Hk).
    rewrite Hkeyk in *. clear Hkeyk.
    specialize (Hrange k Hk).
    assert (Hsz : size (CInt k)
                  = length (List.filter (fun r => in_bin k (cell_at "Trade_Abs_MW" r))
                                        (rows filtered_fact))).
    { unfold size. f_equal. apply List.filter_ext_in. intros r Hr. unfold κ.
      destruct (cut_code_spec _ (Hnum r Hr)) as (_ & _ & H & _). apply H. exact Hrange. }
    exists k, (size (CInt k)). split; [exact Hrange|]. split; [|split; [|split]].
    + unfold size.
      assert (Hin : In r0 (List.filter (fun r => cell_same (κ r) (CInt k)) (rows filtered_fact))).
      { apply List.filter_In. split; [exact Hr0in|]. rewrite Hr0. apply cell_same_refl. }
      revert Hin. generalize (List.filter (fun r => cell_same (κ r) (CInt k))
                                         (rows filtered_fact)).
      intros [|y l] Hin; [destruct Hin | cbn [length]; lia].
    + rewrite cell_at_insert_ne by discriminate. apply cell_at_singleton.
    + apply cell_at_insert_eq.
    + exact Hsz.
Qed.

Lemma utilization_breakdown_witness :
  exists out counts,
    stats fact_trades_sample = Ok out
    /\ map (cell_at "Hour Count") (rows out) = map (fun n => CInt (Z.of_nat n)) counts
    /\ list_sum counts
       = length (List.filter (fun r => on_scale (cell_at "Trade_Abs_MW" r))
                             (rows fact_trades_sample))
    /\ (forall o, In o (rows out) ->
          exists k n,
            0 <= k < 40 /\ (1 <= n)%nat
            /\ cell_at "MW Range" o = CStr (nth (Z.to_nat k) labels "")
            /\ cell_at "Hour Count" o = CInt (Z.of_nat n)
            /\ n = length (List.filter (fun r => in_bin k (cell_at "Trade_Abs_MW" r))
                                       (rows fact_trades_sample))).
Proof.
  apply (utilization_breakdown fact_trades_sample).
  - col_in.
  - intros r Hr. simpl in Hr.
    repeat (destruct Hr as [<-|Hr]; [right; eexists; vm_compute; reflexivity|]). destruct Hr.
Defined.

(** ** Fleet figures *)

Lemma insert_by_sorted x l :
  StronglySorted Qle l -> StronglySorted Qle (insert_by Qle_bool x l).
Proof.
  induction 1 as [|y l Hl IH Hy]; cbn [insert_by].
  - constructor; constructor.
  - destruct (Qle_bool x y) eqn:E.
    + apply Qle_bool_iff in E. constructor; [constructor; assumption|].
      constructor; [exact E|].
      rewrite List.Forall_forall in Hy. apply List.Forall_forall. intros z Hz.
      specialize (Hy z Hz). lra.
    + assert (Hyx : (y <= x)%Q).
      { destruct (Qlt_le_dec y x) as [H|H]; [lra|]. apply Qle_bool_iff in H. congruence. }
      constructor; [exact IH|].
      apply List.Forall_forall. intros z Hz.
      apply (Permutation_in _ (insert_by_perm Qle_bool x l)) in Hz.
      destruct Hz as [<-|Hz]; [exact Hyx|].
      rewrite List.Forall_forall in Hy. apply Hy. exact Hz.
Qed.

Lemma sort_by_sorted xs : StronglySorted Qle (sort_by Qle_bool xs).
Proof.
  induction xs as [|x xs IH]; cbn [sort_by foldr]; [constructor|].
  apply insert_by_sorted. exact IH.
Qed.

Lemma sorted_nth l d i j :
  StronglySorted Qle l -> (i <= j < length l)%nat -> (nth i l d <= nth j l d)%Q.
Proof.
  intros Hl. revert i j. induction Hl as [|x l Hl IH Hx]; intros i j Hij; [cbn in Hij; lia|].
  destruct i as [|i], j as [|j]; cbn [nth length] in *; try lia.
  - lra.
  - rewrite List.Forall_forall in Hx. apply Hx. apply nth_In. lia.
  - apply IH. lia.
Qed.

Lemma Qfloor_unique x z :
  (inject_Z z <= x)%Q -> (x < inject_Z (z + 1))%Q -> Qfloor x = z.
Proof.
  intros H1 H2. pose proof (Qfloor_le x) as H3. pose proof (Qlt_floor x) as H4.
  assert (Qfloor x < z + 1) by (rewrite Zlt_Qlt; lra).
  assert (z < Qfloor x + 1) by (rewrite Zlt_Qlt; lra).
  lia.
Qed.

Lemma interpolation_mono (a b f g : Q) :
  (a <= b)%Q -> (f <= g)%Q -> (a + (b - a) * f <= a + (b - a) * g)%Q.
Proof. intros Hab Hfg. nra. Qed.

Lemma percentile_mono xs q1 q2 v1 v2 :
  (0 <= q1)%Q -> (q1 <= q2)%Q -> (q2 <= 100)%Q ->
  percentile xs q1 = Some v1 -> percentile xs q2 = Some v2 -> (v1 <= v2)%Q.
Proof.
  intros H0 H12 H100. unfold percentile.
  pose proof (sort_by_sorted xs) as HS.
  destruct (sort_by Qle_bool xs) as [|x0 t] eqn:Es; [discriminate|].
  set (sorted := x0 :: t) in *.
  set (n := Z.of_nat (length sorted)).
  assert (Hn : 1 <= n) by (unfold n, sorted; cbn [length]; lia).
  assert (Hn' : (1 <= inject_Z n)%Q).
  { change 1%Q with (inject_Z 1). rewrite <- Zle_Qle. exact Hn. }
  assert (Hnm : (inject_Z (n - 1) == inject_Z n - 1)%Q).
  { replace (n - 1) with (n + - (1)) by lia. rewrite inject_Z_plus, inject_Z_opp.
    change (inject_Z 1) with 1%Q. ring. }
  assert (Hidx : forall q, (0 <= q)%Q -> (q <= 100)%Q ->
            let idx := (q / 100 * (inject_Z n - 1))%Q in
            let lo := Qfloor idx in
            let hi := Z.min (lo + 1) (n - 1) in
            (0 <= idx)%Q /\ 0 <= lo <= n - 1 /\ lo <= hi <= n - 1
            /\ (0 <= idx - inject_Z lo)%Q /\ (idx - inject_Z lo <= 1)%Q).
  { intros q Hq0 Hq1. cbv zeta.
    set (idx := (q / 100 * (inject_Z n - 1))%Q).
    assert (Hi0 : (0 <= idx)%Q).
    { unfold idx. apply Qmult_le_0_compat; [|lra]. apply Qle_shift_div_l; lra. }
    assert (Hi1 : (idx <= inject_Z (n - 1))%Q).
    { rewrite Hnm. unfold idx.
      assert (Hq : (q / 100 <= 1)%Q) by (apply Qle_shift_div_r; lra).
      assert (Hz : (0 <= inject_Z n - 1)%Q) by lra. nra. }
    assert (Hl0 : 0 <= Qfloor idx).
    { rewrite <- (Qfloor_Z 0). apply Qfloor_resp_le. exact Hi0. }
    assert (Hl1 : Qfloor idx <= n - 1).
    { rewrite <- (Qfloor_Z (n - 1)). apply Qfloor_resp_le. exact Hi1. }
    pose proof (Qfloor_le idx) as Hf0. pose proof (Qlt_floor idx) as Hf1.
    rewrite inject_Z_plus in Hf1. change (inject_Z 1) with 1%Q in Hf1.
    split; [exact Hi0|]. split; [lia|]. split; [lia|]. split; lra. }
  destruct (Hidx q1 H0 ltac:(lra)) as (Hi1 & Hlo1 & Hhi1 & Hf1 & Hf1').
  destruct (Hidx q2 ltac:(lra) H100) as (Hi2 & Hlo2 & Hhi2 & Hf2 & Hf2').
  clear Hidx.
  set (idx1 := (q1 / 100 * (inject_Z n - 1))%Q) in *.
  set (idx2 := (q2 / 100 * (inject_Z n - 1))%Q) in *.
  set (lo1 := Qfloor idx1) in *. set (lo2 := Qfloor idx2) in *.
  set (hi1 := Z.min (lo1 + 1) (n - 1)) in *. set (hi2 := Z.min (lo2 + 1) (n - 1)) in *.
  intros [= <-] [= <-].
  assert (Hle : (idx1 <= idx2)%Q).
  { unfold idx1, idx2. assert (Hz : (0 <= inject_Z n - 1)%Q) by lra.
    assert (Hq : (q1 / 100 <= q2 / 100)%Q).
    { unfold Qdiv. apply Qmult_le_compat_r; [exact H12|]. vm_compute. discriminate. }
    nra. }
  assert (Hlo : lo1 <= lo2) by (apply Qfloor_resp_le; exact Hle).
  assert (Hnth : forall i j, 0 <= i -> i <= j -> j <= n - 1 ->
            (nth (Z.to_nat i) sorted x0 <= nth (Z.to_nat j) sorted x0)%Q).
  { intros i j Hi Hij Hj. apply sorted_nth; [exact HS|]. unfold n in Hj. lia. }
  set (a1 := nth (Z.to_nat lo1) sorted x0). set (b1 := nth (Z.to_nat hi1) sorted x0).
  set (a2 := nth (Z.to_nat lo2) sorted x0). set (b2 := nth (Z.to_nat hi2) sorted x0).
  assert (Hab1 : (a1 <= b1)%Q) by (apply Hnth; lia).
  assert (Hab2 : (a2 <= b2)%Q) by (apply Hnth; lia).
  destruct (interpolation_between a1 b1 (idx1 - inject_Z lo1)
              (Qred (a1 + (b1 - a1) * (idx1 - inject_Z lo1))) Hf1 Hf1' (Qred_correct _))
    as [Hv1 _].
  destruct (interpolation_between a2 b2 (idx2 - inject_Z lo2)
              (Qred (a2 + (b2 - a2) * (idx2 - inject_Z lo2))) Hf2 Hf2' (Qred_correct _))
    as [Hv2 _].
  specialize (Hv1 Hab1). specialize (Hv2 Hab2).
  destruct (Z.eq_dec lo1 lo2) as [Heq|Hne].
  - rewrite !Qred_correct. unfold a2, b2, hi2. rewrite <- Heq. fold hi1. fold a1. fold b1.
    apply interpolation_mono; [exact Hab1 | lra].
  - assert (Hb1a2 : (b1 <= a2)%Q) by (apply Hnth; lia).
    destruct Hv1 as [_ Hv1]. destruct Hv2 as [Hv2 _].
    eapply Qle_trans; [exact Hv1|]. eapply Qle_trans; [exact Hb1a2 | exact Hv2].
Qed.

Lemma median_percentile xs :
  match median xs, percentile xs 50 with
  | Some m, Some v => (m == v)%Q
  | None, None => True
  | _, _ => False
  end.
Proof.
  unfold median, percentile.
  destruct (sort_by Qle_bool xs) as [|x0 t]; [exact I|].
  set (sorted := x0 :: t).
  assert (Hlen : (1 <= length sorted)%nat) by (unfold sorted; cbn [length]; lia).
  set (n := length sorted) in *.
  assert (Hhalf : (50 / 100 == 1 # 2)%Q) by reflexivity.
  destruct (Nat.even n) eqn:Ev.
  - apply Nat.even_spec in Ev. destruct Ev as (k & Hk).
    assert (Hk1 : (1 <= k)%nat) by lia.
    assert (Hidx : (50 / 100 * (inject_Z (Z.of_nat n) - 1) == inject_Z (Z.of_nat k - 1) + (1 # 2))%Q).
    { rewrite Hhalf, Hk. rewrite Nat2Z.inj_mul. rewrite inject_Z_mult.
      replace (Z.of_nat k - 1) with (Z.of_nat k + - (1)) by lia.
      rewrite inject_Z_plus, inject_Z_opp. change (inject_Z (Z.of_nat 2)) with 2%Q.
      change (inject_Z 1) with 1%Q. ring. }
    assert (Hlo : Qfloor (50 / 100 * (inject_Z (Z.of_nat n) - 1)) = Z.of_nat k - 1).
    { apply Qfloor_unique; rewrite Hidx; [lra|].
      replace (Z.of_nat k - 1 + 1) with (Z.of_nat k - 1 + 1) by lia.
      rewrite inject_Z_plus. change (inject_Z 1) with 1%Q. lra. }
    rewrite Hlo.
    replace (Z.min (Z.of_nat k - 1 + 1) (Z.of_nat n - 1)) with (Z.of_nat k) by lia.
    replace (Z.to_nat (Z.of_nat k - 1)) with (n / 2 - 1)%nat
      by (rewrite Hk, (Nat.mul_comm 2 k), Nat.div_mul by lia; lia).
    replace (Z.to_nat (Z.of_nat k)) with (n / 2)%nat
      by (rewrite Hk, (Nat.mul_comm 2 k), Nat.div_mul by lia; lia).
    rewrite !Qred_correct, Hidx. field.
  - assert (Hodd : Nat.odd n = true) by (rewrite <- Nat.negb_even, Ev; reflexivity).
    apply Nat.odd_spec in Hodd. destruct Hodd as (k & Hk).
    assert (Hidx : (50 / 100 * (inject_Z (Z.of_nat n) - 1) == inject_Z (Z.of_nat k))%Q).
    { rewrite Hhalf, Hk. rewrite Nat2Z.inj_add, Nat2Z.inj_mul.
      rewrite inject_Z_plus, inject_Z_mult. change (inject_Z (Z.of_nat 2)) with 2%Q.
      change (inject_Z (Z.of_nat 1)) with 1%Q. ring. }
    assert (Hlo : Qfloor (50 / 100 * (inject_Z (Z.of_nat n) - 1)) = Z.of_nat k).
    { rewrite (Qfloor_comp _ _ Hidx). apply Qfloor_Z. }
    rewrite Hlo.
    replace (Z.to_nat (Z.of_nat k)) with (n / 2)%nat.
    2:{ rewrite Hk. rewrite Nat2Z.id. symmetry.
        apply (Nat.div_unique (2 * k + 1) 2 k 1); lia. }
    rewrite !Qred_correct, Hidx. ring.
Qed.

Lemma cell_cmp_nums a b p q :
  num_of a = Some p -> num_of b = Some q -> cell_cmp a b = Some (Qcompare p q).
Proof.
  intros Ha Hb. destruct a; cbn [num_of] in Ha; try discriminate; injection Ha as <-;
    destruct b; cbn [num_of] in Hb; try discriminate; injection Hb as <-; reflexivity.
Qed.

Lemma fold_max_nums t c0 :
  (forall c, In c (c0 :: t) -> exists q, num_of c = Some q) ->
  exists qm,
    num_of (fold_left (fun m x => if cell_gt x m then x else m) t c0) = Some qm
    /\ forall c q, In c (c0 :: t) -> num_of c = Some q -> (q <= qm)%Q.
Proof.
  revert c0. induction t as [|x t IH]; intros c0 Hnum.
  - destruct (Hnum c0 (or_introl eq_refl)) as (q0 & Hq0). exists q0. split; [exact Hq0|].
    intros c q [<-|[]] Hq. rewrite Hq0 in Hq. injection Hq as <-. lra.
  - cbn [fold_left].
    destruct (Hnum c0 (or_introl eq_refl)) as (q0 & Hq0).
    destruct (Hnum x (or_intror (or_introl eq_refl))) as (qx & Hqx).
    assert (Hgt : cell_gt x c0 = true <-> (q0 < qx)%Q).
    { unfold cell_gt. rewrite (cell_cmp_nums _ _ _ _ Hqx Hq0).
      destruct (Qcompare_spec qx q0) as [H|H|H]; split; intros; try discriminate;
        try reflexivity; lra. }
    destruct (cell_gt x c0) eqn:E.
    + destruct (IH x) as (qm & Hm & Hall).
      { intros c [<-|Hc]; [eauto | apply Hnum; right; right; exact Hc]. }
      exists qm. split; [exact Hm|].
      intros c q [<-|[<-|Hc]] Hq.
      * rewrite Hq0 in Hq. injection Hq as <-.
        assert (q0 < qx)%Q by (apply Hgt; reflexivity).
        specialize (Hall x qx (or_introl eq_refl) Hqx). lra.
      * apply (Hall x); [left; reflexivity | exact Hq].
      * apply (Hall c); [right; exact Hc | exact Hq].
    + destruct (IH c0) as (qm & Hm & Hall).
      { intros c [<-|Hc]; [eauto | apply Hnum; right; right; exact Hc]. }
      exists qm. split; [exact Hm|].
      intros c q [<-|[<-|Hc]] Hq.
      * apply (Hall c0); [left; reflexivity | exact Hq].
      * rewrite Hqx in Hq. injection Hq as <-.
        assert (~ (q0 < qx)%Q) by (intros H; apply Hgt in H; congruence).
        specialize (Hall c0 q0 (or_introl eq_refl) Hq0). lra.
      * apply (Hall c); [right; exact Hc | exact Hq].
Qed.

Lemma In_omap_num_of q s : In q (omap num_of s) <-> exists c, In c s /\ num_of c = Some q.
Proof.
  rewrite <- list_elem_of_In, list_elem_of_omap. split.
  - intros (c & Hc & Hq). exists c. rewrite <- list_elem_of_In. auto.
  - intros (c & Hc & Hq). exists c. rewrite list_elem_of_In. auto.
Qed.

Lemma series_figures_ordered s :
  (forall c, In c s -> isna c = true \/ exists q, num_of c = Some q) ->
  ((forall c, In c s -> isna c = true) ->
   series_median s = CNull /\ nanpercentile s 90 = CNull /\ series_max s = CNull)
  /\ ((exists c, In c s /\ isna c = false) ->
      exists qm qp qx,
        series_median s = CNum qm /\ nanpercentile s 90 = CNum qp
        /\ num_of (series_max s) = Some qx /\ (qm <= qp)%Q /\ (qp <= qx)%Q).
Proof.
  intros Hnum. split.
  - intros Hall.
    assert (Hnil : omap num_of s = []).
    { destruct (omap num_of s) as [|q l] eqn:E; [reflexivity|].
      assert (Hq : In q (omap num_of s)) by (rewrite E; left; reflexivity).
      apply In_omap_num_of in Hq. destruct Hq as (c & Hc & Hq).
      specialize (Hall c Hc). destruct c; discriminate. }
    unfold series_median, nanpercentile, median, percentile, series_max. rewrite Hnil.
    cbn [sort_by foldr]. split; [reflexivity|]. split; [reflexivity|].
    unfold series_dropna.
    rewrite (proj2 (filter_nil_iff (fun c => negb (isna c)) s)); [reflexivity|].
    intros c Hc. rewrite (Hall c Hc). reflexivity.
  - intros (c & Hc & Hcn).
    destruct (Hnum c Hc) as [Hn|(q & Hq)]; [congruence|].
    assert (Hne : omap num_of s <> []).
    { intros E. assert (Hin : In q (omap num_of s)) by (apply In_omap_num_of; eauto).
      rewrite E in Hin. destruct Hin. }
    destruct (percentile_some _ 90 Hne) as (qp & Ep).
    destruct (percentile_some _ 50 Hne) as (q50 & E50).
    pose proof (median_percentile (omap num_of s)) as Hmed. rewrite E50 in Hmed.
    destruct (median (omap num_of s)) as [qm|] eqn:Em; [|destruct Hmed].
    assert (Hmp : (q50 <= qp)%Q).
    { apply (percentile_mono (omap num_of s) 50 90); [lra | lra | lra | exact E50 | exact Ep]. }
    destruct (percentile_between (omap num_of s) 90 qp) as (a & b & _ & Hb & _ & Hqb);
      [lra | lra | exact Ep |].
    apply In_omap_num_of in Hb. destruct Hb as (cb & Hcb & Hqcb).
    assert (Hdrop : forall d, In d (series_dropna s) -> exists q, num_of d = Some q).
    { intros d Hd. unfold series_dropna in Hd. apply List.filter_In in Hd.
      destruct Hd as [Hd Hdn]. destruct (Hnum d Hd) as [H|H]; [|exact H].
      rewrite H in Hdn. discriminate. }
    assert (Hcbd : In cb (series_dropna s)).
    { unfold series_dropna. apply List.filter_In. split; [exact Hcb|].
      destruct cb; try reflexivity; discriminate. }
    unfold series_max.
    destruct (series_dropna s) as [|c0 t] eqn:Ed; [destruct Hcbd|].
    destruct (fold_max_nums t c0 Hdrop) as (qx & Hx & Hall).
    exists qm, qp, qx. unfold series_median, nanpercentile. rewrite Em, Ep.
    split; [reflexivity|]. split; [reflexivity|]. split; [exact Hx|].
    split; [lra|]. specialize (Hall cb b Hcbd Hqcb). lra.
Qed.

(** X23.  The fleet figures are consistent: on a numeric error column with
    at least one value the median is at most the 90th percentile,
    which is at most the maximum; with no value all three are
    nulls. *)
Theorem fleet_figures_ordered filtered_annual :
  "A_ABS_NetError%" ∈ columns filtered_annual ->
  (forall r, In r (rows filtered_annual) ->
     isna (cell_at "A_ABS_NetError%" r) = true
     \/ exists q, num_of (cell_at "A_ABS_NetError%" r) = Some q) ->
  exists m p x,
    fleet_median filtered_annual = Ok m /\ fleet_p90 filtered_annual = Ok p
    /\ fleet_max filtered_annual = Ok x
    /\ ((forall r, In r (rows filtered_annual) -> isna (cell_at "A_ABS_NetError%" r) = true) ->
        m = CNull /\ p = CNull /\ x = CNull)
    /\ ((exists r, In r (rows filtered_annual) /\ isna (cell_at "A_ABS_NetError%" r) = false) ->
        exists qm qp qx,
          m = CNum qm /\ p = CNum qp /\ num_of x = Some qx
          /\ (qm <= qp)%Q /\ (qp <= qx)%Q).
Proof.
  intros Ha Hnum. unfold fleet_median, fleet_p90, fleet_max.
  rewrite (getitem_ok _ _ Ha). cbn [rbind].
  set (s := map (cell_at "A_ABS_NetError%") (rows filtered_annual)).
  destruct (series_figures_ordered s) as [Hnull Hsome].
  { intros c Hc. apply in_map_iff in Hc. destruct Hc as (r & <- & Hr). apply Hnum. exact Hr. }
  do 3 eexists. split; [reflexivity|]. split; [reflexivity|]. split; [reflexivity|]. split.
  - intros Hall. apply Hnull. intros c Hc. apply in_map_iff in Hc.
    destruct Hc as (r & <- & Hr). apply Hall. exact Hr.
  - intros (r & Hr & Hn). apply Hsome. exists (cell_at "A_ABS_NetError%" r).
    split; [apply in_map; exact Hr | exact Hn].
Qed.

Lemma fleet_figures_ordered_witness :
  exists m p x,
    fleet_median annual_sample = Ok m /\ fleet_p90 annual_sample = Ok p
    /\ fleet_max annual_sample = Ok x
    /\ ((forall r, In r (rows annual_sample) -> isna (cell_at "A_ABS_NetError%" r) = true) ->
        m = CNull /\ p = CNull /\ x = CNull)
    /\ ((exists r, In r (rows annual_sample) /\ isna (cell_at "A_ABS_NetError%" r) = false) ->
        exists qm qp qx,
          m = CNum qm /\ p = CNum qp /\ num_of x = Some qx
          /\ (qm <= qp)%Q /\ (qp <= qx)%Q).
Proof.
  apply (fleet_figures_ordered annual_sample).
  - col_in.
  - intros r Hr. simpl in Hr.
    repeat (destruct Hr as [<-|Hr]; [right; eexists; vm_compute; reflexivity|]). destruct Hr.
Defined.

Example fleet_figures_sample :
  fleet_median annual_sample = Ok (CNum 24) /\ fleet_p90 annual_sample = Ok (CNum 24)
  /\ fleet_max annual_sample = Ok (CInt 24) /\ fleet_count annual_sample = Ok 3%nat.
Proof. vm_compute. repeat split; reflexivity. Qed.

(** ** Monthly breakdown *)

Lemma same2_refl k : same2 k k = true.
Proof. unfold same2. rewrite !cell_same_refl. reflexivity. Qed.

Lemma same2_sym a b : same2 a b = same2 b a.
Proof. unfold same2. rewrite (cell_same_sym a.1), (cell_same_sym a.2). reflexivity. Qed.

Lemma same2_trans a b c : same2 a b = true -> same2 b c = true -> same2 a c = true.
Proof.
  unfold same2. intros H1 H2. apply andb_prop in H1, H2.
  destruct H1 as [H1 H1'], H2 as [H2 H2'].
  rewrite (cell_same_trans _ _ _ H1 H2), (cell_same_trans _ _ _ H1' H2'). reflexivity.
Qed.

Lemma unique2_NoDup s : List.NoDup (unique2 s).
Proof.
  induction s as [|a s IH]; cbn [unique2]; constructor.
  - intros Hin. apply List.filter_In in Hin. destruct Hin as [_ Hne].
    rewrite same2_refl in Hne. discriminate.
  - apply NoDup_filter_bool. exact IH.
Qed.

Lemma In_unique2 s c : In c (unique2 s) -> In c s.
Proof.
  revert c. induction s as [|a s IH]; cbn [unique2]; [tauto|].
  intros c [->|Hin]; [left; reflexivity|].
  right. apply IH. apply List.filter_In in Hin. tauto.
Qed.

Lemma unique2_separated s a b :
  In a (unique2 s) -> In b (unique2 s) -> same2 a b = true -> a = b.
Proof.
  induction s as [|c s IH]; cbn [unique2]; [intros []|].
  intros [<-|Ha] [<-|Hb] Hab; [reflexivity | | |].
  - apply List.filter_In in Hb. destruct Hb as [_ Hb].
    rewrite same2_sym, Hab in Hb. discriminate.
  - apply List.filter_In in Ha. destruct Ha as [_ Ha]. rewrite Hab in Ha. discriminate.
  - apply List.filter_In in Ha, Hb. apply IH; tauto.
Qed.

Lemma unique2_covers s c : In c s -> exists k, In k (unique2 s) /\ same2 c k = true.
Proof.
  induction s as [|a s IH]; [intros []|]. cbn [unique2].
  intros [->|Hc]; [exists c; split; [left; reflexivity | apply same2_refl]|].
  destruct (IH Hc) as (k & Hk & Hck).
  destruct (same2 k a) eqn:E.
  - exists a. split; [left; reflexivity|]. eapply same2_trans; eassumption.
  - exists k. split; [|exact Hck]. right. apply List.filter_In. rewrite E. tauto.
Qed.


Lemma sumQ_cons x l : sumQ (x :: l) = (x + sumQ l)%Q.
Proof. reflexivity. Qed.

Lemma sumQ_perm l l' : Permutation l l' -> (sumQ l == sumQ l')%Q.
Proof.
  induction 1 as [|x l l' _ IH|x y l|l l' l'' _ IH1 _ IH2]; rewrite ?sumQ_cons.
  - reflexivity.
  - rewrite IH. reflexivity.
  - ring.
  - rewrite IH1. exact IH2.
Qed.

Lemma sumQ_ext {A} (f g : A -> Q) l :
  (forall x, In x l -> (f x == g x)%Q) -> (sumQ (map f l) == sumQ (map g l))%Q.
Proof.
  induction l as [|x l IH]; intros H; cbn [map]; rewrite ?sumQ_cons; [reflexivity|].
  rewrite (H x (or_introl eq_refl)), IH; [reflexivity|].
  intros y Hy. apply H. right. exact Hy.
Qed.

Lemma sumQ_filter_or {A} (f : A -> Q) (p q : A -> bool) l :
  (forall x, In x l -> p x = true -> q x = false) ->
  (sumQ (map f (List.filter (fun x => p x || q x) l))
   == sumQ (map f (List.filter p l)) + sumQ (map f (List.filter q l)))%Q.
Proof.
  induction l as [|x l IH]; intros H; [reflexivity|]. cbn [List.filter].
  assert (IH' := IH (fun y Hy => H y (or_intror Hy))).
  destruct (p x) eqn:Ep; cbn [orb].
  - rewrite (H x (or_introl eq_refl) Ep). cbn [map]. rewrite !sumQ_cons, IH'. ring.
  - destruct (q x); cbn [map]; rewrite ?sumQ_cons, IH'; ring.
Qed.

Lemma group_sums_total {A} (f : A -> Q) (κ : A -> cell * cell) (l : list A) U :
  List.NoDup U ->
  (forall a b, In a U -> In b U -> same2 a b = true -> a = b) ->
  (sumQ (map (fun k => sumQ (map f (List.filter (fun r => same2 (κ r) k) l))) U)
   == sumQ (map f (List.filter (fun r => existsb (same2 (κ r)) U) l)))%Q.
Proof.
  induction U as [|k U IH]; intros Hnd Hsep.
  - cbn [map existsb]. rewrite filter_none; [reflexivity | reflexivity].
  - cbn [map existsb]. rewrite sumQ_cons. inversion Hnd as [|k' U' Hk HU]; subst.
    rewrite IH; [|exact HU | intros a b Ha Hb; apply Hsep; right; assumption].
    symmetry. apply sumQ_filter_or.
    intros r _ Hrk. destruct (existsb (same2 (κ r)) U) eqn:E; [|reflexivity].
    apply existsb_exists in E. destruct E as (k2 & Hk2 & Hrk2).
    exfalso. apply Hk.
    assert (k = k2).
    { apply Hsep; [left; reflexivity | right; exact Hk2|].
      eapply same2_trans; [|exact Hrk2]. rewrite same2_sym. exact Hrk. }
    subst. exact Hk2.
Qed.

Lemma group_keys2_NoDup ks : List.NoDup (group_keys2 ks).
Proof.
  unfold group_keys2. eapply Permutation_NoDup; [symmetry; apply sort_by_perm|].
  apply unique2_NoDup.
Qed.

Lemma group_keys2_separated ks a b :
  In a (group_keys2 ks) -> In b (group_keys2 ks) -> same2 a b = true -> a = b.
Proof. unfold group_keys2. rewrite !In_sort_by. apply unique2_separated. Qed.

Lemma group_keys2_cover ks c :
  In c ks -> isna c.1 = false -> isna c.2 = false ->
  existsb (same2 c) (group_keys2 ks) = true.
Proof.
  intros Hc H1 H2. apply existsb_exists.
  destruct (unique2_covers
              (List.filter (fun k => negb (isna k.1) && negb (isna k.2)) ks) c)
    as (k & Hk & Hs).
  { apply List.filter_In. rewrite H1, H2. tauto. }
  exists k. split; [|exact Hs]. unfold group_keys2. apply In_sort_by. exact Hk.
Qed.

Lemma sumQ_ones {A} (l : list A) :
  (sumQ (map (fun _ => 1%Q) l) == inject_Z (Z.of_nat (length l)))%Q.
Proof.
  induction l as [|x l IH]; [reflexivity|]. cbn [map length]. rewrite sumQ_cons, IH.
  rewrite Nat2Z.inj_succ. unfold Z.succ. rewrite inject_Z_plus. change (inject_Z 1) with 1%Q.
  ring.
Qed.

Lemma sumQ_num_of {A} (g : A -> cell) l :
  (sumQ (omap num_of (map g l))
   == sumQ (map (fun r => match num_of (g r) with Some q => q | None => 0 end) l))%Q.
Proof.
  induction l as [|x l IH]; [reflexivity|]. cbn [map].
  change (omap num_of (g x :: map g l))
    with (match num_of (g x) with Some q => q :: omap num_of (map g l)
                                | None => omap num_of (map g l) end).
  destruct (num_of (g x)); rewrite ?sumQ_cons, IH; [reflexivity | ring].
Qed.

Lemma series_sum_sumQ {A} (g : A -> cell) l :
  (series_sum (map g l)
   == sumQ (map (fun r => match num_of (g r) with Some q => q | None => 0 end) l))%Q.
Proof. unfold series_sum. rewrite Qred_correct. apply sumQ_num_of. Qed.

Lemma heavy_trades_ok df thr :
  "Trade_Abs_MW" ∈ columns df ->
  heavy_trades df thr = Ok (DataFrame (columns df) (List.filter (above thr) (rows df))).
Proof.
  intros Ht. unfold heavy_trades. rewrite (getitem_ok _ _ Ht). cbn [rbind].
  unfold series_gt. rewrite map_map. apply (getitem_mask_map df (above thr)).
Qed.

Lemma zip_map_pair {A B C} (f : A -> B) (g : A -> C) l :
  zip (map f l) (map g l) = map (fun x => (f x, g x)) l.
Proof. apply zip_with_map_same. Qed.

Lemma sumQ_inject_nat (l : list nat) :
  (sumQ (map (fun n => inject_Z (Z.of_nat n)) l) == inject_Z (Z.of_nat (list_sum l)))%Q.
Proof.
  induction l as [|n l IH]; [reflexivity|]. cbn [map]. rewrite sumQ_cons, IH.
  change (list_sum (n :: l)) with (n + list_sum l)%nat.
  rewrite Nat2Z.inj_add, inject_Z_plus. reflexivity.
Qed.

(** X24.  The monthly breakdown adds up to the headline figures: on a
    table whose rows all have a month and whose volumes are whole
    numbers, the hours of the months sum to the
    interconnector-hours of [get_measures] and the capacities of the
    months sum to its total energy, for the same threshold; and no
    month is listed twice. *)
Theorem monthly_data_totals filtered_fact (mw_threshold : Z) :
  "Trade_Abs_MW" ∈ columns filtered_fact -> "HourStartLocal" ∈ columns filtered_fact ->
  "Date" ∈ columns filtered_fact ->
  "Month" ∈ columns filtered_fact -> "MonthName" ∈ columns filtered_fact ->
  (forall r, In r (rows filtered_fact) -> month_cells r) ->
  whole_volumes filtered_fact ->
  exists out ic_hours network_hours days energy power counts,
    monthly_data filtered_fact (CInt mw_threshold) = Ok out
    /\ get_measures filtered_fact (CInt mw_threshold)
       = Ok (ic_hours, network_hours, days, energy, power)
    /\ map (cell_at "Hours_Above_Limit") (rows out) = map (fun n => CInt (Z.of_nat n)) counts
    /\ list_sum counts = ic_hours
    /\ ic_hours = length (List.filter (over mw_threshold) (rows filtered_fact))
    /\ (series_sum (map (cell_at "Total_Capacity_MW") (rows out)) == energy)%Q
    /\ List.NoDup (map (fun o => (cell_at "Month" o, cell_at "MonthName" o)) (rows out)).
Proof.
  intros Ht Hh Hd Hm Hn Hmonth' _.
  assert (Hmonth : forall r, In r (rows filtered_fact) ->
            isna (cell_at "Month" r) = false /\ isna (cell_at "MonthName" r) = false).
  { intros r Hr. destruct (Hmonth' r Hr) as (m & nm & -> & ->). split; reflexivity. }
  rewrite (get_measures_value _ _ Ht Hh Hd). cbv zeta.
  unfold monthly_data. rewrite (heavy_trades_ok _ _ Ht). cbn [rbind].
  set (heavy := List.filter (above (CInt mw_threshold)) (rows filtered_fact)).
  rewrite !getitem_ok by assumption. cbn [rbind rows].
  rewrite zip_map_pair.
  set (κ := fun r : gmap string cell => (cell_at "Month" r, cell_at "MonthName" r)).
  set (keys := group_keys2 (map κ heavy)).
  set (group := fun k => List.filter (fun r => same2 (κ r) k) heavy).
  set (mk := fun k : cell * cell =>
               <["Total_Capacity_MW" :=
                   CNum (series_sum (map (cell_at "Trade_Abs_MW") (group k)))]>
                 (<["Hours_Above_Limit" :=
                      series_count (map (cell_at "Trade_Abs_MW") (group k))]>
                    (<["MonthName" := k.2]> ({["Month" := k.1]} : gmap string cell)))).
  assert (Hnumeric : forall r, In r heavy ->
            exists q, num_of (cell_at "Trade_Abs_MW" r) = Some q).
  { intros r Hr. apply List.filter_In in Hr. destruct Hr as [_ Hr].
    apply cell_gt_int in Hr. destruct Hr as (q & Hq & _). eauto. }
  assert (Hcover : forall r, In r heavy -> existsb (same2 (κ r)) keys = true).
  { intros r Hr. apply group_keys2_cover.
    - apply in_map. exact Hr.
    - apply List.filter_In in Hr. apply Hmonth. tauto.
    - apply List.filter_In in Hr. apply Hmonth. tauto. }
  assert (Hall : List.filter (fun r => existsb (same2 (κ r)) keys) heavy = heavy).
  { apply filter_all. exact Hcover. }
  exists (DataFrame ["Month"; "MonthName"; "Hours_Above_Limit"; "Total_Capacity_MW"]
            (map mk keys)).
  do 5 eexists. exists (map (fun k => length (group k)) keys).
  split; [reflexivity|]. split; [reflexivity|]. cbn [rows].
  split; [|split; [|split; [|split]]].
  - rewrite !map_map. apply map_ext_in. intros k _. unfold mk.
    rewrite cell_at_insert_ne by discriminate.
    rewrite cell_at_insert_eq. unfold series_count, series_size, series_dropna.
    rewrite filter_all; [rewrite length_map; reflexivity|].
    intros c Hc. apply in_map_iff in Hc. destruct Hc as (r & <- & Hr).
    unfold group in Hr. apply List.filter_In in Hr. destruct Hr as [Hr _].
    destruct (Hnumeric r Hr) as (q & Hq).
    destruct (cell_at "Trade_Abs_MW" r); try reflexivity; discriminate.
  - apply Nat2Z.inj, inject_Z_injective.
    eapply Qeq_trans; [symmetry; apply sumQ_inject_nat|]. rewrite map_map.
    eapply Qeq_trans;
      [apply (sumQ_ext _ (fun k => sumQ (map (fun _ => 1%Q) (group k))))|].
    + intros k _. symmetry. apply sumQ_ones.
    + eapply Qeq_trans;
        [apply (group_sums_total (fun _ => 1%Q) κ heavy keys
                  (group_keys2_NoDup _) (group_keys2_separated _))|].
      rewrite Hall. apply sumQ_ones.
  - unfold heavy. rewrite filter_above_over. reflexivity.
  - rewrite map_map.
    eapply Qeq_trans;
      [apply (series_sum_sumQ (fun k => cell_at "Total_Capacity_MW" (mk k)) keys)|].
    eapply Qeq_trans;
      [apply (sumQ_ext _ (fun k => sumQ (map (fun r => match num_of (cell_at "Trade_Abs_MW" r)
                                                       with Some q => q | None => 0%Q end)
                                             (group k))))|].
    + intros k _. unfold mk. rewrite cell_at_insert_eq. cbn [num_of].
      apply series_sum_sumQ.
    + eapply Qeq_trans;
        [apply (group_sums_total _ κ heavy keys
                  (group_keys2_NoDup _) (group_keys2_separated _))|].
      rewrite Hall. symmetry. apply series_sum_sumQ.
  - rewrite map_map.
    rewrite (map_ext (fun k => (cell_at "Month" (mk k), cell_at "MonthName" (mk k)))
                     (fun k => k)).
    + rewrite map_id. apply group_keys2_NoDup.
    + intros [k1 k2]. unfold mk. cbn [fst snd].
      rewrite !(cell_at_insert_ne "Month") by discriminate. rewrite cell_at_singleton.
      rewrite !(cell_at_insert_ne "MonthName" "Total_Capacity_MW") by discriminate.
      rewrite !(cell_at_insert_ne "MonthName" "Hours_Above_Limit") by discriminate.
      rewrite cell_at_insert_eq. reflexivity.
Qed.

Lemma fact_months_sample_whole : whole_volumes fact_months_sample.
Proof.
  split; [vm_compute; discriminate|]. intros r Hr. simpl in Hr.
  repeat (destruct Hr as [<-|Hr];
          [eexists; eexists; split; [vm_compute; reflexivity|];
           split; [reflexivity | lia]|]).
  destruct Hr.
Qed.

Lemma monthly_data_totals_witness :
  exists out ic_hours network_hours days energy power counts,
    monthly_data fact_months_sample (CInt 500) = Ok out
    /\ get_measures fact_months_sample (CInt 500)
       = Ok (ic_hours, network_hours, days, energy, power)
    /\ map (cell_at "Hours_Above_Limit") (rows out) = map (fun n => CInt (Z.of_nat n)) counts
    /\ list_sum counts = ic_hours
    /\ ic_hours = length (List.filter (over 500) (rows fact_months_sample))
    /\ (series_sum (map (cell_at "Total_Capacity_MW") (rows out)) == energy)%Q
    /\ List.NoDup (map (fun o => (cell_at "Month" o, cell_at "MonthName" o)) (rows out)).
Proof.
  apply (monthly_data_totals fact_months_sample 500); try col_in.
  - intros r Hr. simpl in Hr.
    repeat (destruct Hr as [<-|Hr]; [do 2 eexists; vm_compute; split; reflexivity|]).
    destruct Hr.
  - exact fact_months_sample_whole.
Defined.

Example monthly_data_sample :
  match monthly_data fact_months_sample (CInt 500) with
  | Ok out => map (fun o => (cell_at "MonthName" o, cell_at "Hours_Above_Limit" o,
                             cell_at "Total_Capacity_MW" o)) (rows out)
  | Raise _ => []
  end = [(CStr "March", CInt 2, CNum 1350); (CStr "April", CInt 1, CNum 900)].
Proof. vm_compute. reflexivity. Qed.

